(** * Support-agent summary e-mails: aggregation and insight synthesis

    A shallow embedding of the pure aggregation code of the repository
    (analyticsService.ts, insightsService.ts and the [aggregateAnalyses]
    method of openaiAnalysisService.ts) together with the properties the
    specification states about it.

    Conventions of the embedding.
    - A JavaScript [number] that is a count is a [Z]; every other number
      (rates, averages, percentages, response times) is an exact rational
      [Q], and a decimal literal such as [0.95] is the rational it
      denotes.  Floating-point rounding is idealised away; where the
      source floors a length times [0.95] or [0.99] the exact and the
      double computation agree for every array length JavaScript allows
      (the doubles nearest to 0.95 and 0.99 are below them by a relative
      error smaller than half a unit in the last place).
    - An optional field is an [option]; the source's truthiness tests are
      spelled out ([0] and the empty string count as absent).
    - A [Map] is an association list in insertion order, since the order
      of [Map.entries()] feeds stable sorts.
    - [Array.prototype.sort] is a stable sort, modelled by insertion. *)

From Stdlib Require Import List ZArith QArith Qround String Ascii Bool.
From Stdlib Require Import Lia Lqa Sorted Permutation DecimalString.
Import ListNotations.

Set Implicit Arguments.

(* ================================================================= *)
(** ** The JavaScript fragment the services rely on *)

Module JS.

(** Strict comparison of numbers. *)
Definition Qlt_bool (x y : Q) : bool := negb (Qle_bool y x).
Definition Qgt_bool (x y : Q) : bool := Qlt_bool y x.
Definition Qge_bool (x y : Q) : bool := Qle_bool y x.

(** Truthiness. *)
Definition truthy_Q (x : Q) : bool := negb (Qeq_bool x 0).
Definition truthy_Z (x : Z) : bool := negb (x =? 0)%Z.
Definition truthy_string (s : string) : bool := negb (s =? EmptyString)%string.

(** [o || d] for an optional count. *)
Definition Z_or (o : option Z) (d : Z) : Z :=
  match o with
  | Some c => if truthy_Z c then c else d
  | None => d
  end.

(** [arr.length] as a count. *)
Definition len {A} (l : list A) : Z := Z.of_nat (List.length l).

(** [arr.slice(start, end)]: negative positions count from the end,
    both are clipped to the array. *)
Definition rel_index (n k : Z) : Z :=
  if (k <? 0)%Z then Z.max (n + k) 0 else Z.min k n.

Definition slice {A} (l : list A) (start : Z) (stop : option Z) : list A :=
  let n := len l in
  let from := rel_index n start in
  let upto := match stop with Some e => rel_index n e | None => n end in
  firstn (Z.to_nat (upto - from)) (skipn (Z.to_nat from) l).

(** [arr[i]]; [None] stands for [undefined]. *)
Definition index {A} (l : list A) (i : Z) : option A :=
  if (i <? 0)%Z then None else nth_error l (Z.to_nat i).

(** [Math.floor]. *)
Definition Math_floor (x : Q) : Z := Qfloor x.

(** [arr.push(x)]. *)
Definition push {A} (l : list A) (x : A) : list A := l ++ [x].

(** [arr.reduce((sum, x) => sum + f(x), 0)]. *)
Definition sumZ {A} (f : A -> Z) (l : list A) : Z :=
  fold_left (fun sum x => (sum + f x)%Z) l 0%Z.

Definition sumQ {A} (f : A -> Q) (l : list A) : Q :=
  fold_left (fun sum x => sum + f x) l 0.

(** [arr.sort(cmp)]: the comparator answers a number whose sign
    decides; equal elements keep their order. *)
Section Sort.
Context {A : Type} (cmp : A -> A -> Q).

Fixpoint insert (x : A) (l : list A) : list A :=
  match l with
  | [] => [x]
  | y :: l' => if Qle_bool (cmp x y) 0 then x :: y :: l'
               else y :: insert x l'
  end.

Definition sort (l : list A) : list A := fold_right insert [] l.
End Sort.

(** [Map<K, V>] with [get] and [set]; [set] on a present key keeps the
    key's position, on a new key appends. *)
Definition Map (K V : Type) : Type := list (K * V).

Section Map.
Context {K V : Type} (eqb : K -> K -> bool).

Fixpoint Map_get (m : Map K V) (k : K) : option V :=
  match m with
  | [] => None
  | (k', v) :: m' => if eqb k' k then Some v else Map_get m' k
  end.

Fixpoint Map_set (m : Map K V) (k : K) (v : V) : Map K V :=
  match m with
  | [] => [(k, v)]
  | (k', v') :: m' =>
      if eqb k' k then (k', v) :: m' else (k', v') :: Map_set m' k v
  end.
End Map.

(** [Array.from(new Set(l))]: first occurrences, in order. *)
Fixpoint Set_add (seen : list string) (x : string) : list string :=
  match seen with
  | [] => [x]
  | y :: seen' => if (y =? x)%string then seen else y :: Set_add seen' x
  end.

Definition Set_from (l : list string) : list string :=
  fold_left Set_add l [].

(** Decimal rendering of an integer, as in a template literal. *)
Definition Z_toString (z : Z) : string :=
  NilZero.string_of_int (Z.to_int z).

(** Leading zeros up to a width of [width] digits. *)
Fixpoint pad_zeros (width : nat) (s : string) : string :=
  match width with
  | O => s
  | S w => if (String.length s <=? w)%nat
           then pad_zeros w (String "0"%char s) else s
  end.

(** [x.toFixed(f)] on the rational value, for magnitudes below
    [1e21]: the nearest multiple of [10^-f], ties upward in magnitude,
    the sign written first. *)
Definition toFixed_nonneg (f : nat) (x : Q) : string :=
  let scale := (10 ^ Z.of_nat f)%Z in
  let n := Qfloor (x * inject_Z scale + (1 # 2)) in
  let int_part := Z_toString (n / scale)%Z in
  match f with
  | O => int_part
  | _ => (int_part ++ "." ++ pad_zeros f (Z_toString (n mod scale)%Z))%string
  end.

Definition toFixed (f : nat) (x : Q) : string :=
  if Qlt_bool x 0 then ("-" ++ toFixed_nonneg f (- x))%string
  else toFixed_nonneg f x.

(** [o || d] for an optional number. *)
Definition Q_or (o : option Q) (d : Q) : Q :=
  match o with
  | Some x => if truthy_Q x then x else d
  | None => d
  end.

(** Truthiness of an optional flag and of an optional text. *)
Definition truthy_flag (o : option bool) : bool :=
  match o with Some true => true | _ => false end.

Definition truthy_text (o : option string) : bool :=
  match o with Some s => truthy_string s | None => false end.

(** The elements of an array of optional strings that are strings. *)
Definition strings (l : list (option string)) : list string :=
  flat_map (fun o => match o with Some s => [s] | None => [] end) l.

(** [s.includes(sub)]. *)
Fixpoint includes (s sub : string) : bool :=
  if prefix sub s then true
  else match s with
       | EmptyString => false
       | String _ s' => includes s' sub
       end.

(** [s.toLowerCase()] on a string whose code units are below 256:
    the letters [A-Z] and the capital letters of Latin-1 move up by
    32, every other unit stays. *)
Definition lower_unit (c : ascii) : ascii :=
  let n := nat_of_ascii c in
  if ((65 <=? n) && (n <=? 90))%nat
     || ((192 <=? n) && (n <=? 222) && negb (n =? 215))%nat
  then ascii_of_nat (n + 32) else c.

Fixpoint toLowerCase (s : string) : string :=
  match s with
  | EmptyString => EmptyString
  | String c s' => String (lower_unit c) (toLowerCase s')
  end.

(** [s.split(sep)[0]]: the text before the first [sep]. *)
Fixpoint before (sep : ascii) (s : string) : string :=
  match s with
  | EmptyString => EmptyString
  | String c s' => if Ascii.eqb c sep then EmptyString
                   else String c (before sep s')
  end.

(** [s.length]. *)
Definition strlen (s : string) : Z := Z.of_nat (String.length s).

(** The double-quote character, as a one-character string. *)
Definition dquote : string := String (ascii_of_nat 34) EmptyString.

End JS.

(* ================================================================= *)
(** ** analyticsService.ts *)

(** A [Date] is its time value, milliseconds since the epoch. *)
Definition Date := Z.

Module Metadata.
(** The keys of the [metadata] bag that the analytics read. *)
Record t := mk {
  responseTime : option Q;
  messageCount : option Z;
  hasActions : option bool;
  appVersion : option string
}.
End Metadata.

Module ChatLog.
Record t := mk {
  id : string;
  conversationId : option string;
  userId : option string;
  userMessage : option string;
  botResponse : option string;
  timestamp : option Date;
  sessionDuration : option Q;
  resolved : option bool;
  rating : option Q;
  category : option string;
  error : option bool;
  errorMessage : option string;
  platform : option string;
  metadata : option Metadata.t
}.
End ChatLog.

Module CategoryCount.
Record t := mk { category : string; count : Z; percentage : Q }.
End CategoryCount.

Module HourlyCount.
Record t := mk { hour : Z; count : Z }.
End HourlyCount.

Module DailyCount.
Record t := mk { date : string; count : Z; resolved : Z; errors : Z }.
End DailyCount.

Module IssuePattern.
Record t := mk { pattern : string; frequency : Z; examples : list string }.
End IssuePattern.

Module SentimentAnalysis.
Record t := mk { positive : Q; neutral : Q; negative : Q }.
End SentimentAnalysis.

Module ResponseTimeStats.
Record t := mk { average : Q; median : Q; p95 : Q; p99 : Q }.
End ResponseTimeStats.

Module PlatformCount.
Record t := mk { platform : string; count : Z; percentage : Q }.
End PlatformCount.

Module VersionCount.
Record t := mk { version : string; count : Z; percentage : Q }.
End VersionCount.

Module Analytics.
Record t := mk {
  totalConversations : Z;
  uniqueUsers : Z;
  averageSessionDuration : Q;
  averageRating : Q;
  resolvedRate : Q;
  errorRate : Q;
  topCategories : list CategoryCount.t;
  hourlyDistribution : list HourlyCount.t;
  dailyTrend : list DailyCount.t;
  commonIssues : list IssuePattern.t;
  userSentiment : SentimentAnalysis.t;
  responseTimeAnalysis : ResponseTimeStats.t;
  platformDistribution : list PlatformCount.t;
  appVersions : list VersionCount.t;
  averageMessagesPerSession : Q;
  sessionsWithActions : Z;
  totalMessages : Z;
  averageMessageLength : Q
}.
End Analytics.

(** The values of [dailyMap] in [getDailyTrend]. *)
Module DailyStats.
Record t := mk { count : Z; resolved : Z; errors : Z }.
End DailyStats.

(** The values of [issuePatterns] in [findCommonIssues]; the [Set] of
    examples is its elements in insertion order. *)
Module IssueData.
Record t := mk { count : Z; examples : list string }.
End IssueData.

Module AnalyticsService.

(** [log.resolved === true] and [log.error === true]. *)
Definition is_true (o : option bool) : bool :=
  match o with Some true => true | _ => false end.

Definition calculateResolvedRate (logs : list ChatLog.t) : Q :=
  if (JS.len logs =? 0)%Z then 0
  else
    let resolved := JS.len (filter (fun log => is_true (ChatLog.resolved log)) logs) in
    (inject_Z resolved / inject_Z (JS.len logs)) * 100.

Definition calculateErrorRate (logs : list ChatLog.t) : Q :=
  if (JS.len logs =? 0)%Z then 0
  else
    let errors := JS.len (filter (fun log => is_true (ChatLog.error log)) logs) in
    (inject_Z errors / inject_Z (JS.len logs)) * 100.

(** The counting loop of the breakdowns:
    [logs.forEach(log => { if (key) map.set(key, (map.get(key) || 0) + 1) })]. *)
Definition bump {K} (eqb : K -> K -> bool) (m : JS.Map K Z) (k : K) : JS.Map K Z :=
  JS.Map_set eqb m k (JS.Z_or (JS.Map_get eqb m k) 0 + 1)%Z.

Definition countStep (key : ChatLog.t -> option string)
    (m : JS.Map string Z) (log : ChatLog.t) : JS.Map string Z :=
  match key log with
  | Some k => if JS.truthy_string k then bump String.eqb m k else m
  | None => m
  end.

Definition countBy (key : ChatLog.t -> option string) (logs : list ChatLog.t)
  : JS.Map string Z :=
  fold_left (countStep key) logs [].

(** [(a, b) => b.count - a.count]. *)
Definition byCountDesc {E} (count : E -> Z) (a b : E) : Q :=
  inject_Z (count b - count a).

Definition getTopCategories (logs : list ChatLog.t) : list CategoryCount.t :=
  let categoryMap := countBy ChatLog.category logs in
  let total := JS.len logs in
  let categories :=
    JS.slice
      (JS.sort (byCountDesc CategoryCount.count)
         (map (fun '(category, count) =>
                 CategoryCount.mk category count
                   ((inject_Z count / inject_Z total) * 100))
            categoryMap))
      0 (Some 10%Z) in
  categories.

Section LocalTime.
(** The host's offset from UTC, in milliseconds, at an instant. *)
Variable LocalTZA : Z -> Z.

(** [date.getHours()]. *)
Definition getHours (d : Date) : Z := ((d + LocalTZA d) / 3600000) mod 24.

(** One round of the loop over the logs. *)
Definition hourlyStep (hourlyMap : JS.Map Z Z) (log : ChatLog.t)
  : JS.Map Z Z :=
  match ChatLog.timestamp log with
  | Some ts => let hour := getHours ts in bump Z.eqb hourlyMap hour
  | None => hourlyMap
  end.

Definition getHourlyDistribution (logs : list ChatLog.t) : list HourlyCount.t :=
  let hourlyMap := fold_left hourlyStep logs [] in
  map (fun hour =>
         HourlyCount.mk hour (JS.Z_or (JS.Map_get Z.eqb hourlyMap hour) 0))
    (map Z.of_nat (seq 0 24)).
End LocalTime.

(** [log.metadata?.responseTime] and [log.metadata?.appVersion]. *)
Definition metadata_responseTime (log : ChatLog.t) : option Q :=
  match ChatLog.metadata log with
  | Some md => Metadata.responseTime md
  | None => None
  end.

Definition metadata_appVersion (log : ChatLog.t) : option string :=
  match ChatLog.metadata log with
  | Some md => Metadata.appVersion md
  | None => None
  end.

(** The samples pushed by the first loop of [analyzeResponseTimes]. *)
Definition responseTimes (logs : list ChatLog.t) : list Q :=
  fold_left
    (fun acc log =>
       match metadata_responseTime log with
       | Some rt => if JS.truthy_Q rt then JS.push acc rt else acc
       | None => acc
       end)
    logs [].

(** [(a, b) => a - b]. *)
Definition ascending (a b : Q) : Q := a - b.

(** [None] stands for a result with an [undefined] field, which an
    out-of-range array read would produce. *)
Definition analyzeResponseTimes (logs : list ChatLog.t)
  : option ResponseTimeStats.t :=
  let responseTimes := responseTimes logs in
  if (JS.len responseTimes =? 0)%Z then
    Some (ResponseTimeStats.mk 0 0 0 0)
  else
    let responseTimes := JS.sort ascending responseTimes in
    let n := JS.len responseTimes in
    let average := JS.sumQ (fun time => time) responseTimes / inject_Z n in
    match JS.index responseTimes (JS.Math_floor (inject_Z n / 2)),
          JS.index responseTimes (JS.Math_floor (inject_Z n * (95 # 100))),
          JS.index responseTimes (JS.Math_floor (inject_Z n * (99 # 100))) with
    | Some median, Some p95, Some p99 =>
        Some (ResponseTimeStats.mk average median p95 p99)
    | _, _, _ => None
    end.

Definition getPlatformDistribution (logs : list ChatLog.t) : list PlatformCount.t :=
  let platformMap := countBy ChatLog.platform logs in
  let total := JS.len logs in
  JS.sort (byCountDesc PlatformCount.count)
    (map (fun '(platform, count) =>
            PlatformCount.mk platform count
              ((inject_Z count / inject_Z total) * 100))
       platformMap).

Definition getAppVersions (logs : list ChatLog.t) : list VersionCount.t :=
  let versionMap := countBy metadata_appVersion logs in
  let total := JS.len logs in
  JS.slice
    (JS.sort (byCountDesc VersionCount.count)
       (map (fun '(version, count) =>
               VersionCount.mk version count
                 ((inject_Z count / inject_Z total) * 100))
          versionMap))
    0 (Some 10%Z).

Definition getUniqueUsers (logs : list ChatLog.t) : Z :=
  let uniqueUserIds :=
    JS.Set_from
      (JS.strings (filter JS.truthy_text (map ChatLog.userId logs))) in
  JS.len uniqueUserIds.

Definition calculateAverageSessionDuration (logs : list ChatLog.t) : Q :=
  let durations :=
    filter (fun d => JS.Qgt_bool d 0)
      (map (fun log => JS.Q_or (ChatLog.sessionDuration log) 0) logs) in
  if (JS.len durations =? 0)%Z then 0
  else JS.sumQ (fun d => d) durations / inject_Z (JS.len durations).

Definition calculateAverageRating (logs : list ChatLog.t) : Q :=
  let ratings :=
    filter (fun r => JS.Qgt_bool r 0)
      (map (fun log => JS.Q_or (ChatLog.rating log) 0) logs) in
  if (JS.len ratings =? 0)%Z then 0
  else JS.sumQ (fun r => r) ratings / inject_Z (JS.len ratings).

(** [(a, b) => b.frequency - a.frequency]. *)
Definition byFrequencyDesc (a b : IssuePattern.t) : Q :=
  inject_Z (IssuePattern.frequency b - IssuePattern.frequency a).

Definition commonKeywords : list string :=
  ["error"; "not working"; "broken"; "failed"; "issue"; "problem";
   "help"; "stuck"; "crash"; "slow"; "timeout"; "login"; "password";
   "payment"; "checkout"; "loading"; "display"; "missing"; "wrong"]%string.

(** [issuePatterns.get(keyword) || { count: 0, examples: new Set() }]. *)
Definition existingIssue (issuePatterns : JS.Map string IssueData.t)
    (keyword : string) : IssueData.t :=
  match JS.Map_get String.eqb issuePatterns keyword with
  | Some p => p
  | None => IssueData.mk 0 []
  end.

(** [pattern.count++] and the guarded [pattern.examples.add(...)]. *)
Definition recordIssue (userMessage : string) (pattern : IssueData.t)
  : IssueData.t :=
  let pattern :=
    IssueData.mk (IssueData.count pattern + 1) (IssueData.examples pattern) in
  if (JS.len (IssueData.examples pattern) <? 3)%Z
     && JS.truthy_string userMessage
  then IssueData.mk (IssueData.count pattern)
         (JS.Set_add (IssueData.examples pattern)
            (substring 0 100 userMessage))
  else pattern.

(** The body of the inner loop over the keywords, for a log with user
    message [userMessage] and lowered message [message]. *)
Definition issueStep (userMessage message : string)
    (issuePatterns : JS.Map string IssueData.t) (keyword : string)
  : JS.Map string IssueData.t :=
  if JS.includes message keyword then
    let pattern := existingIssue issuePatterns keyword in
    JS.Map_set String.eqb issuePatterns keyword (recordIssue userMessage pattern)
  else issuePatterns.

(** One round of the outer loop over the logs. *)
Definition issueLogStep (issuePatterns : JS.Map string IssueData.t)
    (log : ChatLog.t) : JS.Map string IssueData.t :=
  match ChatLog.userMessage log with
  | Some userMessage =>
      if JS.truthy_string userMessage then
        let message := JS.toLowerCase userMessage in
        fold_left (issueStep userMessage message) commonKeywords issuePatterns
      else issuePatterns
  | None => issuePatterns
  end.

Definition findCommonIssues (logs : list ChatLog.t) : list IssuePattern.t :=
  let issuePatterns := fold_left issueLogStep logs [] in
  JS.slice
    (JS.sort byFrequencyDesc
       (map (fun '(pattern, data) =>
               IssuePattern.mk pattern (IssueData.count data)
                 (IssueData.examples data))
          issuePatterns))
    0 (Some 10%Z).

Definition positiveWords : list string :=
  ["thank"; "great"; "excellent"; "good"; "perfect"; "amazing";
   "helpful"; "solved"]%string.

Definition negativeWords : list string :=
  ["bad"; "terrible"; "awful"; "hate"; "angry"; "frustrated";
   "disappointed"; "useless"]%string.

(** The score of a lowered message: one up per positive word it
    contains, one down per negative word. *)
Definition sentimentScore (message : string) : Z :=
  let sentimentScore := 0%Z in
  let sentimentScore :=
    fold_left
      (fun score word => if JS.includes message word then score + 1 else score)%Z
      positiveWords sentimentScore in
  let sentimentScore :=
    fold_left
      (fun score word => if JS.includes message word then score - 1 else score)%Z
      negativeWords sentimentScore in
  sentimentScore.

(** One round of the loop over the logs, on the counters
    [(positive, negative, neutral)]. *)
Definition sentimentStep (counters : Z * Z * Z) (log : ChatLog.t)
  : Z * Z * Z :=
  let '(positive, negative, neutral) := counters in
  match ChatLog.userMessage log with
  | Some userMessage =>
      if JS.truthy_string userMessage then
        let message := JS.toLowerCase userMessage in
        let sentimentScore := sentimentScore message in
        if (sentimentScore >? 0)%Z then (positive + 1, negative, neutral)%Z
        else if (sentimentScore <? 0)%Z then (positive, negative + 1, neutral)%Z
        else (positive, negative, neutral + 1)%Z
      else counters
  | None => counters
  end.

Definition analyzeUserSentiment (logs : list ChatLog.t) : SentimentAnalysis.t :=
  let '(positive, negative, neutral) := fold_left sentimentStep logs (0, 0, 0)%Z in
  let total :=
    let sum := (positive + negative + neutral)%Z in
    if JS.truthy_Z sum then sum else 1%Z in
  SentimentAnalysis.mk
    ((inject_Z positive / inject_Z total) * 100)
    ((inject_Z neutral / inject_Z total) * 100)
    ((inject_Z negative / inject_Z total) * 100).

Definition calculateAverageMessagesPerSession (logs : list ChatLog.t) : Q :=
  if (JS.len logs =? 0)%Z then 0
  else
    let sessionMessageCounts := countBy ChatLog.conversationId logs in
    let totalSessions := JS.len sessionMessageCounts in
    let totalMessages := JS.sumZ snd sessionMessageCounts in
    if (totalSessions >? 0)%Z
    then inject_Z totalMessages / inject_Z totalSessions
    else 0.

(** [log.metadata?.hasActions] and [log.metadata?.messageCount]. *)
Definition metadata_hasActions (log : ChatLog.t) : option bool :=
  match ChatLog.metadata log with
  | Some md => Metadata.hasActions md
  | None => None
  end.

Definition metadata_messageCount (log : ChatLog.t) : option Z :=
  match ChatLog.metadata log with
  | Some md => Metadata.messageCount md
  | None => None
  end.

(** The [Set] of [getSessionsWithActions], in insertion order. *)
Definition sessionsWithActionsSet (logs : list ChatLog.t) : list string :=
  fold_left
    (fun set log =>
       match ChatLog.conversationId log with
       | Some id =>
           if JS.truthy_flag (metadata_hasActions log) && JS.truthy_string id
           then JS.Set_add set id else set
       | None => set
       end)
    logs [].

Definition getSessionsWithActions (logs : list ChatLog.t) : Z :=
  JS.len (sessionsWithActionsSet logs).

Definition getTotalMessages (logs : list ChatLog.t) : Z :=
  JS.sumZ (fun log => JS.Z_or (metadata_messageCount log) 1) logs.

(** The lengths pushed by the loop of [calculateAverageMessageLength]. *)
Definition messageLengths (logs : list ChatLog.t) : list Z :=
  fold_left
    (fun acc log =>
       let acc :=
         match ChatLog.userMessage log with
         | Some s => if JS.truthy_string s then JS.push acc (JS.strlen s) else acc
         | None => acc
         end in
       match ChatLog.botResponse log with
       | Some s => if JS.truthy_string s then JS.push acc (JS.strlen s) else acc
       | None => acc
       end)
    logs [].

Definition calculateAverageMessageLength (logs : list ChatLog.t) : Q :=
  let messageLengths := messageLengths logs in
  if (JS.len messageLengths =? 0)%Z then 0
  else inject_Z (JS.sumZ (fun length => length) messageLengths)
       / inject_Z (JS.len messageLengths).

Section Host.
(** What the analytics take from the host: the offset from UTC,
    [Date.prototype.toISOString] and [String.prototype.localeCompare]. *)
Variable LocalTZA : Z -> Z.
Variable toISOString : Date -> string.
Variable localeCompare : string -> string -> Q.

(** [new Date(log.timestamp).toISOString().split('T')[0]]. *)
Definition dateOf (ts : Date) : string := JS.before "T" (toISOString ts).

(** [dailyMap.get(date) || { count: 0, resolved: 0, errors: 0 }]. *)
Definition existingDay (dailyMap : JS.Map string DailyStats.t)
    (date : string) : DailyStats.t :=
  match JS.Map_get String.eqb dailyMap date with
  | Some e => e
  | None => DailyStats.mk 0 0 0
  end.

(** [existing.count++] and the two guarded increments. *)
Definition recordDay (log : ChatLog.t) (existing : DailyStats.t)
  : DailyStats.t :=
  DailyStats.mk (DailyStats.count existing + 1)
    (if JS.truthy_flag (ChatLog.resolved log)
     then DailyStats.resolved existing + 1
     else DailyStats.resolved existing)
    (if JS.truthy_flag (ChatLog.error log)
     then DailyStats.errors existing + 1
     else DailyStats.errors existing).

(** One round of the loop of [getDailyTrend]. *)
Definition dailyStep (dailyMap : JS.Map string DailyStats.t)
    (log : ChatLog.t) : JS.Map string DailyStats.t :=
  match ChatLog.timestamp log with
  | Some ts =>
      let date := dateOf ts in
      let existing := existingDay dailyMap date in
      JS.Map_set String.eqb dailyMap date (recordDay log existing)
  | None => dailyMap
  end.

(** [(a, b) => a.date.localeCompare(b.date)]. *)
Definition byDate (a b : DailyCount.t) : Q :=
  localeCompare (DailyCount.date a) (DailyCount.date b).

Definition getDailyTrend (logs : list ChatLog.t) : list DailyCount.t :=
  let dailyMap := fold_left dailyStep logs [] in
  JS.slice
    (JS.sort byDate
       (map (fun '(date, stats) =>
               DailyCount.mk date (DailyStats.count stats)
                 (DailyStats.resolved stats) (DailyStats.errors stats))
          dailyMap))
    (-30) None.

(** [None] when the response-time statistics would hold an
    [undefined] field. *)
Definition analyzeLogsAggregation (logs : list ChatLog.t)
  : option Analytics.t :=
  let totalConversations := JS.len logs in
  let uniqueUsers := getUniqueUsers logs in
  let averageSessionDuration := calculateAverageSessionDuration logs in
  let averageRating := calculateAverageRating logs in
  let resolvedRate := calculateResolvedRate logs in
  let errorRate := calculateErrorRate logs in
  let topCategories := getTopCategories logs in
  let hourlyDistribution := getHourlyDistribution LocalTZA logs in
  let dailyTrend := getDailyTrend logs in
  let commonIssues := findCommonIssues logs in
  let userSentiment := analyzeUserSentiment logs in
  match analyzeResponseTimes logs with
  | Some responseTimeAnalysis =>
      let platformDistribution := getPlatformDistribution logs in
      let appVersions := getAppVersions logs in
      let averageMessagesPerSession := calculateAverageMessagesPerSession logs in
      let sessionsWithActions := getSessionsWithActions logs in
      let totalMessages := getTotalMessages logs in
      let averageMessageLength := calculateAverageMessageLength logs in
      Some (Analytics.mk totalConversations uniqueUsers
              averageSessionDuration averageRating resolvedRate errorRate
              topCategories hourlyDistribution dailyTrend commonIssues
              userSentiment responseTimeAnalysis platformDistribution
              appVersions averageMessagesPerSession sessionsWithActions
              totalMessages averageMessageLength)
  | None => None
  end.
End Host.

End AnalyticsService.

(* ================================================================= *)
(** ** insightsService.ts *)

Module Trend.
Inductive t := up | down | stable.
End Trend.

(** The literal union [high | medium | low], used for alert severity and
    for the priority and severity tags of the qualitative analysis. *)
Module Level.
Inductive t := high | medium | low.
End Level.

(** [value: string | number]. *)
Inductive MetricValue :=
| Num (n : Z)
| Str (s : string).

Module KeyMetric.
Record t := mk {
  name : string;
  value : MetricValue;
  change : option string;
  trend : option Trend.t
}.
End KeyMetric.

Module Alert.
Record t := mk {
  severity : Level.t;
  message : string;
  metric : option string;
  value : option Q
}.
End Alert.

Module InsightsService.
Import JS.
Local Open Scope string_scope.





(** [hourlyDistribution.reduce((max, hour) =>
      hour.count > max.count ? hour : max, hourlyDistribution[0])];
    [None] is the [undefined] of an empty distribution. *)
Definition peakHour (hourlyDistribution : list HourlyCount.t)
  : option HourlyCount.t :=
  match hourlyDistribution with
  | [] => None
  | first :: _ =>
      Some (fold_left
              (fun max hour =>
                 if (HourlyCount.count hour >? HourlyCount.count max)%Z
                 then hour else max)
              hourlyDistribution first)
  end.

Definition generateAlerts (analytics : Analytics.t) : list Alert.t :=
  let alerts := [] in
  let alerts :=
    if Qgt_bool (Analytics.errorRate analytics) 10 then
      push alerts (Alert.mk Level.high
        ("High error rate detected: "
           ++ toFixed 1 (Analytics.errorRate analytics) ++ "%")
        (Some "errorRate") (Some (Analytics.errorRate analytics)))
    else alerts in
  let alerts :=
    if Qlt_bool (Analytics.resolvedRate analytics) 60 then
      push alerts (Alert.mk Level.high
        ("Low resolution rate: "
           ++ toFixed 1 (Analytics.resolvedRate analytics) ++ "%")
        (Some "resolvedRate") (Some (Analytics.resolvedRate analytics)))
    else alerts in
  let alerts :=
    if Qlt_bool (Analytics.averageRating analytics) 3
       && Qgt_bool (Analytics.averageRating analytics) 0 then
      push alerts (Alert.mk Level.medium
        ("Low average rating: "
           ++ toFixed 2 (Analytics.averageRating analytics) ++ "/5")
        (Some "averageRating") (Some (Analytics.averageRating analytics)))
    else alerts in
  let negative := SentimentAnalysis.negative (Analytics.userSentiment analytics) in
  let alerts :=
    if Qgt_bool negative 30 then
      push alerts (Alert.mk Level.medium
        ("High negative sentiment: " ++ toFixed 1 negative ++ "%")
        (Some "sentiment") (Some negative))
    else alerts in
  let p95 := ResponseTimeStats.p95 (Analytics.responseTimeAnalysis analytics) in
  let alerts :=
    if Qgt_bool p95 5000 then
      push alerts (Alert.mk Level.low
        ("Slow response times - P95: " ++ toFixed 1 (p95 / 1000) ++ "s")
        (Some "responseTime") (Some p95))
    else alerts in
  let alerts :=
    match peakHour (Analytics.hourlyDistribution analytics) with
    | Some peakHour =>
        if Qgt_bool (inject_Z (HourlyCount.count peakHour))
             (inject_Z (Analytics.totalConversations analytics) * (15 # 100))
        then
          push alerts (Alert.mk Level.low
            ("High traffic concentration at "
               ++ Z_toString (HourlyCount.hour peakHour) ++ ":00 ("
               ++ Z_toString (HourlyCount.count peakHour) ++ " conversations)")
            (Some "trafficPeak") (Some (inject_Z (HourlyCount.count peakHour))))
        else alerts
    | None => alerts
    end in
  alerts.




Definition generateRecommendations (analytics : Analytics.t) : list string :=
  let recommendations := [] in
  let recommendations :=
    if Qgt_bool (Analytics.errorRate analytics) 5 then
      push recommendations
        "Investigate and fix the top error patterns to improve user experience"
    else recommendations in
  let recommendations :=
    if Qlt_bool (Analytics.resolvedRate analytics) 70 then
      push recommendations
        "Review unresolved conversations to identify gaps in bot knowledge"
    else recommendations in
  let recommendations :=
    match Analytics.commonIssues analytics with
    | topIssue :: _ =>
        push recommendations
          ("Create targeted responses for " ++ dquote
             ++ IssuePattern.pattern topIssue ++ dquote ++ " issues ("
             ++ Z_toString (IssuePattern.frequency topIssue) ++ " occurrences)")
    | [] => recommendations
    end in
  let recommendations :=
    if Qgt_bool (SentimentAnalysis.negative (Analytics.userSentiment analytics)) 25
    then
      push recommendations
        "Implement sentiment-based escalation to human agents for negative interactions"
    else recommendations in
  let peakHours :=
    map HourlyCount.hour
      (filter
         (fun h => Qgt_bool (inject_Z (HourlyCount.count h))
                     (inject_Z (Analytics.totalConversations analytics) * (1 # 10)))
         (Analytics.hourlyDistribution analytics)) in
  let recommendations :=
    if (len peakHours >? 0)%Z then
      push recommendations
        ("Consider scaling resources during peak hours: "
           ++ String.concat ", " (map Z_toString peakHours) ++ ":00")
    else recommendations in
  let recommendations :=
    match Analytics.topCategories analytics with
    | top :: _ =>
        if Qgt_bool (CategoryCount.percentage top) 30 then
          push recommendations
            ("Enhance bot capabilities for " ++ dquote
               ++ CategoryCount.category top ++ dquote ++ " category ("
               ++ toFixed 1 (CategoryCount.percentage top) ++ "% of queries)")
        else recommendations
    | [] => recommendations
    end in
  let recommendations :=
    if Qgt_bool (Analytics.averageSessionDuration analytics) 600 then
      push recommendations
        "Long session durations detected - optimize conversation flow for quicker resolutions"
    else recommendations in
  recommendations.

Definition getPerformanceHighlights (analytics : Analytics.t) : list string :=
  let highlights := [] in
  let highlights :=
    if Qgt_bool (Analytics.resolvedRate analytics) 80 then
      push highlights
        ("Excellent resolution rate: "
           ++ toFixed 1 (Analytics.resolvedRate analytics) ++ "%")
    else highlights in
  let highlights :=
    if Qge_bool (Analytics.averageRating analytics) 4 then
      push highlights
        ("High user satisfaction: "
           ++ toFixed 1 (Analytics.averageRating analytics) ++ "/5 rating")
    else highlights in
  let highlights :=
    if Qlt_bool (Analytics.errorRate analytics) 2 then
      push highlights
        ("Low error rate: " ++ toFixed 1 (Analytics.errorRate analytics) ++ "%")
    else highlights in
  let positive := SentimentAnalysis.positive (Analytics.userSentiment analytics) in
  let highlights :=
    if Qgt_bool positive 60 then
      push highlights
        ("Positive user sentiment: " ++ toFixed 0 positive ++ "%")
    else highlights in
  let median := ResponseTimeStats.median (Analytics.responseTimeAnalysis analytics) in
  let highlights :=
    if Qlt_bool median 1000 && Qgt_bool median 0 then
      push highlights
        ("Fast median response time: " ++ toFixed 1 (median / 1000) ++ "s")
    else highlights in
  highlights.

End InsightsService.

(* ================================================================= *)
(** ** firestoreService.ts: sessions, messages and the legacy log view *)

Module ChatSession.
(** [user_queries] and [session_duration] are optional here because
    the code guards their reads with [||]. *)
Record t := mk {
  id : string;
  created_at : Date;
  platform : string;
  last_message_at : Date;
  first_user_query : string;
  message_count : Z;
  last_message : string;
  user_queries : option (list string);
  session_duration : option Q;
  start_time : string;
  app_version : string;
  build_number : string
}.
End ChatSession.

Module ChatMessage.
Record t := mk {
  timestamp : Date;
  content : string;
  is_user : bool;
  action : option string;
  message_length : Z;
  has_links : bool;
  has_actions : bool;
  platform : string;
  language : string
}.
End ChatMessage.

(** [EnrichedChatSession extends ChatSession]: the session and the
    fields added to it. *)
Module EnrichedChatSession.
Record t := mk {
  session : ChatSession.t;
  messages : list ChatMessage.t;
  userMessageCount : Z;
  botMessageCount : Z;
  totalCharacters : Z;
  hasActions : bool;
  uniqueUserQueries : Z;
  avgMessageLength : Q;
  sessionDurationMinutes : Q
}.

Definition id (s : t) : string := ChatSession.id (session s).
End EnrichedChatSession.

Module FirestoreService.
Import JS.
Local Open Scope string_scope.


Definition categorizeQuery (query : string) : string :=
  let lowerQuery := toLowerCase query in
  if includes lowerQuery "help" || includes lowerQuery "support" then "help"
  else if includes lowerQuery "error" || includes lowerQuery "problem"
          || includes lowerQuery "issue" then "technical"
  else if includes lowerQuery "how" || includes lowerQuery "what"
          || includes lowerQuery "where" then "information"
  else if includes lowerQuery "account" || includes lowerQuery "login"
          || includes lowerQuery "password" then "account"
  else if includes lowerQuery "payment" || includes lowerQuery "billing"
          || includes lowerQuery "subscription" then "billing"
  else if includes lowerQuery "meditation" || includes lowerQuery "relax"
          || includes lowerQuery "stress" then "wellness"
  else "general".

(** [msg?.content || ''] and [userMsg?.timestamp || session.created_at]. *)
Definition content_of (msg : option ChatMessage.t) : string :=
  match msg with
  | Some m => if truthy_string (ChatMessage.content m)
              then ChatMessage.content m else EmptyString
  | None => EmptyString
  end.

Definition timestamp_of (msg : option ChatMessage.t) (created_at : Date) : Date :=
  match msg with
  | Some m => ChatMessage.timestamp m
  | None => created_at
  end.

(** The log pushed for interaction [i] of a session in [fetchLogs]. *)
Definition conversationLog (enriched : EnrichedChatSession.t)
    (userMessages botMessages : list ChatMessage.t) (i : Z) : ChatLog.t :=
  let session := EnrichedChatSession.session enriched in
  let userMsg := index userMessages i in
  let botMsg := index botMessages i in
  ChatLog.mk
    (ChatSession.id session ++ "-" ++ Z_toString i)
    (Some (ChatSession.id session))
    None
    (Some (content_of userMsg))
    (Some (content_of botMsg))
    (Some (timestamp_of userMsg (ChatSession.created_at session)))
    (Some (EnrichedChatSession.sessionDurationMinutes enriched))
    (Some (ChatSession.message_count session >? 2)%Z)
    None
    (Some (categorizeQuery (content_of userMsg)))
    (Some false)
    None
    (Some (ChatSession.platform session))
    (Some (Metadata.mk
             (Some (match botMsg with Some _ => 1000 | None => 0 end))
             (Some (ChatSession.message_count session))
             (Some (EnrichedChatSession.hasActions enriched))
             (Some (ChatSession.app_version session)))).

(** The logs of one session: one per user-bot interaction pair. *)
Definition conversationLogs (enriched : EnrichedChatSession.t) : list ChatLog.t :=
  let userMessages :=
    filter (fun m => ChatMessage.is_user m) (EnrichedChatSession.messages enriched) in
  let botMessages :=
    filter (fun m => negb (ChatMessage.is_user m))
      (EnrichedChatSession.messages enriched) in
  map (fun i => conversationLog enriched userMessages botMessages (Z.of_nat i))
    (seq 0 (Z.to_nat (Z.max (len userMessages) (len botMessages)))).

(** The conversion of [fetchLogs], on the sessions it has fetched. *)
Definition fetchLogs (enrichedSessions : list EnrichedChatSession.t)
  : list ChatLog.t :=
  flat_map conversationLogs enrichedSessions.

End FirestoreService.

(* ================================================================= *)
(** ** openaiAnalysisService.ts: the data and [aggregateAnalyses] *)

Module Sentiment.
Inductive t := positive | neutral | negative.
End Sentiment.

Module SatisfactionTrend.
Inductive t := improving | declining | stable.

Definition toString (x : t) : string :=
  match x with
  | improving => "improving"
  | declining => "declining"
  | stable => "stable"
  end.
End SatisfactionTrend.

Module EndedBy.
Inductive t := user | bot | timeout.

Definition toString (x : t) : string :=
  match x with
  | user => "user"
  | bot => "bot"
  | timeout => "timeout"
  end.
End EndedBy.

Module Resolution.
Inductive t := resolved | unresolved | abandoned.

Definition toString (x : t) : string :=
  match x with
  | resolved => "resolved"
  | unresolved => "unresolved"
  | abandoned => "abandoned"
  end.
End Resolution.

Module FinalSentiment.
Inductive t := satisfied | neutral | frustrated.
End FinalSentiment.

Module SuggestionCategory.
Inductive t := knowledge | response | flow | clarification.

Definition toString (x : t) : string :=
  match x with
  | knowledge => "knowledge"
  | response => "response"
  | flow => "flow"
  | clarification => "clarification"
  end.
End SuggestionCategory.

Module RequestAnalysis.
Record t := mk {
  originalMessage : string;
  intent : string;
  category : string;
  urgency : Level.t;
  sentiment : Sentiment.t;
  clarity : Q;
  needsClarification : bool
}.
End RequestAnalysis.

Module FlowAnalysis.
Record t := mk {
  totalMessages : Z;
  userMessages : Z;
  botMessages : Z;
  topicChanges : Z;
  userSatisfactionTrend : SatisfactionTrend.t;
  keyTopics : list string;
  conversationQuality : Q;
  misunderstandings : list string
}.
End FlowAnalysis.

Module EndingAnalysis.
Record t := mk {
  endedBy : EndedBy.t;
  resolution : Resolution.t;
  finalSentiment : FinalSentiment.t;
  lastUserMessage : option string;
  reasonForEnding : string;
  followUpNeeded : bool
}.
End EndingAnalysis.

Module ImprovementSuggestion.
Record t := mk {
  category : SuggestionCategory.t;
  issue : string;
  suggestion : string;
  priority : Level.t;
  examples : list string
}.

(** [s.examples = e] on the stored copy. *)
Definition set_examples (s : t) (e : list string) : t :=
  mk (category s) (issue s) (suggestion s) (priority s) e.
End ImprovementSuggestion.

Module ProblemType.
Record t := mk {
  type : string;
  description : string;
  frequency : Z;
  severity : Level.t;
  examples : list string
}.
End ProblemType.

Module ConversationAnalysis.
Record t := mk {
  sessionId : string;
  firstUserRequest : RequestAnalysis.t;
  conversationFlow : FlowAnalysis.t;
  endingAnalysis : EndingAnalysis.t;
  improvementSuggestions : list ImprovementSuggestion.t;
  problemTypes : list ProblemType.t
}.
End ConversationAnalysis.

Module ConversationPattern.
Record t := mk {
  pattern : string;
  frequency : Z;
  averageQuality : Q;
  commonIssues : list string
}.
End ConversationPattern.

(** The values of [improvementMap]. *)
Module ImprovementEntry.
Record t := mk {
  suggestion : ImprovementSuggestion.t;
  frequency : Z
}.
End ImprovementEntry.

(** The values of [requestMap]. *)
Module RequestData.
Record t := mk { count : Z; clarity : list Q }.
End RequestData.

Module RequestPattern.
Record t := mk {
  pattern : string;
  count : Z;
  percentage : Q;
  averageClarity : Q
}.
End RequestPattern.

Module EndingPattern.
Record t := mk {
  type : string;
  count : Z;
  percentage : Q;
  commonReasons : list string
}.
End EndingPattern.

Module ProblemTrend.
Inductive t := increasing | decreasing | stable.
End ProblemTrend.

Module ProblemTypeStats.
Record t := mk {
  type : string;
  occurrences : Z;
  percentage : Q;
  severity : Level.t;
  trend : ProblemTrend.t
}.
End ProblemTypeStats.

Module TranscriptMessage.
Record t := mk {
  timestamp : Date;
  isUser : bool;
  content : string;
  hasActions : option bool;
  messageLength : Z
}.
End TranscriptMessage.

Module ConversationTranscript.
Record t := mk {
  sessionId : string;
  startTime : Date;
  endTime : Date;
  platform : string;
  messageCount : Z;
  duration : Q;
  messages : list TranscriptMessage.t;
  analysis : option ConversationAnalysis.t
}.
End ConversationTranscript.

Module AggregatedAnalysis.
Record t := mk {
  totalSessions : Z;
  analysisDate : Date;
  commonFirstRequests : list RequestPattern.t;
  conversationPatterns : list ConversationPattern.t;
  endingPatterns : list EndingPattern.t;
  topImprovements : list ImprovementSuggestion.t;
  problemTypeDistribution : list ProblemTypeStats.t;
  conversationTranscripts : list ConversationTranscript.t
}.
End AggregatedAnalysis.

Module OpenAIAnalysisService.
Import JS.
Local Open Scope string_scope.

(** [`${trend}_${topicChanges}topics`]. *)
Definition flowPatternKey (a : ConversationAnalysis.t) : string :=
  let flow := ConversationAnalysis.conversationFlow a in
  SatisfactionTrend.toString (FlowAnalysis.userSatisfactionTrend flow)
    ++ "_" ++ Z_toString (FlowAnalysis.topicChanges flow) ++ "topics".

(** The three updates of the loop body:
    [existing.frequency++],
    [existing.averageQuality = (existing.averageQuality + quality) / 2],
    [existing.commonIssues.push(...misunderstandings)]. *)
Definition recordFlow (existing : ConversationPattern.t)
    (a : ConversationAnalysis.t) : ConversationPattern.t :=
  let flow := ConversationAnalysis.conversationFlow a in
  ConversationPattern.mk
    (ConversationPattern.pattern existing)
    (ConversationPattern.frequency existing + 1)
    ((ConversationPattern.averageQuality existing
        + FlowAnalysis.conversationQuality flow) / 2)
    (ConversationPattern.commonIssues existing
       ++ FlowAnalysis.misunderstandings flow)%list.

(** [flowPatterns.get(pattern) || { pattern, frequency: 0,
    averageQuality: 0, commonIssues: [] }]. *)
Definition existingFlow (flowPatterns : Map string ConversationPattern.t)
    (pattern : string) : ConversationPattern.t :=
  match Map_get String.eqb flowPatterns pattern with
  | Some e => e
  | None => ConversationPattern.mk pattern 0 0 []
  end.

(** One round of the [flowPatterns] loop. *)
Definition addFlow (flowPatterns : Map string ConversationPattern.t)
    (a : ConversationAnalysis.t) : Map string ConversationPattern.t :=
  let pattern := flowPatternKey a in
  let existing := existingFlow flowPatterns pattern in
  Map_set String.eqb flowPatterns pattern (recordFlow existing a).

Definition flowPatterns (analyses : list ConversationAnalysis.t)
  : Map string ConversationPattern.t :=
  fold_left addFlow analyses [].

Definition conversationPatterns (analyses : list ConversationAnalysis.t)
  : list ConversationPattern.t :=
  slice
    (sort (fun a b => inject_Z (ConversationPattern.frequency b
                                  - ConversationPattern.frequency a))
       (map snd (flowPatterns analyses)))
    0 (Some 10%Z).

(** [`${suggestion.category}-${suggestion.issue.substring(0, 50)}`]. *)
Definition improvementKey (suggestion : ImprovementSuggestion.t) : string :=
  SuggestionCategory.toString (ImprovementSuggestion.category suggestion)
    ++ "-" ++ substring 0 50 (ImprovementSuggestion.issue suggestion).

(** The branch of the loop body for a key that is present:
    [existing.frequency++] and the merge of the example lists. *)
Definition mergeImprovement (existing : ImprovementEntry.t)
    (suggestion : ImprovementSuggestion.t) : ImprovementEntry.t :=
  let allExamples :=
    (ImprovementSuggestion.examples (ImprovementEntry.suggestion existing)
       ++ ImprovementSuggestion.examples suggestion)%list in
  ImprovementEntry.mk
    (ImprovementSuggestion.set_examples
       (ImprovementEntry.suggestion existing)
       (slice (Set_from allExamples) 0 (Some 3%Z)))
    (ImprovementEntry.frequency existing + 1).

(** One round of the inner [improvementMap] loop. *)
Definition addImprovement (improvementMap : Map string ImprovementEntry.t)
    (suggestion : ImprovementSuggestion.t) : Map string ImprovementEntry.t :=
  let key := improvementKey suggestion in
  match Map_get String.eqb improvementMap key with
  | Some existing =>
      Map_set String.eqb improvementMap key
        (mergeImprovement existing suggestion)
  | None =>
      Map_set String.eqb improvementMap key
        (ImprovementEntry.mk suggestion 1)
  end.

Definition improvementMap (analyses : list ConversationAnalysis.t)
  : Map string ImprovementEntry.t :=
  fold_left
    (fun m a =>
       fold_left addImprovement
         (ConversationAnalysis.improvementSuggestions a) m)
    analyses [].

Definition priorityOrder (p : Level.t) : Z :=
  match p with
  | Level.high => 0
  | Level.medium => 1
  | Level.low => 2
  end.

(** The comparator of the [topImprovements] sort. *)
Definition byPriorityThenFrequency (a b : ImprovementEntry.t) : Q :=
  let priorityDiff :=
    (priorityOrder (ImprovementSuggestion.priority (ImprovementEntry.suggestion a))
     - priorityOrder (ImprovementSuggestion.priority (ImprovementEntry.suggestion b)))%Z in
  if negb (priorityDiff =? 0)%Z then inject_Z priorityDiff
  else inject_Z (ImprovementEntry.frequency b - ImprovementEntry.frequency a).

(** The entries of [improvementMap], sorted and capped, before the
    final [.map(item => item.suggestion)]. *)
Definition rankedImprovements (analyses : list ConversationAnalysis.t)
  : list ImprovementEntry.t :=
  slice (sort byPriorityThenFrequency (map snd (improvementMap analyses)))
    0 (Some 10%Z).

Definition topImprovements (analyses : list ConversationAnalysis.t)
  : list ImprovementSuggestion.t :=
  map ImprovementEntry.suggestion (rankedImprovements analyses).

(** One round of the [requestMap] loop. *)
Definition addRequest (requestMap : Map string RequestData.t)
    (a : ConversationAnalysis.t) : Map string RequestData.t :=
  let intent := RequestAnalysis.intent (ConversationAnalysis.firstUserRequest a) in
  let existing :=
    match Map_get String.eqb requestMap intent with
    | Some e => e
    | None => RequestData.mk 0 []
    end in
  let existing :=
    RequestData.mk (RequestData.count existing + 1)
      (push (RequestData.clarity existing)
         (RequestAnalysis.clarity (ConversationAnalysis.firstUserRequest a))) in
  Map_set String.eqb requestMap intent existing.

Definition requestMap (analyses : list ConversationAnalysis.t)
  : Map string RequestData.t :=
  fold_left addRequest analyses [].

Definition commonFirstRequests (analyses : list ConversationAnalysis.t)
  : list RequestPattern.t :=
  let totalSessions := len analyses in
  slice
    (sort (fun a b => inject_Z (RequestPattern.count b - RequestPattern.count a))
       (map (fun '(pattern, data) =>
               RequestPattern.mk pattern (RequestData.count data)
                 ((inject_Z (RequestData.count data) / inject_Z totalSessions) * 100)
                 (sumQ (fun c => c) (RequestData.clarity data)
                    / inject_Z (len (RequestData.clarity data))))
          (requestMap analyses)))
    0 (Some 10%Z).

(** [`${resolution}_${endedBy}`]. *)
Definition endingType (a : ConversationAnalysis.t) : string :=
  let ending := ConversationAnalysis.endingAnalysis a in
  Resolution.toString (EndingAnalysis.resolution ending)
    ++ "_" ++ EndedBy.toString (EndingAnalysis.endedBy ending).

(** One round of the [endingMap] loop. *)
Definition addEnding (endingMap : Map string EndingPattern.t)
    (a : ConversationAnalysis.t) : Map string EndingPattern.t :=
  let type := endingType a in
  let existing :=
    match Map_get String.eqb endingMap type with
    | Some e => e
    | None => EndingPattern.mk type 0 0 []
    end in
  let existing :=
    EndingPattern.mk (EndingPattern.type existing)
      (EndingPattern.count existing + 1)
      (EndingPattern.percentage existing)
      (push (EndingPattern.commonReasons existing)
         (EndingAnalysis.reasonForEnding (ConversationAnalysis.endingAnalysis a))) in
  Map_set String.eqb endingMap type existing.

Definition endingMap (analyses : list ConversationAnalysis.t)
  : Map string EndingPattern.t :=
  fold_left addEnding analyses [].

Definition endingPatterns (analyses : list ConversationAnalysis.t)
  : list EndingPattern.t :=
  let totalSessions := len analyses in
  sort (fun a b => inject_Z (EndingPattern.count b - EndingPattern.count a))
    (map (fun e =>
            EndingPattern.mk (EndingPattern.type e) (EndingPattern.count e)
              ((inject_Z (EndingPattern.count e) / inject_Z totalSessions) * 100)
              (EndingPattern.commonReasons e))
       (map snd (endingMap analyses))).

(** One round of the inner [problemMap] loop. *)
Definition addProblem (problemMap : Map string ProblemTypeStats.t)
    (problem : ProblemType.t) : Map string ProblemTypeStats.t :=
  let existing :=
    match Map_get String.eqb problemMap (ProblemType.type problem) with
    | Some e => e
    | None => ProblemTypeStats.mk (ProblemType.type problem) 0 0
                (ProblemType.severity problem) ProblemTrend.stable
    end in
  let existing :=
    ProblemTypeStats.mk (ProblemTypeStats.type existing)
      (ProblemTypeStats.occurrences existing + 1)
      (ProblemTypeStats.percentage existing)
      (ProblemTypeStats.severity existing)
      (ProblemTypeStats.trend existing) in
  Map_set String.eqb problemMap (ProblemType.type problem) existing.

Definition problemMap (analyses : list ConversationAnalysis.t)
  : Map string ProblemTypeStats.t :=
  fold_left
    (fun m a => fold_left addProblem (ConversationAnalysis.problemTypes a) m)
    analyses [].

Definition problemTypeDistribution (analyses : list ConversationAnalysis.t)
  : list ProblemTypeStats.t :=
  let totalSessions := len analyses in
  sort (fun a b => inject_Z (ProblemTypeStats.occurrences b
                               - ProblemTypeStats.occurrences a))
    (map (fun p =>
            ProblemTypeStats.mk (ProblemTypeStats.type p)
              (ProblemTypeStats.occurrences p)
              ((inject_Z (ProblemTypeStats.occurrences p)
                  / inject_Z totalSessions) * 100)
              (ProblemTypeStats.severity p) (ProblemTypeStats.trend p))
       (map snd (problemMap analyses))).

(** [sessions?.find(s => s.id === analysis.sessionId)]. *)
Definition findSession (sessions : option (list EnrichedChatSession.t))
    (sessionId : string) : option EnrichedChatSession.t :=
  match sessions with
  | Some ss => find (fun s => (EnrichedChatSession.id s =? sessionId)%string) ss
  | None => None
  end.

Section Clock.
(** The instant [new Date()] answers. *)
Variable now : Date.

(** The transcript built for one analysis. *)
Definition transcriptOf (sessions : option (list EnrichedChatSession.t))
    (analysis : ConversationAnalysis.t) : ConversationTranscript.t :=
  let session := findSession sessions (ConversationAnalysis.sessionId analysis) in
  let messages :=
    match session with
    | Some s =>
        map (fun msg =>
               TranscriptMessage.mk (ChatMessage.timestamp msg)
                 (ChatMessage.is_user msg) (ChatMessage.content msg)
                 (Some (ChatMessage.has_actions msg))
                 (ChatMessage.message_length msg))
          (EnrichedChatSession.messages s)
    | None => []
    end in
  ConversationTranscript.mk
    (ConversationAnalysis.sessionId analysis)
    (match session with
     | Some s => ChatSession.created_at (EnrichedChatSession.session s)
     | None => now
     end)
    (match session with
     | Some s => ChatSession.last_message_at (EnrichedChatSession.session s)
     | None => now
     end)
    (match session with
     | Some s =>
         let platform := ChatSession.platform (EnrichedChatSession.session s) in
         if truthy_string platform then platform else "unknown"
     | None => "unknown"
     end)
    (match session with
     | Some s => ChatSession.message_count (EnrichedChatSession.session s)
     | None => 0%Z
     end)
    (match session with
     | Some s => EnrichedChatSession.sessionDurationMinutes s
     | None => 0
     end)
    messages
    (Some analysis).

Definition conversationTranscripts (analyses : list ConversationAnalysis.t)
    (sessions : option (list EnrichedChatSession.t))
  : list ConversationTranscript.t :=
  map (transcriptOf sessions) analyses.

Definition aggregateAnalyses (analyses : list ConversationAnalysis.t)
    (sessions : option (list EnrichedChatSession.t)) : AggregatedAnalysis.t :=
  let totalSessions := len analyses in
  AggregatedAnalysis.mk totalSessions now
    (commonFirstRequests analyses)
    (conversationPatterns analyses)
    (endingPatterns analyses)
    (topImprovements analyses)
    (problemTypeDistribution analyses)
    (conversationTranscripts analyses sessions).
End Clock.

End OpenAIAnalysisService.

(** The deduplication key as the specification words it, the first 50
    characters of [{category}-{issue}], for comparison with
    [OpenAIAnalysisService.improvementKey]. *)
Definition spec_improvementKey (suggestion : ImprovementSuggestion.t) : string :=
  substring 0 50
    (SuggestionCategory.toString (ImprovementSuggestion.category suggestion)
       ++ "-" ++ ImprovementSuggestion.issue suggestion)%string.

(* ================================================================= *)
(** ** Vocabulary of the statements *)

(** The number of elements of a collection that satisfy a test. *)
Fixpoint countZ {A} (p : A -> bool) (l : list A) : Z :=
  match l with
  | [] => 0
  | x :: l' => (if p x then 1 else 0) + countZ p l'
  end%Z.

(** A log whose text field is present and equal to [k]. *)
Definition key_is (key : ChatLog.t -> option string) (k : string)
    (log : ChatLog.t) : bool :=
  match key log with
  | Some k' => JS.truthy_string k' && (k' =? k)%string
  | None => false
  end.

(** A log whose timestamp falls in local hour [h]. *)
Definition at_hour (LocalTZA : Z -> Z) (h : Z) (log : ChatLog.t) : bool :=
  match ChatLog.timestamp log with
  | Some ts => (AnalyticsService.getHours LocalTZA ts =? h)%Z
  | None => false
  end.

(** The hours of a day, [0 .. 23]. *)
Definition hours : list Z := map Z.of_nat (seq 0 24).

(** A log that carries a timestamp. *)
Definition has_timestamp (log : ChatLog.t) : bool :=
  match ChatLog.timestamp log with Some _ => true | None => false end.

(** The present response-time sample of a log, if any. *)
Definition sample_of (log : ChatLog.t) : list Q :=
  match AnalyticsService.metadata_responseTime log with
  | Some rt => if JS.truthy_Q rt then [rt] else []
  | None => []
  end.

(** Sample logs for the worked examples: only the fields the breakdowns
    and the response-time statistics read are filled in. *)
Definition sample_log (category platform : option string)
    (timestamp : option Date) (responseTime : option Q) : ChatLog.t :=
  ChatLog.mk "log" None None None None timestamp None None None
    category None None platform
    (Some (Metadata.mk responseTime None None None)).

(** The analyses that fall under a flow pattern, in input order. *)
Definition occurrences_of (pattern : string)
    (analyses : list ConversationAnalysis.t) : list ConversationAnalysis.t :=
  filter (fun a => (OpenAIAnalysisService.flowPatternKey a =? pattern)%string)
    analyses.

Definition quality_of (a : ConversationAnalysis.t) : Q :=
  FlowAnalysis.conversationQuality (ConversationAnalysis.conversationFlow a).

(** The running two-point average: start from 0, then replace the
    average by the mean of itself and the next score. *)
Definition running_average (scores : list Q) : Q :=
  fold_left (fun average score => (average + score) / 2) scores 0.

(** Sample analyses for the worked examples: a flow judgment and a list
    of improvement suggestions, the rest left blank. *)
Definition sample_analysis (trend : SatisfactionTrend.t) (topicChanges : Z)
    (quality : Q) (suggestions : list ImprovementSuggestion.t)
  : ConversationAnalysis.t :=
  ConversationAnalysis.mk "session"
    (RequestAnalysis.mk "message" "intent" "category" Level.low Sentiment.neutral 0 false)
    (FlowAnalysis.mk 0 0 0 topicChanges trend [] quality [])
    (EndingAnalysis.mk EndedBy.user Resolution.resolved
       FinalSentiment.neutral None "reason" false)
    suggestions [].

(** An [Analytics] value with its error rate replaced, every other
    field kept. *)
Definition with_errorRate (a : Analytics.t) (e : Q) : Analytics.t :=
  Analytics.mk
    (Analytics.totalConversations a) (Analytics.uniqueUsers a)
    (Analytics.averageSessionDuration a) (Analytics.averageRating a)
    (Analytics.resolvedRate a) e
    (Analytics.topCategories a) (Analytics.hourlyDistribution a)
    (Analytics.dailyTrend a) (Analytics.commonIssues a)
    (Analytics.userSentiment a) (Analytics.responseTimeAnalysis a)
    (Analytics.platformDistribution a) (Analytics.appVersions a)
    (Analytics.averageMessagesPerSession a) (Analytics.sessionsWithActions a)
    (Analytics.totalMessages a) (Analytics.averageMessageLength a).

(** Two [Analytics] values that agree on every field but the error
    rate. *)
Definition agree_except_errorRate (a1 a2 : Analytics.t) : Prop :=
  with_errorRate a1 0 = with_errorRate a2 0.

(** The high-severity alert on the error rate. *)
Definition errorAlert (e : Q) : Alert.t :=
  Alert.mk Level.high
    ("High error rate detected: " ++ JS.toFixed 1 e ++ "%")%string
    (Some "errorRate"%string) (Some e).

Definition is_errorAlert (alert : Alert.t) : bool :=
  match Alert.metric alert with
  | Some m => (m =? "errorRate")%string
  | None => false
  end.

(** An [Analytics] value given by its scalar fields and its hourly
    distribution and daily trend, the other breakdowns empty. *)
Definition sample_analytics (total users : Z)
    (duration rating resolvedRate errorRate : Q)
    (hourly : list HourlyCount.t) (daily : list DailyCount.t) : Analytics.t :=
  Analytics.mk total users duration rating resolvedRate errorRate
    [] hourly daily []
    (SentimentAnalysis.mk 0 100 0) (ResponseTimeStats.mk 0 0 0 0)
    [] [] 0 0 0 0.


(** The last [k] entries of a list, all of it when it is shorter. *)
Definition last_entries {A} (k : nat) (l : list A) : list A :=
  skipn (List.length l - k) l.



(** A day of the trend with a given count. *)
Definition day (date : string) (count : Z) : DailyCount.t :=
  DailyCount.mk date count 0 0.

(** All improvement suggestions of a batch, in the order the loops
    visit them. *)
Definition all_suggestions (analyses : list ConversationAnalysis.t)
  : list ImprovementSuggestion.t :=
  flat_map ConversationAnalysis.improvementSuggestions analyses.

(** The suggestions stored under a key, in visiting order. *)
Definition suggestions_under (key : string)
    (analyses : list ConversationAnalysis.t) : list ImprovementSuggestion.t :=
  filter (fun s => (OpenAIAnalysisService.improvementKey s =? key)%string)
    (all_suggestions analyses).

(** What one more suggestion under a key makes of the entry so far. *)
Definition absorb (entry : option ImprovementEntry.t)
    (s : ImprovementSuggestion.t) : option ImprovementEntry.t :=
  Some match entry with
       | Some existing => OpenAIAnalysisService.mergeImprovement existing s
       | None => ImprovementEntry.mk s 1
       end.

(** The ranking of the improvements: a higher priority first, and among
    equal priorities the larger frequency first. *)
Definition ranks_before (a b : ImprovementEntry.t) : Prop :=
  let pa := OpenAIAnalysisService.priorityOrder
              (ImprovementSuggestion.priority (ImprovementEntry.suggestion a)) in
  let pb := OpenAIAnalysisService.priorityOrder
              (ImprovementSuggestion.priority (ImprovementEntry.suggestion b)) in
  (pa < pb)%Z
  \/ (pa = pb /\ (ImprovementEntry.frequency b <= ImprovementEntry.frequency a)%Z).

(** The order a comparator induces: [x] may precede [y]. *)
Definition ordered_by {A} (cmp : A -> A -> Q) (x y : A) : Prop := cmp x y <= 0.

(** Restriction of an index to the valid positions [0 .. n-1]. *)
Definition clamp (n i : Z) : Z := Z.max 0 (Z.min i (n - 1)).

(** The logs in which an optional text field is present (non-empty). *)
Definition has_text (key : ChatLog.t -> option string) (log : ChatLog.t) : bool :=
  JS.truthy_text (key log).


(** The arithmetic mean of a list of numbers. *)
Definition mean (values : list Q) : Q :=
  JS.sumQ (fun v => v) values / inject_Z (JS.len values).

(** The present (non-empty) values of an optional text field, in log
    order, with repetitions. *)
Definition present_texts (key : ChatLog.t -> option string)
    (logs : list ChatLog.t) : list string :=
  flat_map
    (fun log =>
       match key log with
       | Some k => if JS.truthy_string k then [k] else []
       | None => []
       end)
    logs.

(** The lengths of the present user messages and bot responses. *)
Definition text_lengths (logs : list ChatLog.t) : list Z :=
  flat_map
    (fun log =>
       (match ChatLog.userMessage log with
        | Some s => if JS.truthy_string s then [JS.strlen s] else []
        | None => []
        end)
       ++
       (match ChatLog.botResponse log with
        | Some s => if JS.truthy_string s then [JS.strlen s] else []
        | None => []
        end))
    logs.

(** Sample logs for the worked examples of the engine: the texts, the
    identifiers, the rating and the flags, with a timestamp of 0. *)
Definition sample_interaction (userId conversationId : option string)
    (userMessage botResponse : option string) (rating : option Q)
    (resolved hasActions : option bool) (messageCount : option Z) : ChatLog.t :=
  ChatLog.mk "log" conversationId userId userMessage botResponse (Some 0%Z)
    (Some 120) resolved rating None (Some false) None None
    (Some (Metadata.mk None messageCount hasActions None)).



(** A log whose lowered user message contains a keyword. *)
Definition mentions (keyword : string) (log : ChatLog.t) : bool :=
  match ChatLog.userMessage log with
  | Some userMessage =>
      JS.truthy_string userMessage
      && JS.includes (JS.toLowerCase userMessage) keyword
  | None => false
  end.

(** A list of strings without repetition, as a test. *)
Fixpoint distinct (l : list string) : bool :=
  match l with
  | [] => true
  | x :: l' => negb (existsb (String.eqb x) l') && distinct l'
  end.

(** What one more log makes of the entry of a keyword. *)
Definition issue_after (keyword : string) (entry : option IssueData.t)
    (log : ChatLog.t) : option IssueData.t :=
  match ChatLog.userMessage log with
  | Some userMessage =>
      if mentions keyword log
         && existsb (String.eqb keyword) AnalyticsService.commonKeywords
      then Some (AnalyticsService.recordIssue userMessage
                   match entry with
                   | Some p => p
                   | None => IssueData.mk 0 []
                   end)
      else entry
  | None => entry
  end.

(** A log whose timestamp falls on a date, by the date text. *)
Definition on_date (toISOString : Date -> string) (date : string)
    (log : ChatLog.t) : bool :=
  match ChatLog.timestamp log with
  | Some ts => (AnalyticsService.dateOf toISOString ts =? date)%string
  | None => false
  end.

(** What an issue entry records about the logs seen so far. *)
Definition issue_recorded (keyword : string) (logs : list ChatLog.t) (data : IssueData.t)
  : Prop :=
  IssueData.count data = countZ (mentions keyword) logs
  /\ (1 <= IssueData.count data)%Z
  /\ NoDup (IssueData.examples data)
  /\ (1 <= List.length (IssueData.examples data) <= 3)%nat
  /\ Forall
       (fun example =>
          Exists
            (fun log =>
               mentions keyword log = true
               /\ option_map (substring 0 100) (ChatLog.userMessage log)
                  = Some example)
            logs)
       (IssueData.examples data).


(** An alert raised on a given metric, and whether a list of alerts
    holds one. *)
Definition alert_on (metric : string) (alert : Alert.t) : bool :=
  match Alert.metric alert with
  | Some m => (m =? metric)%string
  | None => false
  end.

Definition alerted (metric : string) (alerts : list Alert.t) : bool :=
  existsb (alert_on metric) alerts.

(** Whether some line of a list starts with a text. *)
Definition mentioned (text : string) (lines : list string) : bool :=
  existsb (prefix text) lines.

(** An [Analytics] value given by its total, its rating, its two rates,
    its negative sentiment, its 95th percentile and its hourly
    distribution. *)
Definition sample_report (total : Z) (rating resolvedRate errorRate : Q)
    (negative p95 : Q) (hourly : list HourlyCount.t) : Analytics.t :=
  Analytics.mk total 0 0 rating resolvedRate errorRate
    [] hourly [] []
    (SentimentAnalysis.mk 0 (100 - negative) negative)
    (ResponseTimeStats.mk 0 0 p95 p95)
    [] [] 0 0 0 0.

(** The update shared by the tables of the qualitative aggregation,
    [map.set(k, record(map.get(k) || initial, x))], split into the
    record it starts from and the change it makes. *)
Section Keyed.
Context {A V : Type}.
Variable key : A -> string.
Variable initial : A -> V.
Variable record : V -> A -> V.

Definition keyed_existing (m : JS.Map string V) (x : A) : V :=
  match JS.Map_get String.eqb m (key x) with
  | Some e => e
  | None => initial x
  end.

Definition keyed_step (m : JS.Map string V) (x : A) : JS.Map string V :=
  JS.Map_set String.eqb m (key x) (record (keyed_existing m x) x).
End Keyed.

(** The elements filed under a key. *)
Definition with_key {A} (key : A -> string) (k : string) (x : A) : bool :=
  (key x =? k)%string.

(** The intent and the clarity of the first request of an analysis, and
    the reason of its ending. *)
Definition intent_of (a : ConversationAnalysis.t) : string :=
  RequestAnalysis.intent (ConversationAnalysis.firstUserRequest a).

Definition clarity_of (a : ConversationAnalysis.t) : Q :=
  RequestAnalysis.clarity (ConversationAnalysis.firstUserRequest a).

Definition reason_of (a : ConversationAnalysis.t) : string :=
  EndingAnalysis.reasonForEnding (ConversationAnalysis.endingAnalysis a).

(** The two halves of the loop bodies of [requestMap], [endingMap] and
    [problemMap]. *)
Definition newRequest (a : ConversationAnalysis.t) : RequestData.t :=
  RequestData.mk 0 [].

Definition recordRequest (existing : RequestData.t)
    (a : ConversationAnalysis.t) : RequestData.t :=
  RequestData.mk (RequestData.count existing + 1)
    (JS.push (RequestData.clarity existing) (clarity_of a)).

Definition newEnding (a : ConversationAnalysis.t) : EndingPattern.t :=
  EndingPattern.mk (OpenAIAnalysisService.endingType a) 0 0 [].

Definition recordEnding (existing : EndingPattern.t)
    (a : ConversationAnalysis.t) : EndingPattern.t :=
  EndingPattern.mk (EndingPattern.type existing)
    (EndingPattern.count existing + 1)
    (EndingPattern.percentage existing)
    (JS.push (EndingPattern.commonReasons existing) (reason_of a)).




(** The categories [categorizeQuery] can answer. *)
Definition categories : list string :=
  ["help"; "technical"; "information"; "account"; "billing"; "wellness";
   "general"]%string.

(** The number of user-bot interaction pairs of a session: the larger
    of its numbers of user and bot messages. *)
Definition interactions (s : EnrichedChatSession.t) : Z :=
  Z.max
    (JS.len (filter (fun m => ChatMessage.is_user m)
               (EnrichedChatSession.messages s)))
    (JS.len (filter (fun m => negb (ChatMessage.is_user m))
               (EnrichedChatSession.messages s))).
(* ================================================================= *)
(** ** Properties *)

(** *** Lists, counts and slices *)

Lemma len_nonneg {A} (l : list A) : (0 <= JS.len l)%Z.
Proof. unfold JS.len. lia. Qed.

Lemma len_filter_countZ {A} (p : A -> bool) (l : list A) :
  JS.len (filter p l) = countZ p l.
Proof.
  unfold JS.len. induction l as [|x l IH]; simpl; [reflexivity|].
  destruct (p x); simpl List.length; lia.
Qed.

Lemma countZ_bounds {A} (p : A -> bool) (l : list A) :
  (0 <= countZ p l <= JS.len l)%Z.
Proof.
  unfold JS.len. induction l as [|x l IH]; simpl countZ; simpl List.length.
  - lia.
  - destruct (p x); lia.
Qed.

Lemma inject_Z_nonneg (k : Z) : (0 <= k)%Z -> 0 <= inject_Z k.
Proof. intros H. unfold Qle; simpl; lia. Qed.

Lemma inject_Z_pos (k : Z) : (0 < k)%Z -> 0 < inject_Z k.
Proof. intros H. unfold Qlt; simpl; lia. Qed.

Lemma ratio_percent_bounds (k n : Z) :
  (0 <= k <= n)%Z -> (0 < n)%Z ->
  0 <= (inject_Z k / inject_Z n) * 100 <= 100.
Proof.
  intros Hk Hn.
  pose proof (inject_Z_pos Hn) as Hn'.
  assert (Hk0 : 0 <= inject_Z k) by (apply inject_Z_nonneg; lia).
  assert (Hkn : inject_Z k <= inject_Z n) by (unfold Qle; simpl; lia).
  assert (H0 : 0 <= inject_Z k / inject_Z n).
  { apply Qle_shift_div_l; [exact Hn' | lra]. }
  assert (H1 : inject_Z k / inject_Z n <= 1).
  { apply Qle_shift_div_r; [exact Hn' | lra]. }
  split; lra.
Qed.

(** *** Rates *)

Section Rates.
Import AnalyticsService.

Lemma rate_of_nonempty (log : ChatLog.t) (logs : list ChatLog.t) :
  calculateResolvedRate (log :: logs)
    = (inject_Z (countZ (fun l => is_true (ChatLog.resolved l)) (log :: logs))
         / inject_Z (JS.len (log :: logs))) * 100
  /\ calculateErrorRate (log :: logs)
    = (inject_Z (countZ (fun l => is_true (ChatLog.error l)) (log :: logs))
         / inject_Z (JS.len (log :: logs))) * 100.
Proof.
  unfold calculateResolvedRate, calculateErrorRate.
  assert (Hn : (JS.len (log :: logs) =? 0)%Z = false).
  { apply Z.eqb_neq. unfold JS.len. simpl List.length. lia. }
  rewrite Hn, !len_filter_countZ. split; reflexivity.
Qed.

Lemma rate_bounds (p : ChatLog.t -> bool) (logs : list ChatLog.t) :
  0 <= (if (JS.len logs =? 0)%Z then 0
        else (inject_Z (JS.len (filter p logs)) / inject_Z (JS.len logs)) * 100)
    <= 100.
Proof.
  destruct (JS.len logs =? 0)%Z eqn:E.
  - split; lra.
  - apply Z.eqb_neq in E. rewrite len_filter_countZ.
    apply ratio_percent_bounds.
    + apply countZ_bounds.
    + pose proof (len_nonneg logs). lia.
Qed.

(** C2. The resolved rate is the number of logs whose [resolved] is
    strictly [true] over the number of logs, times 100, and the error
    rate likewise for [error]; on the empty collection both are 0, and
    on every collection both lie in [0, 100]. *)
Theorem rates_are_percentages :
  (calculateResolvedRate [] = 0 /\ calculateErrorRate [] = 0)
  /\ (forall log logs,
        calculateResolvedRate (log :: logs)
          = (inject_Z (countZ (fun l => is_true (ChatLog.resolved l)) (log :: logs))
               / inject_Z (JS.len (log :: logs))) * 100
        /\ calculateErrorRate (log :: logs)
          = (inject_Z (countZ (fun l => is_true (ChatLog.error l)) (log :: logs))
               / inject_Z (JS.len (log :: logs))) * 100)
  /\ (forall logs,
        0 <= calculateResolvedRate logs <= 100
        /\ 0 <= calculateErrorRate logs <= 100).
Proof.
  split; [split; reflexivity|].
  split; [exact rate_of_nonempty|].
  intros logs. split; apply rate_bounds.
Qed.

End Rates.

(** *** The sort *)

Section SortFacts.
Context {A : Type} (cmp : A -> A -> Q).

Lemma insert_perm (x : A) (l : list A) :
  Permutation (JS.insert cmp x l) (x :: l).
Proof.
  induction l as [|y l IH]; simpl.
  - apply Permutation_refl.
  - destruct (Qle_bool (cmp x y) 0).
    + apply Permutation_refl.
    + eapply perm_trans; [apply perm_skip, IH | apply perm_swap].
Qed.

Lemma sort_perm (l : list A) : Permutation (JS.sort cmp l) l.
Proof.
  induction l as [|x l IH]; simpl.
  - apply perm_nil.
  - eapply perm_trans; [apply insert_perm | apply perm_skip, IH].
Qed.

Lemma sort_len (l : list A) : JS.len (JS.sort cmp l) = JS.len l.
Proof.
  unfold JS.len. f_equal. apply Permutation_length, sort_perm.
Qed.

Lemma sort_In (l : list A) (x : A) : In x (JS.sort cmp l) <-> In x l.
Proof.
  split; apply Permutation_in;
    [apply sort_perm | apply Permutation_sym, sort_perm].
Qed.

Hypothesis cmp_total : forall x y, cmp x y <= 0 \/ cmp y x <= 0.
Hypothesis cmp_trans :
  forall x y z, cmp x y <= 0 -> cmp y z <= 0 -> cmp x z <= 0.

Lemma insert_HdRel (x y : A) (l : list A) :
  ordered_by cmp y x -> HdRel (ordered_by cmp) y l ->
  HdRel (ordered_by cmp) y (JS.insert cmp x l).
Proof.
  intros Hyx Hl. destruct l as [|z l]; simpl.
  - constructor. exact Hyx.
  - destruct (Qle_bool (cmp x z) 0).
    + constructor. exact Hyx.
    + constructor. inversion Hl; assumption.
Qed.

Lemma insert_sorted (x : A) (l : list A) :
  Sorted (ordered_by cmp) l -> Sorted (ordered_by cmp) (JS.insert cmp x l).
Proof.
  induction l as [|y l IH]; intros Hs; simpl.
  - repeat constructor.
  - destruct (Qle_bool (cmp x y) 0) eqn:E.
    + constructor; [exact Hs|]. constructor.
      apply Qle_bool_iff. exact E.
    + inversion Hs as [|? ? Hs' Hd]; subst.
      constructor; [apply IH; exact Hs'|].
      apply insert_HdRel; [|exact Hd].
      destruct (cmp_total x y) as [H|H]; [|exact H].
      apply Qle_bool_iff in H. congruence.
Qed.

Lemma sort_sorted (l : list A) : StronglySorted (ordered_by cmp) (JS.sort cmp l).
Proof.
  apply Sorted_StronglySorted.
  - intros x y z. apply cmp_trans.
  - induction l as [|x l IH]; simpl; [constructor|].
    apply insert_sorted, IH.
Qed.

Lemma sorted_nth_le (l : list A) :
  StronglySorted (ordered_by cmp) l ->
  forall i j a b, (i <= j)%nat ->
    nth_error l i = Some a -> nth_error l j = Some b -> ordered_by cmp a b.
Proof.
  induction 1 as [|h t Hs IH Hall]; intros i j a b Hij Ha Hb.
  - destruct i; discriminate.
  - destruct i as [|i]; simpl in Ha.
    + injection Ha as <-. destruct j as [|j]; simpl in Hb.
      * injection Hb as <-. destruct (cmp_total h h); assumption.
      * rewrite Forall_forall in Hall. apply Hall.
        eapply nth_error_In; eassumption.
    + destruct j as [|j]; [lia|]. simpl in Hb.
      apply (IH i j); [lia|assumption|assumption].
Qed.
End SortFacts.

Lemma In_firstn {A} (l : list A) (k : nat) (x : A) :
  In x (firstn k l) -> In x l.
Proof.
  intros H. rewrite <- (firstn_skipn k l). apply in_or_app. left. exact H.
Qed.

Lemma firstn_strongly_sorted {A} (R : A -> A -> Prop) (l : list A) (k : nat) :
  StronglySorted R l -> StronglySorted R (firstn k l).
Proof.
  intros Hs. revert k. induction Hs as [|h t Hs IH Hall]; intros k.
  - rewrite firstn_nil. constructor.
  - destruct k as [|k]; simpl; [constructor|].
    constructor; [apply IH|].
    rewrite Forall_forall in *. intros x Hx. apply Hall.
    apply (In_firstn t k). exact Hx.
Qed.

(** [l.slice(0, k)] keeps the first [k] elements. *)
Lemma slice_prefix {A} (l : list A) (k : Z) :
  (0 <= k)%Z -> JS.slice l 0 (Some k) = firstn (Z.to_nat k) l.
Proof.
  intros Hk. unfold JS.slice, JS.rel_index.
  pose proof (len_nonneg l) as Hn.
  replace (0 <? 0)%Z with false by reflexivity.
  replace (k <? 0)%Z with false by (symmetry; apply Z.ltb_ge; exact Hk).
  rewrite (Z.min_l 0 (JS.len l)) by exact Hn. simpl skipn.
  rewrite Z.sub_0_r.
  destruct (Z.le_ge_cases k (JS.len l)) as [H|H].
  - rewrite Z.min_l by exact H. reflexivity.
  - rewrite Z.min_r by exact H. unfold JS.len in *.
    rewrite Nat2Z.id. rewrite firstn_all.
    symmetry. apply firstn_all2. lia.
Qed.

Lemma ascending_le (a b : Q) : ordered_by AnalyticsService.ascending a b <-> a <= b.
Proof. unfold ordered_by, AnalyticsService.ascending. split; intros; lra. Qed.

(** *** Response-time statistics *)

Section ResponseTimes.
Import AnalyticsService.

Lemma responseTimes_samples (logs : list ChatLog.t) :
  responseTimes logs = flat_map sample_of logs.
Proof.
  unfold responseTimes.
  enough (H : forall acc,
    fold_left
      (fun acc log =>
         match metadata_responseTime log with
         | Some rt => if JS.truthy_Q rt then JS.push acc rt else acc
         | None => acc
         end) logs acc = acc ++ flat_map sample_of logs)
    by apply (H []).
  induction logs as [|log logs IH]; intros acc; simpl.
  - rewrite app_nil_r. reflexivity.
  - rewrite IH. unfold sample_of at 2, JS.push.
    destruct (metadata_responseTime log) as [rt|].
    + destruct (JS.truthy_Q rt); simpl.
      * rewrite <- app_assoc. reflexivity.
      * reflexivity.
    + reflexivity.
Qed.

Lemma floor_half (n : Z) : JS.Math_floor (inject_Z n / 2) = (n / 2)%Z.
Proof.
  unfold JS.Math_floor, Qfloor, Qdiv, Qmult, Qinv, inject_Z. simpl.
  rewrite Z.mul_1_r. reflexivity.
Qed.

Lemma floor_percent (n k : Z) :
  JS.Math_floor (inject_Z n * (k # 100)) = (n * k / 100)%Z.
Proof. reflexivity. Qed.

Lemma percentile_positions (n : Z) :
  (0 < n)%Z ->
  (0 <= n / 2 <= n * 95 / 100)%Z
  /\ (n * 95 / 100 <= n * 99 / 100)%Z
  /\ (n * 99 / 100 < n)%Z.
Proof.
  intros Hn. repeat split.
  - apply Z.div_pos; lia.
  - apply Z.div_le_lower_bound; [lia|].
    pose proof (Z.mul_div_le n 2 ltac:(lia)). lia.
  - apply Z.div_le_mono; lia.
  - apply Z.div_lt_upper_bound; lia.
Qed.

Lemma index_in_range {A} (l : list A) (i : Z) :
  (0 <= i < JS.len l)%Z ->
  exists x, JS.index l i = Some x /\ nth_error l (Z.to_nat i) = Some x.
Proof.
  intros [H0 Hn]. unfold JS.index.
  replace (i <? 0)%Z with false by (symmetry; apply Z.ltb_ge; exact H0).
  destruct (nth_error l (Z.to_nat i)) as [x|] eqn:E.
  - exists x. split; reflexivity.
  - apply nth_error_None in E. unfold JS.len in Hn. lia.
Qed.

Lemma clamp_in_range (n i : Z) : (0 <= i < n)%Z -> clamp n i = i.
Proof. unfold clamp. lia. Qed.

Lemma strongly_sorted_weaken {A} (R R' : A -> A -> Prop) (l : list A) :
  (forall x y, R x y -> R' x y) -> StronglySorted R l -> StronglySorted R' l.
Proof.
  intros HR. induction 1 as [|h t Hs IH Hall]; constructor.
  - exact IH.
  - eapply Forall_impl; [|exact Hall]. intros y. apply HR.
Qed.

Lemma sorted_samples (l : list Q) : StronglySorted Qle (JS.sort ascending l).
Proof.
  apply strongly_sorted_weaken with (R := ordered_by ascending).
  - intros x y. apply ascending_le.
  - apply sort_sorted; unfold ascending; intros; lra.
Qed.

Lemma sorted_Q_nth (l : list Q) (i j : nat) (a b : Q) :
  StronglySorted Qle l -> (i <= j)%nat ->
  nth_error l i = Some a -> nth_error l j = Some b -> a <= b.
Proof.
  revert i j. induction l as [|h t IH]; intros i j Hs Hij Ha Hb.
  - destruct i; discriminate.
  - inversion Hs as [|? ? Hs' Hall]; subst.
    destruct i as [|i]; simpl in Ha.
    + injection Ha as <-. destruct j as [|j]; simpl in Hb.
      * injection Hb as <-. apply Qle_refl.
      * rewrite Forall_forall in Hall. apply Hall.
        eapply nth_error_In; eassumption.
    + destruct j as [|j]; [lia|]. simpl in Hb.
      apply (IH i j); [assumption|lia|assumption|assumption].
Qed.

(** What [analyzeResponseTimes] computes once a sample is present. *)
Lemma analyze_some_sample (logs : list ChatLog.t) :
  flat_map sample_of logs <> [] ->
  let sorted := JS.sort ascending (flat_map sample_of logs) in
  let n := JS.len sorted in
  exists median p95 p99,
    analyzeResponseTimes logs
      = Some (ResponseTimeStats.mk
                (JS.sumQ (fun time => time) sorted / inject_Z n)
                median p95 p99)
    /\ nth_error sorted (Z.to_nat (n / 2)) = Some median
    /\ nth_error sorted (Z.to_nat (n * 95 / 100)) = Some p95
    /\ nth_error sorted (Z.to_nat (n * 99 / 100)) = Some p99
    /\ (0 < n)%Z.
Proof.
  intros Hne sorted n.
  assert (Hn : (0 < n)%Z).
  { subst n sorted. rewrite sort_len. unfold JS.len.
    destruct (flat_map sample_of logs); [congruence|]. simpl List.length. lia. }
  destruct (percentile_positions Hn) as [[H0 H1] [H2 H3]].
  destruct (@index_in_range _ sorted (n / 2)) as [m [Hm Hm']]; [fold n; lia|].
  destruct (@index_in_range _ sorted (n * 95 / 100)) as [p [Hp Hp']]; [fold n; lia|].
  destruct (@index_in_range _ sorted (n * 99 / 100)) as [q [Hq Hq']]; [fold n; lia|].
  exists m, p, q. repeat split; try assumption.
  unfold analyzeResponseTimes. rewrite responseTimes_samples.
  assert (Hlen : (JS.len (flat_map sample_of logs) =? 0)%Z = false).
  { apply Z.eqb_neq. subst n sorted. rewrite sort_len in Hn. lia. }
  rewrite Hlen. fold sorted. fold n.
  rewrite floor_half, !floor_percent, Hm, Hp, Hq. reflexivity.
Qed.

(** C1. With the present samples sorted ascending and [n >= 1] of
    them, the median, p95 and p99 are the values at positions
    [floor(n/2)], [floor(n*0.95)] and [floor(n*0.99)]; restricting a
    position to [0 .. n-1] leaves it unchanged, so every read is in
    bounds.  Without samples all four statistics are 0. *)
Theorem response_time_percentiles (logs : list ChatLog.t) :
  let samples := flat_map sample_of logs in
  let sorted := JS.sort ascending samples in
  let n := JS.len samples in
  let at_median := JS.Math_floor (inject_Z n / 2) in
  let at_p95 := JS.Math_floor (inject_Z n * (95 # 100)) in
  let at_p99 := JS.Math_floor (inject_Z n * (99 # 100)) in
  Permutation sorted samples
  /\ StronglySorted Qle sorted
  /\ match samples with
     | [] => analyzeResponseTimes logs = Some (ResponseTimeStats.mk 0 0 0 0)
     | _ :: _ =>
         exists stats,
           analyzeResponseTimes logs = Some stats
           /\ JS.index sorted (clamp n at_median) = Some (ResponseTimeStats.median stats)
           /\ JS.index sorted (clamp n at_p95) = Some (ResponseTimeStats.p95 stats)
           /\ JS.index sorted (clamp n at_p99) = Some (ResponseTimeStats.p99 stats)
           /\ clamp n at_median = at_median
           /\ clamp n at_p95 = at_p95
           /\ clamp n at_p99 = at_p99
           /\ (0 <= at_median < n)%Z
           /\ (0 <= at_p95 < n)%Z
           /\ (0 <= at_p99 < n)%Z
     end.
Proof.
  cbv zeta.
  split; [apply sort_perm|]. split; [apply sorted_samples|].
  destruct (flat_map sample_of logs) as [|s0 rest] eqn:Es.
  - unfold analyzeResponseTimes. rewrite responseTimes_samples, Es.
    reflexivity.
  - assert (Hne : flat_map sample_of logs <> []) by (rewrite Es; discriminate).
    destruct (@analyze_some_sample logs Hne)
      as (m & p & q & Ha & Hm & Hp & Hq & Hn).
    rewrite Es in Ha, Hm, Hp, Hq, Hn.
    rewrite sort_len in Hm, Hp, Hq, Hn.
    set (n := JS.len (s0 :: rest)) in *.
    destruct (percentile_positions Hn) as [[H0 H1] [H2 H3]].
    rewrite floor_half, !floor_percent.
    rewrite !clamp_in_range by lia.
    exists (ResponseTimeStats.mk
              (JS.sumQ (fun time => time) (JS.sort ascending (s0 :: rest))
                 / inject_Z (JS.len (JS.sort ascending (s0 :: rest))))
              m p q).
    split; [exact Ha|].
    cbn [ResponseTimeStats.median ResponseTimeStats.p95 ResponseTimeStats.p99].
    unfold JS.index.
    replace (n / 2 <? 0)%Z with false by (symmetry; apply Z.ltb_ge; lia).
    replace (n * 95 / 100 <? 0)%Z with false by (symmetry; apply Z.ltb_ge; lia).
    replace (n * 99 / 100 <? 0)%Z with false by (symmetry; apply Z.ltb_ge; lia).
    repeat split; try assumption; try lia.
Qed.

(** C7. With at least one present sample the statistics are ordered,
    median <= p95 <= p99, and when all samples have one value the
    three are that value. *)
Theorem percentile_ordering (logs : list ChatLog.t) :
  flat_map sample_of logs <> [] ->
  exists stats,
    analyzeResponseTimes logs = Some stats
    /\ ResponseTimeStats.median stats <= ResponseTimeStats.p95 stats
    /\ ResponseTimeStats.p95 stats <= ResponseTimeStats.p99 stats
    /\ forall v,
         (forall x, In x (flat_map sample_of logs) -> x == v) ->
         ResponseTimeStats.median stats == v
         /\ ResponseTimeStats.p95 stats == v
         /\ ResponseTimeStats.p99 stats == v.
Proof.
  intros Hne.
  destruct (@analyze_some_sample logs Hne)
    as (m & p & q & Ha & Hm & Hp & Hq & Hn).
  destruct (percentile_positions Hn) as [[H0 H1] [H2 H3]].
  pose proof (sorted_samples (flat_map sample_of logs)) as Hs.
  eexists. split; [exact Ha|]. simpl. repeat split.
  - eapply sorted_Q_nth; [exact Hs| |exact Hm|exact Hp]. lia.
  - eapply sorted_Q_nth; [exact Hs| |exact Hp|exact Hq]. lia.
  - apply H, (sort_In ascending), (nth_error_In _ _ Hm).
  - apply H, (sort_In ascending), (nth_error_In _ _ Hp).
  - apply H, (sort_In ascending), (nth_error_In _ _ Hq).
Qed.

Lemma percentile_ordering_witness :
  exists stats,
    analyzeResponseTimes
      [sample_log None None None (Some 300);
       sample_log None None None (Some 0);
       sample_log None None None (Some 100);
       sample_log None None None None;
       sample_log None None None (Some 200)] = Some stats
    /\ ResponseTimeStats.median stats <= ResponseTimeStats.p95 stats
    /\ ResponseTimeStats.p95 stats <= ResponseTimeStats.p99 stats.
Proof.
  destruct (percentile_ordering
              [sample_log None None None (Some 300);
               sample_log None None None (Some 0);
               sample_log None None None (Some 100);
               sample_log None None None None;
               sample_log None None None (Some 200)])
    as (stats & Hs & Hm & Hp & _).
  - vm_compute. discriminate.
  - exists stats. repeat split; assumption.
Defined.

End ResponseTimes.

(** *** Counting maps *)

Lemma Z_or_zero (o : option Z) :
  JS.Z_or o 0 = match o with Some c => c | None => 0%Z end.
Proof.
  destruct o as [c|]; simpl; [|reflexivity].
  unfold JS.truthy_Z. destruct (c =? 0)%Z eqn:E; simpl; [|reflexivity].
  apply Z.eqb_eq in E. congruence.
Qed.

Lemma sumZ_from {A} (f : A -> Z) (l : list A) (a : Z) :
  fold_left (fun sum x => (sum + f x)%Z) l a = (a + JS.sumZ f l)%Z.
Proof.
  unfold JS.sumZ. revert a. induction l as [|x l IH]; intros a; simpl.
  - lia.
  - rewrite IH, (IH (f x)). lia.
Qed.

Lemma sumZ_cons {A} (f : A -> Z) (x : A) (l : list A) :
  JS.sumZ f (x :: l) = (f x + JS.sumZ f l)%Z.
Proof. unfold JS.sumZ at 1. simpl. apply sumZ_from. Qed.

Lemma sumZ_app {A} (f : A -> Z) (l1 l2 : list A) :
  JS.sumZ f (l1 ++ l2) = (JS.sumZ f l1 + JS.sumZ f l2)%Z.
Proof.
  induction l1 as [|x l1 IH]; simpl.
  - reflexivity.
  - rewrite !sumZ_cons, IH. lia.
Qed.

Lemma sumZ_map {A B} (g : A -> B) (f : B -> Z) (l : list A) :
  JS.sumZ f (map g l) = JS.sumZ (fun x => f (g x)) l.
Proof.
  induction l as [|x l IH]; simpl; [reflexivity|].
  rewrite !sumZ_cons, IH. reflexivity.
Qed.

Lemma sumZ_plus {A} (f g : A -> Z) (l : list A) :
  JS.sumZ (fun x => f x + g x)%Z l = (JS.sumZ f l + JS.sumZ g l)%Z.
Proof.
  induction l as [|x l IH]; [reflexivity|].
  rewrite !sumZ_cons, IH. lia.
Qed.

Lemma sumZ_zero {A} (l : list A) : JS.sumZ (fun _ => 0%Z) l = 0%Z.
Proof.
  induction l as [|x l IH]; [reflexivity|]. rewrite sumZ_cons, IH. reflexivity.
Qed.

Section CountingMaps.
Context {K : Type} (eqb : K -> K -> bool).
Hypothesis eqb_eq : forall x y, eqb x y = true <-> x = y.

Lemma eqb_refl' (x : K) : eqb x x = true.
Proof. apply eqb_eq. reflexivity. Qed.

Lemma Map_get_set {V} (m : JS.Map K V) (k h : K) (v : V) :
  JS.Map_get eqb (JS.Map_set eqb m k v) h
    = if eqb k h then Some v else JS.Map_get eqb m h.
Proof.
  induction m as [|[k' v'] m IH]; simpl.
  - reflexivity.
  - destruct (eqb k' k) eqn:Ek; simpl.
    + apply eqb_eq in Ek. subst k'. destruct (eqb k h); reflexivity.
    + destruct (eqb k' h) eqn:Eh.
      * apply eqb_eq in Eh. subst k'.
        destruct (eqb k h) eqn:Ekh; [|reflexivity].
        apply eqb_eq in Ekh. subst k. rewrite eqb_refl' in Ek. discriminate.
      * exact IH.
Qed.

Lemma Map_set_keys {V} (m : JS.Map K V) (k : K) (v : V) :
  map fst (JS.Map_set eqb m k v)
    = match JS.Map_get eqb m k with
      | Some _ => map fst m
      | None => map fst m ++ [k]
      end.
Proof.
  induction m as [|[k' v'] m IH]; simpl.
  - reflexivity.
  - destruct (eqb k' k) eqn:Ek; simpl; [reflexivity|].
    rewrite IH. destruct (JS.Map_get eqb m k); reflexivity.
Qed.

Lemma Map_get_None {V} (m : JS.Map K V) (k : K) :
  JS.Map_get eqb m k = None <-> ~ In k (map fst m).
Proof.
  induction m as [|[k' v'] m IH]; simpl.
  - tauto.
  - destruct (eqb k' k) eqn:Ek.
    + apply eqb_eq in Ek. split; [discriminate|tauto].
    + rewrite IH. split; [|tauto].
      intros Hn [Hk|Hk]; [|tauto].
      subst k'. rewrite eqb_refl' in Ek. discriminate.
Qed.

Lemma Map_set_NoDup {V} (m : JS.Map K V) (k : K) (v : V) :
  NoDup (map fst m) -> NoDup (map fst (JS.Map_set eqb m k v)).
Proof.
  intros Hnd. rewrite Map_set_keys.
  destruct (JS.Map_get eqb m k) eqn:E; [exact Hnd|].
  apply Map_get_None in E.
  apply NoDup_rev in Hnd. rewrite <- (rev_involutive (_ ++ _)).
  apply NoDup_rev. rewrite rev_app_distr. simpl.
  constructor; [|exact Hnd]. rewrite <- in_rev. exact E.
Qed.

Lemma Map_get_In {V} (m : JS.Map K V) (k : K) (v : V) :
  NoDup (map fst m) -> In (k, v) m -> JS.Map_get eqb m k = Some v.
Proof.
  induction m as [|[k' v'] m IH]; simpl; intros Hnd Hin; [tauto|].
  inversion Hnd as [|? ? Hk' Hnd']; subst.
  destruct Hin as [Heq|Hin].
  - injection Heq as -> ->. rewrite eqb_refl'. reflexivity.
  - destruct (eqb k' k) eqn:Ek.
    + apply eqb_eq in Ek. subst k'. exfalso. apply Hk'.
      apply (in_map fst) in Hin. exact Hin.
    + apply IH; assumption.
Qed.

(** [map.set(k, (map.get(k) || 0) + 1)] adds one to the count of [k]
    and leaves every other count alone. *)
Lemma bump_count (m : JS.Map K Z) (k h : K) :
  JS.Z_or (JS.Map_get eqb (AnalyticsService.bump eqb m k) h) 0
    = (JS.Z_or (JS.Map_get eqb m h) 0 + (if eqb k h then 1 else 0))%Z.
Proof.
  unfold AnalyticsService.bump. rewrite Map_get_set.
  destruct (eqb k h) eqn:E.
  - apply eqb_eq in E. subst h. rewrite !Z_or_zero. reflexivity.
  - lia.
Qed.

Lemma bump_NoDup (m : JS.Map K Z) (k : K) :
  NoDup (map fst m) -> NoDup (map fst (AnalyticsService.bump eqb m k)).
Proof. apply Map_set_NoDup. Qed.

Lemma bump_keys (m : JS.Map K Z) (k h : K) :
  In h (map fst (AnalyticsService.bump eqb m k)) -> h = k \/ In h (map fst m).
Proof.
  unfold AnalyticsService.bump. rewrite Map_set_keys.
  destruct (JS.Map_get eqb m k); [tauto|].
  rewrite in_app_iff. simpl. intuition.
Qed.
End CountingMaps.

(** *** Hourly distribution *)

Section Hourly.
Import AnalyticsService.
Variable LocalTZA : Z -> Z.

Lemma getHours_range (d : Date) : (0 <= getHours LocalTZA d < 24)%Z.
Proof. unfold getHours. apply Z.mod_pos_bound. lia. Qed.

Lemma hourly_fold_count (logs : list ChatLog.t) (m : JS.Map Z Z) (h : Z) :
  JS.Z_or (JS.Map_get Z.eqb (fold_left (hourlyStep LocalTZA) logs m) h) 0
    = (JS.Z_or (JS.Map_get Z.eqb m h) 0 + countZ (at_hour LocalTZA h) logs)%Z.
Proof.
  revert m. induction logs as [|log logs IH]; intros m; simpl.
  - lia.
  - rewrite IH. unfold hourlyStep, at_hour.
    destruct (ChatLog.timestamp log) as [ts|]; [|lia].
    cbv zeta. rewrite (bump_count Z.eqb Z.eqb_eq). lia.
Qed.

Lemma hourly_counts (logs : list ChatLog.t) :
  getHourlyDistribution LocalTZA logs
    = map (fun h => HourlyCount.mk h (countZ (at_hour LocalTZA h) logs)) hours.
Proof.
  unfold getHourlyDistribution. fold hours.
  apply map_ext. intros h. rewrite hourly_fold_count. reflexivity.
Qed.

Lemma one_hour_matches (x : Z) (n : nat) :
  JS.sumZ (fun h => if (x =? h)%Z then 1 else 0)%Z (map Z.of_nat (seq 0 n))
    = (if (0 <=? x)%Z && (x <? Z.of_nat n)%Z then 1 else 0)%Z.
Proof.
  induction n as [|n IH].
  - change (Z.of_nat 0) with 0%Z. change (JS.sumZ _ _) with 0%Z.
    destruct (Z.leb_spec 0 x); destruct (Z.ltb_spec x 0);
      cbn [andb]; lia.
  - rewrite seq_S, map_app, sumZ_app, IH. cbn [map Nat.add].
    rewrite sumZ_cons. change (JS.sumZ _ []) with 0%Z.
    destruct (Z.leb_spec 0 x);
      destruct (Z.ltb_spec x (Z.of_nat n));
      destruct (Z.eqb_spec x (Z.of_nat n));
      destruct (Z.ltb_spec x (Z.of_nat (S n))); cbn [andb]; lia.
Qed.

Lemma hours_partition (logs : list ChatLog.t) :
  JS.sumZ (fun h => countZ (at_hour LocalTZA h) logs) hours
    = countZ has_timestamp logs.
Proof.
  induction logs as [|log logs IH]; simpl countZ.
  - apply sumZ_zero.
  - rewrite sumZ_plus, IH. f_equal.
    unfold at_hour, has_timestamp.
    destruct (ChatLog.timestamp log) as [ts|]; [|apply sumZ_zero].
    unfold hours. rewrite one_hour_matches.
    pose proof (getHours_range ts) as Hr.
    destruct (Z.leb_spec 0 (getHours LocalTZA ts));
      destruct (Z.ltb_spec (getHours LocalTZA ts) (Z.of_nat 24));
      cbn [andb]; lia.
Qed.

(** C3. The hourly distribution has exactly 24 entries, for the hours
    0 to 23 in ascending order; each count is the number of logs whose
    timestamp falls in that hour, hence never negative and 0 for an
    hour without logs; the 24 counts add up to the number of logs that
    have a timestamp. *)
Theorem hourly_distribution_partitions (logs : list ChatLog.t) :
  let distribution := getHourlyDistribution LocalTZA logs in
  List.length distribution = 24%nat
  /\ map HourlyCount.hour distribution
       = [0; 1; 2; 3; 4; 5; 6; 7; 8; 9; 10; 11; 12; 13; 14; 15; 16; 17;
          18; 19; 20; 21; 22; 23]%Z
  /\ map HourlyCount.count distribution
       = map (fun h => countZ (at_hour LocalTZA h) logs) hours
  /\ Forall (fun entry => (0 <= HourlyCount.count entry)%Z) distribution
  /\ JS.sumZ HourlyCount.count distribution = countZ has_timestamp logs.
Proof.
  cbv zeta. rewrite hourly_counts.
  split; [reflexivity|]. split; [reflexivity|].
  split; [rewrite map_map; reflexivity|].
  split.
  - apply Forall_forall. intros e He. apply in_map_iff in He.
    destruct He as [h [<- _]]. simpl. apply countZ_bounds.
  - rewrite sumZ_map. simpl. apply hours_partition.
Qed.

End Hourly.

(** *** Breakdowns *)

Section Breakdowns.
Import AnalyticsService.
Variable key : ChatLog.t -> option string.

Lemma countBy_fold_count (logs : list ChatLog.t) (m : JS.Map string Z) (h : string) :
  JS.Z_or (JS.Map_get String.eqb (fold_left (countStep key) logs m) h) 0
    = (JS.Z_or (JS.Map_get String.eqb m h) 0 + countZ (key_is key h) logs)%Z.
Proof.
  revert m. induction logs as [|log logs IH]; intros m; simpl.
  - lia.
  - rewrite IH. unfold countStep, key_is.
    destruct (key log) as [k|]; [|lia].
    destruct (JS.truthy_string k); cbn [andb]; [|lia].
    rewrite (bump_count String.eqb String.eqb_eq). lia.
Qed.

Lemma countBy_fold_NoDup (logs : list ChatLog.t) (m : JS.Map string Z) :
  NoDup (map fst m) -> NoDup (map fst (fold_left (countStep key) logs m)).
Proof.
  revert m. induction logs as [|log logs IH]; intros m Hnd; simpl.
  - exact Hnd.
  - apply IH. unfold countStep.
    destruct (key log) as [k|]; [|exact Hnd].
    destruct (JS.truthy_string k); [|exact Hnd].
    apply (bump_NoDup String.eqb String.eqb_eq). exact Hnd.
Qed.

(** Every entry of the counting map holds the number of logs that
    carry its key. *)
Lemma countBy_entries (logs : list ChatLog.t) (k : string) (v : Z) :
  In (k, v) (countBy key logs) -> v = countZ (key_is key k) logs.
Proof.
  intros Hin. unfold countBy in Hin.
  pose proof (countBy_fold_count logs [] k) as Hc.
  rewrite (Map_get_In String.eqb String.eqb_eq _ k v) in Hc.
  - rewrite Z_or_zero in Hc. simpl in Hc. exact Hc.
  - apply countBy_fold_NoDup. constructor.
  - exact Hin.
Qed.
End Breakdowns.

Ltac entry_of_breakdown He :=
  try (rewrite slice_prefix in He by lia; apply In_firstn in He);
  apply sort_In in He; apply in_map_iff in He.

Section BreakdownPercentages.
Import AnalyticsService.

Lemma category_entries (logs : list ChatLog.t) :
  Forall
    (fun e =>
       CategoryCount.count e
         = countZ (key_is ChatLog.category (CategoryCount.category e)) logs
       /\ CategoryCount.percentage e
         = (inject_Z (CategoryCount.count e) / inject_Z (JS.len logs)) * 100)
    (getTopCategories logs).
Proof.
  apply Forall_forall. intros e He. unfold getTopCategories in He.
  entry_of_breakdown He. destruct He as [[k v] [<- Hin]]. simpl.
  split; [apply countBy_entries; exact Hin | reflexivity].
Qed.

Lemma platform_entries (logs : list ChatLog.t) :
  Forall
    (fun e =>
       PlatformCount.count e
         = countZ (key_is ChatLog.platform (PlatformCount.platform e)) logs
       /\ PlatformCount.percentage e
         = (inject_Z (PlatformCount.count e) / inject_Z (JS.len logs)) * 100)
    (getPlatformDistribution logs).
Proof.
  apply Forall_forall. intros e He. unfold getPlatformDistribution in He.
  entry_of_breakdown He. destruct He as [[k v] [<- Hin]]. simpl.
  split; [apply countBy_entries; exact Hin | reflexivity].
Qed.

Lemma version_entries (logs : list ChatLog.t) :
  Forall
    (fun e =>
       VersionCount.count e
         = countZ (key_is metadata_appVersion (VersionCount.version e)) logs
       /\ VersionCount.percentage e
         = (inject_Z (VersionCount.count e) / inject_Z (JS.len logs)) * 100)
    (getAppVersions logs).
Proof.
  apply Forall_forall. intros e He. unfold getAppVersions in He.
  entry_of_breakdown He. destruct He as [[k v] [<- Hin]]. simpl.
  split; [apply countBy_entries; exact Hin | reflexivity].
Qed.

(** C9. In the category, platform and app-version breakdowns each
    entry's count is the number of logs carrying that value and its
    percentage is that count over the number of all logs, times 100;
    the denominator counts the logs without the field too and is the
    same for every entry of a breakdown.  The percentages of a
    breakdown need not add up to 100: two logs of which one has a
    category give a single entry of 50 percent. *)
Theorem breakdown_percentages_over_all_logs :
  (forall logs,
     Forall
       (fun e =>
          CategoryCount.count e
            = countZ (key_is ChatLog.category (CategoryCount.category e)) logs
          /\ CategoryCount.percentage e
            = (inject_Z (CategoryCount.count e) / inject_Z (JS.len logs)) * 100)
       (getTopCategories logs))
  /\ (forall logs,
        Forall
          (fun e =>
             PlatformCount.count e
               = countZ (key_is ChatLog.platform (PlatformCount.platform e)) logs
             /\ PlatformCount.percentage e
               = (inject_Z (PlatformCount.count e) / inject_Z (JS.len logs)) * 100)
          (getPlatformDistribution logs))
  /\ (forall logs,
        Forall
          (fun e =>
             VersionCount.count e
               = countZ (key_is metadata_appVersion (VersionCount.version e)) logs
             /\ VersionCount.percentage e
               = (inject_Z (VersionCount.count e) / inject_Z (JS.len logs)) * 100)
          (getAppVersions logs))
  /\ (let logs := [sample_log (Some "billing"%string) None None None;
                   sample_log None None None None] in
      getTopCategories logs = [CategoryCount.mk "billing" 1 ((1 / 2) * 100)]
      /\ JS.sumQ CategoryCount.percentage (getTopCategories logs) == 50).
Proof.
  split; [exact category_entries|].
  split; [exact platform_entries|].
  split; [exact version_entries|].
  split; reflexivity.
Qed.

End BreakdownPercentages.

(** *** Flow patterns *)

Section FlowPatterns.
Import OpenAIAnalysisService.

Lemma recordFlow_fold (occ : list ConversationAnalysis.t)
    (e : ConversationPattern.t) :
  let e' := fold_left recordFlow occ e in
  ConversationPattern.pattern e' = ConversationPattern.pattern e
  /\ ConversationPattern.frequency e'
     = (ConversationPattern.frequency e + JS.len occ)%Z
  /\ ConversationPattern.averageQuality e'
     = fold_left (fun average score => (average + score) / 2)
         (map quality_of occ) (ConversationPattern.averageQuality e).
Proof.
  revert e. induction occ as [|a occ IH]; intros e; simpl.
  - unfold JS.len. simpl. repeat split. lia.
  - destruct (IH (recordFlow e a)) as (Hp & Hf & Hq).
    rewrite Hp, Hf, Hq. unfold JS.len. simpl List.length.
    repeat split. simpl. lia.
Qed.

Lemma addFlow_get (m : JS.Map string ConversationPattern.t)
    (a : ConversationAnalysis.t) (k : string) :
  JS.Map_get String.eqb (addFlow m a) k
    = if (flowPatternKey a =? k)%string
      then Some (recordFlow (existingFlow m k) a)
      else JS.Map_get String.eqb m k.
Proof.
  unfold addFlow. rewrite (Map_get_set String.eqb String.eqb_eq).
  destruct (flowPatternKey a =? k)%string eqn:E; [|reflexivity].
  apply String.eqb_eq in E. subst k. reflexivity.
Qed.

Lemma flow_fold_get (analyses : list ConversationAnalysis.t)
    (m : JS.Map string ConversationPattern.t) (k : string) :
  JS.Map_get String.eqb (fold_left addFlow analyses m) k
    = match occurrences_of k analyses with
      | [] => JS.Map_get String.eqb m k
      | occ => Some (fold_left recordFlow occ (existingFlow m k))
      end.
Proof.
  revert m. induction analyses as [|a rest IH]; intros m; simpl.
  - reflexivity.
  - rewrite IH. unfold occurrences_of. simpl filter.
    fold (occurrences_of k rest).
    assert (Hstart : existingFlow (addFlow m a) k
              = if (flowPatternKey a =? k)%string
                then recordFlow (existingFlow m k) a
                else existingFlow m k).
    { unfold existingFlow at 1. rewrite addFlow_get.
      destruct (flowPatternKey a =? k)%string; reflexivity. }
    rewrite Hstart, addFlow_get.
    destruct (flowPatternKey a =? k)%string.
    + destruct (occurrences_of k rest); reflexivity.
    + reflexivity.
Qed.

Lemma flow_fold_NoDup (analyses : list ConversationAnalysis.t)
    (m : JS.Map string ConversationPattern.t) :
  NoDup (map fst m) -> NoDup (map fst (fold_left addFlow analyses m)).
Proof.
  revert m. induction analyses as [|a rest IH]; intros m Hnd; simpl.
  - exact Hnd.
  - apply IH. unfold addFlow.
    apply (Map_set_NoDup String.eqb String.eqb_eq). exact Hnd.
Qed.

(** An entry of the table is the initial record of its pattern after
    one update per occurrence. *)
Lemma flow_entry (analyses : list ConversationAnalysis.t)
    (p : ConversationPattern.t) :
  In p (conversationPatterns analyses) ->
  exists k,
    occurrences_of k analyses <> []
    /\ p = fold_left recordFlow (occurrences_of k analyses)
             (ConversationPattern.mk k 0 0 []).
Proof.
  intros Hin. unfold conversationPatterns in Hin.
  rewrite slice_prefix in Hin by lia. apply In_firstn in Hin.
  apply sort_In in Hin. apply in_map_iff in Hin.
  destruct Hin as [[k p'] [Hp Hin]]. simpl in Hp. subst p'.
  exists k.
  assert (Hget : JS.Map_get String.eqb (flowPatterns analyses) k = Some p).
  { apply (Map_get_In String.eqb String.eqb_eq); [|exact Hin].
    apply flow_fold_NoDup. constructor. }
  unfold flowPatterns in Hget. rewrite flow_fold_get in Hget.
  destruct (occurrences_of k analyses) as [|a occ] eqn:E.
  - discriminate.
  - split; [discriminate|]. injection Hget as <-. reflexivity.
Qed.

(** C10. A reported flow pattern carries the number of analyses that
    fall under it and the running average of their quality scores,
    started at 0 and replaced on each occurrence by
    [(previous + score) / 2]; a pattern with a single occurrence
    therefore reports half that analysis's score, not the score. *)
Theorem flow_quality_is_running_average
    (analyses : list ConversationAnalysis.t) (p : ConversationPattern.t) :
  In p (conversationPatterns analyses) ->
  let occ := occurrences_of (ConversationPattern.pattern p) analyses in
  ConversationPattern.frequency p = JS.len occ
  /\ ConversationPattern.averageQuality p
     = running_average (map quality_of occ)
  /\ forall a, occ = [a] ->
       ConversationPattern.averageQuality p == quality_of a / 2
       /\ (~ quality_of a == 0 ->
           ~ ConversationPattern.averageQuality p == quality_of a).
Proof.
  intros Hin. destruct (flow_entry analyses p Hin) as (k & Hne & Hp).
  destruct (recordFlow_fold (occurrences_of k analyses)
              (ConversationPattern.mk k 0 0 [])) as (Hpat & Hfreq & Hq).
  rewrite <- Hp in Hpat, Hfreq, Hq. simpl in Hpat, Hfreq, Hq.
  cbv zeta. rewrite Hpat.
  split; [exact Hfreq|]. split; [exact Hq|].
  intros a Ha. rewrite Hq, Ha. unfold running_average. simpl.
  split.
  - field.
  - intros Hnz Heq. apply Hnz.
    assert (H : (0 + quality_of a) / 2 == quality_of a / 2) by field.
    rewrite H in Heq.
    assert (H2 : quality_of a == 2 * (quality_of a / 2)) by field.
    lra.
Qed.

Lemma flow_quality_is_running_average_witness :
  let a1 := sample_analysis SatisfactionTrend.improving 1 80 [] in
  let a2 := sample_analysis SatisfactionTrend.stable 0 60 [] in
  let a3 := sample_analysis SatisfactionTrend.improving 1 40 [] in
  let once := ConversationPattern.mk "stable_0topics" 1 ((0 + 60) / 2) [] in
  In once (conversationPatterns [a1; a2; a3])
  /\ ConversationPattern.averageQuality once == 30
  /\ ~ ConversationPattern.averageQuality once == 60.
Proof.
  cbv zeta.
  assert (Hin : In (ConversationPattern.mk "stable_0topics" 1 ((0 + 60) / 2) [])
                  (conversationPatterns
                     [sample_analysis SatisfactionTrend.improving 1 80 [];
                      sample_analysis SatisfactionTrend.stable 0 60 [];
                      sample_analysis SatisfactionTrend.improving 1 40 []])).
  { right. left. reflexivity. }
  split; [exact Hin|].
  destruct (flow_quality_is_running_average _ _ Hin) as (_ & _ & Hsingle).
  destruct (Hsingle (sample_analysis SatisfactionTrend.stable 0 60 []) eq_refl)
    as [Hhalf Hnot].
  split.
  - rewrite Hhalf. reflexivity.
  - apply Hnot. intros H. discriminate H.
Defined.

End FlowPatterns.

(** *** Alerts *)

Lemma Qgt_bool_iff (x y : Q) : JS.Qgt_bool x y = true <-> y < x.
Proof.
  unfold JS.Qgt_bool, JS.Qlt_bool. rewrite negb_true_iff.
  split.
  - intros H. apply Qnot_le_lt. intros Hle.
    apply Qle_bool_iff in Hle. congruence.
  - intros H. destruct (Qle_bool x y) eqn:E; [|reflexivity].
    apply Qle_bool_iff in E. exfalso. apply (Qlt_not_le _ _ H E).
Qed.

Lemma Qgt_bool_false_iff (x y : Q) : JS.Qgt_bool x y = false <-> x <= y.
Proof.
  unfold JS.Qgt_bool, JS.Qlt_bool. rewrite negb_false_iff.
  apply Qle_bool_iff.
Qed.

Section Alerts.
Import InsightsService.

Ltac split_conditions :=
  repeat match goal with
         | |- context [if ?c then _ else _] => destruct c
         | |- context [match peakHour ?h with _ => _ end] =>
             destruct (peakHour h)
         end.

(** The alert list is the error alert, when the rate exceeds 10,
    followed by a list that does not depend on the error rate. *)
Lemma generateAlerts_error_first (a : Analytics.t) (e : Q) :
  generateAlerts (with_errorRate a e)
    = (if JS.Qgt_bool e 10 then [errorAlert e] else [])
        ++ generateAlerts (with_errorRate a 0).
Proof.
  unfold generateAlerts, with_errorRate, errorAlert, JS.push.
  cbn [Analytics.errorRate Analytics.resolvedRate Analytics.averageRating
       Analytics.userSentiment Analytics.responseTimeAnalysis
       Analytics.hourlyDistribution Analytics.totalConversations].
  change (JS.Qgt_bool 0 10) with false. cbv iota.
  destruct (JS.Qgt_bool e 10); split_conditions; reflexivity.
Qed.

Lemma other_alerts_not_error (a : Analytics.t) :
  Forall (fun alert => is_errorAlert alert = false)
    (generateAlerts (with_errorRate a 0)).
Proof.
  unfold generateAlerts, with_errorRate, JS.push.
  cbn [Analytics.errorRate Analytics.resolvedRate Analytics.averageRating
       Analytics.userSentiment Analytics.responseTimeAnalysis
       Analytics.hourlyDistribution Analytics.totalConversations].
  change (JS.Qgt_bool 0 10) with false. cbv iota.
  split_conditions; simpl; repeat constructor.
Qed.

Lemma with_errorRate_same (a : Analytics.t) :
  with_errorRate a (Analytics.errorRate a) = a.
Proof. destruct a. reflexivity. Qed.

Lemma with_errorRate_twice (a : Analytics.t) (e e' : Q) :
  with_errorRate (with_errorRate a e) e' = with_errorRate a e'.
Proof. reflexivity. Qed.

Lemma alerts_by_rate (a1 a2 : Analytics.t) :
  agree_except_errorRate a1 a2 ->
  generateAlerts a2
    = (if JS.Qgt_bool (Analytics.errorRate a2) 10
       then [errorAlert (Analytics.errorRate a2)] else [])
        ++ generateAlerts (with_errorRate a1 0).
Proof.
  intros Hagree. unfold agree_except_errorRate in Hagree.
  rewrite <- (with_errorRate_same a2) at 1.
  rewrite generateAlerts_error_first, Hagree. reflexivity.
Qed.

Lemma others_kept (alerts others : list Alert.t) (e : Q) :
  Forall (fun alert => is_errorAlert alert = false) others ->
  alerts = (if JS.Qgt_bool e 10 then [errorAlert e] else []) ++ others ->
  filter (fun alert => negb (is_errorAlert alert)) alerts = others.
Proof.
  intros Hall ->. rewrite filter_app.
  assert (Ho : filter (fun alert => negb (is_errorAlert alert)) others = others).
  { apply forallb_filter_id. apply forallb_forall. intros x Hx.
    rewrite Forall_forall in Hall. rewrite (Hall x Hx). reflexivity. }
  rewrite Ho. destruct (JS.Qgt_bool e 10); reflexivity.
Qed.

(** C6. Take two [Analytics] values that agree on every field but the
    error rate, the second rate at least the first.  If the first rate
    exceeds 10, both alert lists open with the high-severity error
    alert; if only the second exceeds 10, the alert is added in front
    of an otherwise unchanged list.  In every case the alerts other
    than the error alert are the same on both sides. *)
Theorem error_alert_monotone (a1 a2 : Analytics.t) :
  agree_except_errorRate a1 a2 ->
  Analytics.errorRate a1 <= Analytics.errorRate a2 ->
  let others := generateAlerts (with_errorRate a1 0) in
  (10 < Analytics.errorRate a1 ->
     generateAlerts a1 = errorAlert (Analytics.errorRate a1) :: others
     /\ generateAlerts a2 = errorAlert (Analytics.errorRate a2) :: others)
  /\ (Analytics.errorRate a1 <= 10 -> 10 < Analytics.errorRate a2 ->
        generateAlerts a1 = others
        /\ generateAlerts a2 = errorAlert (Analytics.errorRate a2) :: others)
  /\ filter (fun alert => negb (is_errorAlert alert)) (generateAlerts a1)
     = filter (fun alert => negb (is_errorAlert alert)) (generateAlerts a2)
  /\ Forall (fun alert => is_errorAlert alert = false) others
  /\ Alert.severity (errorAlert (Analytics.errorRate a2)) = Level.high
  /\ is_errorAlert (errorAlert (Analytics.errorRate a2)) = true.
Proof.
  intros Hagree Hle others.
  pose proof (alerts_by_rate (eq_refl : agree_except_errorRate a1 a1)) as H1.
  pose proof (alerts_by_rate Hagree) as H2.
  fold others in H1, H2.
  pose proof (other_alerts_not_error a1) as Hothers. fold others in Hothers.
  split; [|split; [|split; [|split; [|split]]]].
  - intros Hgt. assert (Hgt2 : 10 < Analytics.errorRate a2) by lra.
    rewrite H1, H2.
    rewrite (proj2 (Qgt_bool_iff _ _) Hgt), (proj2 (Qgt_bool_iff _ _) Hgt2).
    split; reflexivity.
  - intros Hlow Hgt2. rewrite H1, H2.
    rewrite (proj2 (Qgt_bool_false_iff _ _) Hlow),
      (proj2 (Qgt_bool_iff _ _) Hgt2).
    split; reflexivity.
  - rewrite (others_kept _ Hothers H1), (others_kept _ Hothers H2).
    reflexivity.
  - exact Hothers.
  - reflexivity.
  - reflexivity.
Qed.

Lemma error_alert_monotone_witness :
  let a := sample_analytics 200 40 300 4 85 0
             [HourlyCount.mk 9 20; HourlyCount.mk 10 40] [] in
  generateAlerts (with_errorRate a 12)
    = errorAlert 12 :: generateAlerts (with_errorRate a 0)
  /\ generateAlerts (with_errorRate a 20)
     = errorAlert 20 :: generateAlerts (with_errorRate a 0).
Proof.
  cbv zeta.
  destruct (@error_alert_monotone
              (with_errorRate
                 (sample_analytics 200 40 300 4 85 0
                    [HourlyCount.mk 9 20; HourlyCount.mk 10 40] []) 12)
              (with_errorRate
                 (sample_analytics 200 40 300 4 85 0
                    [HourlyCount.mk 9 20; HourlyCount.mk 10 40] []) 20))
    as (Hboth & _).
  - reflexivity.
  - unfold Qle. simpl. lia.
  - apply Hboth. reflexivity.
Defined.

End Alerts.

(** *** Key metrics *)

Section KeyMetrics.
Import InsightsService.
Local Open Scope string_scope.







End KeyMetrics.

(** *** Trend prose *)

Lemma slice_last {A} (l : list A) (k : nat) :
  (0 < k)%nat -> JS.slice l (- Z.of_nat k)%Z None = last_entries k l.
Proof.
  intros Hk. unfold JS.slice, JS.rel_index, last_entries, JS.len.
  replace (- Z.of_nat k <? 0)%Z with true by (symmetry; apply Z.ltb_lt; lia).
  replace (Z.to_nat (Z.max (Z.of_nat (List.length l) + - Z.of_nat k) 0)%Z)
    with (List.length l - k)%nat by lia.
  apply firstn_all2. rewrite length_skipn. lia.
Qed.


Lemma last_entries_length {A} (k : nat) (l : list A) :
  List.length (last_entries k l) = Nat.min k (List.length l).
Proof. unfold last_entries. rewrite length_skipn. lia. Qed.


Lemma prefix_append (s t : string) : prefix s (s ++ t)%string = true.
Proof.
  induction s as [|c s IH]; simpl.
  - destruct t; reflexivity.
  - destruct (ascii_dec c c) as [_|Hne]; [exact IH | congruence].
Qed.

Section Trends.
Import InsightsService.
Local Open Scope string_scope.

Ltac split_conditions :=
  repeat match goal with
         | |- context [if ?c then _ else _] => destruct c
         end.









End Trends.

(** *** Improvement suggestions *)

Lemma Set_add_In (seen : list string) (x y : string) :
  In y (JS.Set_add seen x) <-> In y seen \/ y = x.
Proof.
  induction seen as [|z seen IH]; simpl.
  - intuition.
  - destruct (String.eqb_spec z x) as [->|Hne]; simpl.
    + intuition.
    + rewrite IH. tauto.
Qed.

Lemma Set_add_NoDup (seen : list string) (x : string) :
  NoDup seen -> NoDup (JS.Set_add seen x).
Proof.
  induction seen as [|z seen IH]; intros Hnd; simpl.
  - repeat constructor. intros [].
  - destruct (String.eqb_spec z x) as [->|Hne]; [exact Hnd|].
    inversion Hnd as [|? ? Hz Hnd']; subst. constructor.
    + rewrite Set_add_In. intros [H|H]; [contradiction | congruence].
    + apply IH. exact Hnd'.
Qed.

Lemma Set_from_spec (l : list string) :
  NoDup (JS.Set_from l) /\ forall x, In x (JS.Set_from l) <-> In x l.
Proof.
  unfold JS.Set_from.
  enough (H : forall seen, NoDup seen ->
            NoDup (fold_left JS.Set_add l seen)
            /\ forall x, In x (fold_left JS.Set_add l seen) <-> In x seen \/ In x l).
  { destruct (H [] (NoDup_nil _)) as [Hnd Hin]. split; [exact Hnd|].
    intros x. rewrite Hin. simpl. tauto. }
  induction l as [|y l IH]; intros seen Hnd; simpl.
  - split; [exact Hnd|]. intros x. tauto.
  - destruct (IH (JS.Set_add seen y) (Set_add_NoDup y Hnd)) as [Hnd' Hin].
    split; [exact Hnd'|]. intros x. rewrite Hin, Set_add_In.
    intuition congruence.
Qed.

Lemma firstn_NoDup {A} (k : nat) (l : list A) : NoDup l -> NoDup (firstn k l).
Proof.
  intros Hnd. rewrite <- (firstn_skipn k l) in Hnd.
  apply NoDup_app_remove_r in Hnd. exact Hnd.
Qed.

Lemma Qle0_inject (z : Z) : inject_Z z <= 0 <-> (z <= 0)%Z.
Proof. unfold Qle. simpl. lia. Qed.

Section Improvements.
Import OpenAIAnalysisService.

Lemma mergeImprovement_spec (e : ImprovementEntry.t) (s : ImprovementSuggestion.t) :
  let old := ImprovementEntry.suggestion e in
  let merged := mergeImprovement e s in
  let examples := ImprovementSuggestion.examples (ImprovementEntry.suggestion merged) in
  ImprovementEntry.frequency merged = (ImprovementEntry.frequency e + 1)%Z
  /\ ImprovementEntry.suggestion merged
     = ImprovementSuggestion.set_examples old
         (firstn 3 (JS.Set_from (ImprovementSuggestion.examples old
                                   ++ ImprovementSuggestion.examples s)))
  /\ NoDup examples
  /\ (List.length examples <= 3)%nat
  /\ (forall x, In x examples ->
        In x (ImprovementSuggestion.examples old)
        \/ In x (ImprovementSuggestion.examples s)).
Proof.
  cbv zeta. unfold mergeImprovement.
  cbn [ImprovementEntry.frequency ImprovementEntry.suggestion].
  rewrite slice_prefix by lia. change (Z.to_nat 3) with 3%nat.
  unfold ImprovementSuggestion.set_examples.
  cbn [ImprovementSuggestion.examples].
  destruct (Set_from_spec (ImprovementSuggestion.examples (ImprovementEntry.suggestion e)
                             ++ ImprovementSuggestion.examples s)) as [Hnd Hin].
  repeat split.
  - apply firstn_NoDup. exact Hnd.
  - apply firstn_le_length.
  - intros x Hx. apply In_firstn in Hx. apply Hin in Hx.
    apply in_app_or. exact Hx.
Qed.

Lemma improvementMap_flat (analyses : list ConversationAnalysis.t) :
  improvementMap analyses = fold_left addImprovement (all_suggestions analyses) [].
Proof.
  unfold improvementMap, all_suggestions. generalize (@nil (string * ImprovementEntry.t)).
  induction analyses as [|a rest IH]; intros m; simpl.
  - reflexivity.
  - rewrite IH, fold_left_app. reflexivity.
Qed.

Lemma addImprovement_set (m : JS.Map string ImprovementEntry.t)
    (s : ImprovementSuggestion.t) :
  exists e,
    absorb (JS.Map_get String.eqb m (improvementKey s)) s = Some e
    /\ addImprovement m s = JS.Map_set String.eqb m (improvementKey s) e.
Proof.
  unfold addImprovement, absorb.
  destruct (JS.Map_get String.eqb m (improvementKey s)); eexists; split; reflexivity.
Qed.

Lemma addImprovement_get (m : JS.Map string ImprovementEntry.t)
    (s : ImprovementSuggestion.t) (k : string) :
  JS.Map_get String.eqb (addImprovement m s) k
    = if (improvementKey s =? k)%string
      then absorb (JS.Map_get String.eqb m k) s
      else JS.Map_get String.eqb m k.
Proof.
  destruct (addImprovement_set m s) as (e & He & ->).
  rewrite (Map_get_set String.eqb String.eqb_eq).
  destruct (String.eqb_spec (improvementKey s) k) as [<-|Hne];
    [symmetry; exact He | reflexivity].
Qed.

Lemma improvement_fold_get (ss : list ImprovementSuggestion.t)
    (m : JS.Map string ImprovementEntry.t) (k : string) :
  JS.Map_get String.eqb (fold_left addImprovement ss m) k
    = fold_left absorb
        (filter (fun s => (improvementKey s =? k)%string) ss)
        (JS.Map_get String.eqb m k).
Proof.
  revert m. induction ss as [|s ss IH]; intros m; simpl.
  - reflexivity.
  - rewrite IH, addImprovement_get.
    destruct (improvementKey s =? k)%string; reflexivity.
Qed.

Lemma improvement_fold_NoDup (ss : list ImprovementSuggestion.t)
    (m : JS.Map string ImprovementEntry.t) :
  NoDup (map fst m) -> NoDup (map fst (fold_left addImprovement ss m)).
Proof.
  revert m. induction ss as [|s ss IH]; intros m Hnd; simpl.
  - exact Hnd.
  - apply IH. destruct (addImprovement_set m s) as (e & _ & ->).
    apply (Map_set_NoDup String.eqb String.eqb_eq). exact Hnd.
Qed.

Lemma absorb_fold (rest : list ImprovementSuggestion.t) (e : ImprovementEntry.t) :
  fold_left absorb rest (Some e) = Some (fold_left mergeImprovement rest e).
Proof.
  revert e. induction rest as [|s rest IH]; intros e; simpl.
  - reflexivity.
  - apply IH.
Qed.

Lemma merge_fold_frequency (rest : list ImprovementSuggestion.t)
    (e : ImprovementEntry.t) :
  ImprovementEntry.frequency (fold_left mergeImprovement rest e)
    = (ImprovementEntry.frequency e + JS.len rest)%Z.
Proof.
  unfold JS.len. revert e. induction rest as [|s rest IH]; intros e; simpl.
  - lia.
  - rewrite IH. simpl. lia.
Qed.

(** The keys of the table are distinct, and the entry under a key is
    its first suggestion, counted once, after the merge of each later
    suggestion under that key. *)
Lemma improvement_entries (analyses : list ConversationAnalysis.t) :
  NoDup (map fst (improvementMap analyses))
  /\ Forall
       (fun '(k, e) =>
          exists first rest,
            suggestions_under k analyses = first :: rest
            /\ e = fold_left mergeImprovement rest (ImprovementEntry.mk first 1)
            /\ ImprovementEntry.frequency e = JS.len (first :: rest))
       (improvementMap analyses).
Proof.
  rewrite improvementMap_flat.
  assert (Hnd : NoDup (map fst (fold_left addImprovement (all_suggestions analyses) [])))
    by (apply improvement_fold_NoDup; constructor).
  split; [exact Hnd|].
  apply Forall_forall. intros [k e] Hin.
  pose proof (Map_get_In String.eqb String.eqb_eq _ k e Hnd Hin) as Hget.
  rewrite improvement_fold_get in Hget. fold (suggestions_under k analyses) in Hget.
  destruct (suggestions_under k analyses) as [|first rest]; [discriminate|].
  change (fold_left absorb rest (Some (ImprovementEntry.mk first 1)) = Some e)
    in Hget.
  rewrite absorb_fold in Hget. injection Hget as <-.
  exists first, rest. repeat split.
  rewrite merge_fold_frequency. unfold JS.len.
  cbn [ImprovementEntry.frequency List.length]. lia.
Qed.

Lemma same_key (s1 s2 : ImprovementSuggestion.t) :
  ImprovementSuggestion.category s1 = ImprovementSuggestion.category s2 ->
  substring 0 50 (ImprovementSuggestion.issue s1)
    = substring 0 50 (ImprovementSuggestion.issue s2) ->
  improvementKey s1 = improvementKey s2.
Proof. intros Hc Hi. unfold improvementKey. rewrite Hc, Hi. reflexivity. Qed.

Lemma two_analyses_merge (a1 a2 : ConversationAnalysis.t)
    (s1 s2 : ImprovementSuggestion.t) :
  ConversationAnalysis.improvementSuggestions a1 = [s1] ->
  ConversationAnalysis.improvementSuggestions a2 = [s2] ->
  improvementKey s1 = improvementKey s2 ->
  improvementMap [a1; a2]
    = [(improvementKey s1, mergeImprovement (ImprovementEntry.mk s1 1) s2)].
Proof.
  intros H1 H2 Hk. unfold improvementMap. simpl. rewrite H1, H2. simpl.
  unfold addImprovement at 2. simpl.
  unfold addImprovement. simpl. rewrite <- Hk, String.eqb_refl. reflexivity.
Qed.

Lemma ranking_order (a b : ImprovementEntry.t) :
  ordered_by byPriorityThenFrequency a b <-> ranks_before a b.
Proof.
  unfold ordered_by, byPriorityThenFrequency, ranks_before. cbv zeta.
  generalize (priorityOrder (ImprovementSuggestion.priority (ImprovementEntry.suggestion a))).
  generalize (priorityOrder (ImprovementSuggestion.priority (ImprovementEntry.suggestion b))).
  intros pb pa.
  destruct (Z.eqb_spec (pa - pb) 0) as [E|E]; cbn [negb];
    rewrite Qle0_inject; lia.
Qed.

Lemma ranking_sorted (entries : list ImprovementEntry.t) :
  StronglySorted ranks_before (JS.sort byPriorityThenFrequency entries).
Proof.
  apply strongly_sorted_weaken with (R := ordered_by byPriorityThenFrequency).
  - intros x y. apply ranking_order.
  - apply sort_sorted.
    + intros x y.
      change (ordered_by byPriorityThenFrequency x y
              \/ ordered_by byPriorityThenFrequency y x).
      rewrite !ranking_order. unfold ranks_before. cbv zeta. lia.
    + intros x y z.
      change (ordered_by byPriorityThenFrequency x y ->
              ordered_by byPriorityThenFrequency y z ->
              ordered_by byPriorityThenFrequency x z).
      rewrite !ranking_order. unfold ranks_before. cbv zeta. lia.
Qed.

Lemma ranked_prefix (analyses : list ConversationAnalysis.t) :
  rankedImprovements analyses
    = firstn 10 (JS.sort byPriorityThenFrequency
                   (map snd (improvementMap analyses))).
Proof. unfold rankedImprovements. rewrite slice_prefix by lia. reflexivity. Qed.

Lemma ranking_facts (analyses : list ConversationAnalysis.t) :
  let entries := map snd (improvementMap analyses) in
  let sorted := JS.sort byPriorityThenFrequency entries in
  topImprovements analyses
    = map ImprovementEntry.suggestion (rankedImprovements analyses)
  /\ rankedImprovements analyses = firstn 10 sorted
  /\ Permutation sorted entries
  /\ StronglySorted ranks_before sorted
  /\ StronglySorted ranks_before (rankedImprovements analyses)
  /\ (List.length (topImprovements analyses) <= 10)%nat.
Proof.
  cbv zeta. split; [reflexivity|]. split; [apply ranked_prefix|].
  split; [apply sort_perm|]. split; [apply ranking_sorted|].
  split.
  - rewrite ranked_prefix. apply firstn_strongly_sorted, ranking_sorted.
  - unfold topImprovements. rewrite length_map, ranked_prefix.
    apply firstn_le_length.
Qed.

Lemma shared_prefix_scenario (a1 a2 : ConversationAnalysis.t)
    (s1 s2 : ImprovementSuggestion.t) :
  ConversationAnalysis.improvementSuggestions a1 = [s1] ->
  ConversationAnalysis.improvementSuggestions a2 = [s2] ->
  ImprovementSuggestion.category s1 = ImprovementSuggestion.category s2 ->
  substring 0 50 (ImprovementSuggestion.issue s1)
    = substring 0 50 (ImprovementSuggestion.issue s2) ->
  let union := JS.Set_from (ImprovementSuggestion.examples s1
                              ++ ImprovementSuggestion.examples s2) in
  let merged := firstn 3 union in
  improvementMap [a1; a2]
    = [(improvementKey s1,
        ImprovementEntry.mk (ImprovementSuggestion.set_examples s1 merged) 2)]
  /\ topImprovements [a1; a2] = [ImprovementSuggestion.set_examples s1 merged]
  /\ NoDup union
  /\ (forall x, In x union
                <-> In x (ImprovementSuggestion.examples s1)
                    \/ In x (ImprovementSuggestion.examples s2))
  /\ (List.length merged <= 3)%nat.
Proof.
  intros H1 H2 Hc Hi. cbv zeta.
  pose proof (two_analyses_merge a1 a2 H1 H2 (same_key s1 s2 Hc Hi)) as Hmap.
  destruct (mergeImprovement_spec (ImprovementEntry.mk s1 1) s2)
    as (Hf & Hs & _).
  cbn [ImprovementEntry.suggestion ImprovementEntry.frequency] in Hf, Hs.
  assert (Hentry : mergeImprovement (ImprovementEntry.mk s1 1) s2
            = ImprovementEntry.mk
                (ImprovementSuggestion.set_examples s1
                   (firstn 3 (JS.Set_from (ImprovementSuggestion.examples s1
                                             ++ ImprovementSuggestion.examples s2))))
                2).
  { destruct (mergeImprovement (ImprovementEntry.mk s1 1) s2) as [sug freq].
    cbn [ImprovementEntry.suggestion ImprovementEntry.frequency] in Hf, Hs.
    rewrite Hf, Hs. reflexivity. }
  rewrite Hentry in Hmap.
  destruct (Set_from_spec (ImprovementSuggestion.examples s1
                             ++ ImprovementSuggestion.examples s2)) as [Hnd Hin].
  split; [exact Hmap|]. split.
  - unfold topImprovements, rankedImprovements. rewrite Hmap. reflexivity.
  - split; [exact Hnd|]. split.
    + intros x. rewrite Hin. apply in_app_iff.
    + apply firstn_le_length.
Qed.

(** C4, as the code has it.  The deduplication key is the category, a
    hyphen, and the first 50 characters of the issue.  The keys of the
    table are distinct; the entry under a key is the first suggestion
    with that key, with frequency 1, after one merge per later
    suggestion with that key; a merge adds one to the frequency and
    replaces the stored examples by the first three distinct elements
    of the stored examples followed by the new ones.  Two analyses
    with one suggestion each, of equal category and equal first 50
    characters of the issue, give one entry with frequency 2 whose
    examples are the deduplicated union capped at 3.  The entries are
    sorted by priority, high before medium before low, then by
    frequency descending; the first ten are kept and their
    suggestions reported. *)
Theorem improvements_deduplicated_and_ranked :
  (forall s,
     improvementKey s
     = (SuggestionCategory.toString (ImprovementSuggestion.category s)
          ++ "-" ++ substring 0 50 (ImprovementSuggestion.issue s))%string)
  /\ (forall analyses,
        NoDup (map fst (improvementMap analyses))
        /\ Forall
             (fun '(k, e) =>
                exists first rest,
                  suggestions_under k analyses = first :: rest
                  /\ e = fold_left mergeImprovement rest
                           (ImprovementEntry.mk first 1)
                  /\ ImprovementEntry.frequency e = JS.len (first :: rest))
             (improvementMap analyses))
  /\ (forall e s,
        let old := ImprovementEntry.suggestion e in
        let merged := mergeImprovement e s in
        let examples :=
          ImprovementSuggestion.examples (ImprovementEntry.suggestion merged) in
        ImprovementEntry.frequency merged = (ImprovementEntry.frequency e + 1)%Z
        /\ ImprovementEntry.suggestion merged
           = ImprovementSuggestion.set_examples old
               (firstn 3 (JS.Set_from (ImprovementSuggestion.examples old
                                         ++ ImprovementSuggestion.examples s)))
        /\ NoDup examples
        /\ (List.length examples <= 3)%nat
        /\ (forall x, In x examples ->
              In x (ImprovementSuggestion.examples old)
              \/ In x (ImprovementSuggestion.examples s)))
  /\ (forall a1 a2 s1 s2,
        ConversationAnalysis.improvementSuggestions a1 = [s1] ->
        ConversationAnalysis.improvementSuggestions a2 = [s2] ->
        ImprovementSuggestion.category s1 = ImprovementSuggestion.category s2 ->
        substring 0 50 (ImprovementSuggestion.issue s1)
          = substring 0 50 (ImprovementSuggestion.issue s2) ->
        let union := JS.Set_from (ImprovementSuggestion.examples s1
                                    ++ ImprovementSuggestion.examples s2) in
        let merged := firstn 3 union in
        improvementMap [a1; a2]
          = [(improvementKey s1,
              ImprovementEntry.mk
                (ImprovementSuggestion.set_examples s1 merged) 2)]
        /\ topImprovements [a1; a2]
           = [ImprovementSuggestion.set_examples s1 merged]
        /\ NoDup union
        /\ (forall x, In x union
                      <-> In x (ImprovementSuggestion.examples s1)
                          \/ In x (ImprovementSuggestion.examples s2))
        /\ (List.length merged <= 3)%nat)
  /\ (forall analyses,
        let entries := map snd (improvementMap analyses) in
        let sorted := JS.sort byPriorityThenFrequency entries in
        topImprovements analyses
          = map ImprovementEntry.suggestion (rankedImprovements analyses)
        /\ rankedImprovements analyses = firstn 10 sorted
        /\ Permutation sorted entries
        /\ StronglySorted ranks_before sorted
        /\ StronglySorted ranks_before (rankedImprovements analyses)
        /\ (List.length (topImprovements analyses) <= 10)%nat).
Proof.
  split; [reflexivity|].
  split; [exact improvement_entries|].
  split; [exact mergeImprovement_spec|].
  split; [exact shared_prefix_scenario|].
  exact ranking_facts.
Qed.

(** C4 as stated fails where two issues differ inside their first 50
    characters but beyond the first 50 characters of
    [{category}-{issue}]: the two suggestions below agree on the
    first 50 characters of [flow-] followed by the issue, yet they are
    stored under different keys and are not merged. *)
Lemma issues_differing_late_are_not_merged :
  let s1 := ImprovementSuggestion.mk SuggestionCategory.flow
              "aaaaaaaaaaaaaaaaaaaaaaaaaaaaaaaaaaaaaaaaaaaaa1"
              "shorten the greeting" Level.high ["first"%string] in
  let s2 := ImprovementSuggestion.mk SuggestionCategory.flow
              "aaaaaaaaaaaaaaaaaaaaaaaaaaaaaaaaaaaaaaaaaaaaa2"
              "shorten the greeting" Level.high ["second"%string] in
  let a1 := sample_analysis SatisfactionTrend.stable 0 50 [s1] in
  let a2 := sample_analysis SatisfactionTrend.stable 0 50 [s2] in
  spec_improvementKey s1 = spec_improvementKey s2
  /\ improvementKey s1 <> improvementKey s2
  /\ map (fun '(_, e) => ImprovementEntry.frequency e) (improvementMap [a1; a2])
     = [1; 1]%Z
  /\ topImprovements [a1; a2] = [s1; s2].
Proof.
  vm_compute. repeat split. intros H. discriminate H.
Qed.

Lemma improvements_deduplicated_and_ranked_witness :
  let s1 := ImprovementSuggestion.mk SuggestionCategory.knowledge
              "refund policy answers are out of date"
              "refresh the refund article" Level.high
              ["where is my refund"; "refund status"]%string in
  let s2 := ImprovementSuggestion.mk SuggestionCategory.knowledge
              "refund policy answers are out of date"
              "update the knowledge base" Level.low
              ["refund status"; "refund window"; "refund by card"]%string in
  let a1 := sample_analysis SatisfactionTrend.stable 0 50 [s1] in
  let a2 := sample_analysis SatisfactionTrend.declining 2 30 [s2] in
  map (fun '(_, e) => ImprovementEntry.frequency e) (improvementMap [a1; a2])
    = [2]%Z
  /\ map ImprovementSuggestion.examples (topImprovements [a1; a2])
     = [["where is my refund"; "refund status"; "refund window"]%string].
Proof.
  pose proof improvements_deduplicated_and_ranked
    as (_ & _ & _ & Hscenario & _).
  cbv zeta.
  destruct (Hscenario
              (sample_analysis SatisfactionTrend.stable 0 50
                 [ImprovementSuggestion.mk SuggestionCategory.knowledge
                    "refund policy answers are out of date"
                    "refresh the refund article" Level.high
                    ["where is my refund"; "refund status"]%string])
              (sample_analysis SatisfactionTrend.declining 2 30
                 [ImprovementSuggestion.mk SuggestionCategory.knowledge
                    "refund policy answers are out of date"
                    "update the knowledge base" Level.low
                    ["refund status"; "refund window"; "refund by card"]%string])
              _ _ eq_refl eq_refl eq_refl eq_refl)
    as (Hmap & Htop & _).
  rewrite Hmap, Htop. split; reflexivity.
Defined.

End Improvements.

(** *** Sums of rationals *)

Lemma sumQ_from {A} (f : A -> Q) (l : list A) (a : Q) :
  fold_left (fun sum x => sum + f x) l a == a + JS.sumQ f l.
Proof.
  unfold JS.sumQ. revert a. induction l as [|x l IH]; intros a; simpl.
  - lra.
  - rewrite IH, (IH (0 + f x)). lra.
Qed.

Lemma sumQ_cons {A} (f : A -> Q) (x : A) (l : list A) :
  JS.sumQ f (x :: l) == f x + JS.sumQ f l.
Proof. unfold JS.sumQ at 1. simpl. rewrite sumQ_from. lra. Qed.

Lemma sumQ_app {A} (f : A -> Q) (l1 l2 : list A) :
  JS.sumQ f (l1 ++ l2) == JS.sumQ f l1 + JS.sumQ f l2.
Proof.
  induction l1 as [|x l1 IH]; simpl.
  - unfold JS.sumQ at 2. simpl. lra.
  - rewrite !sumQ_cons, IH. lra.
Qed.






Lemma countZ_app {A} (p : A -> bool) (l1 l2 : list A) :
  countZ p (l1 ++ l2) = (countZ p l1 + countZ p l2)%Z.
Proof.
  induction l1 as [|x l1 IH]; simpl; [reflexivity|]. rewrite IH. lia.
Qed.

Lemma countZ_pos_exists {A} (p : A -> bool) (l : list A) :
  (1 <= countZ p l)%Z <-> exists x, In x l /\ p x = true.
Proof.
  induction l as [|x l IH]; simpl.
  - split; [lia|]. intros (x & [] & _).
  - destruct (p x) eqn:E.
    + split; [|pose proof (countZ_bounds p l); lia].
      intros _. exists x. split; [left; reflexivity|exact E].
    + rewrite Z.add_0_l, IH. split.
      * intros (y & Hy & Hp). exists y. split; [right; exact Hy|exact Hp].
      * intros (y & [Hy|Hy] & Hp); [subst; congruence|].
        exists y. split; assumption.
Qed.

(** *** Sets of identifiers *)

Lemma Set_add_cases (seen : list string) (x : string) :
  (In x seen -> JS.Set_add seen x = seen)
  /\ (~ In x seen -> JS.Set_add seen x = seen ++ [x]).
Proof.
  induction seen as [|y seen [IH1 IH2]]; simpl.
  - split; [intros []|reflexivity].
  - destruct (String.eqb_spec y x) as [->|Hne].
    + split; [reflexivity|]. intros H. exfalso. apply H. left. reflexivity.
    + split.
      * intros [H|H]; [congruence|]. rewrite IH1 by exact H. reflexivity.
      * intros H. rewrite IH2; [reflexivity|]. intros Hin. apply H. right. exact Hin.
Qed.

Lemma Set_from_length (l : list string) :
  (List.length (JS.Set_from l) <= List.length l)%nat.
Proof.
  destruct (Set_from_spec l) as [Hnd Hin].
  apply NoDup_incl_length; [exact Hnd|].
  intros x Hx. apply Hin. exact Hx.
Qed.

Lemma countZ_map {A B} (g : A -> B) (p : B -> bool) (l : list A) :
  countZ p (map g l) = countZ (fun x => p (g x)) l.
Proof.
  induction l as [|x l IH]; simpl; [reflexivity|]. rewrite IH. reflexivity.
Qed.

Lemma In_strings (l : list (option string)) (s : string) :
  In s (JS.strings l) <-> In (Some s) l.
Proof.
  unfold JS.strings. rewrite in_flat_map. split.
  - intros ([y|] & Hy & Hs); simpl in Hs; [|contradiction].
    destruct Hs as [->|[]]. exact Hy.
  - intros H. exists (Some s). split; [exact H|left; reflexivity].
Qed.

Lemma strings_length (l : list (option string)) :
  (List.length (JS.strings l) <= List.length l)%nat.
Proof.
  unfold JS.strings. induction l as [|[s|] l IH]; simpl; lia.
Qed.

Section Identifiers.
Import AnalyticsService.

(** X1. The number of unique users is the number of distinct
    non-empty user identifiers among the logs; it never exceeds the
    number of logs that carry one. *)
Theorem unique_users_are_distinct_ids (logs : list ChatLog.t) :
  exists users : list string,
    NoDup users
    /\ (forall u, In u users
                  <-> JS.truthy_string u = true
                      /\ exists log, In log logs /\ ChatLog.userId log = Some u)
    /\ getUniqueUsers logs = JS.len users
    /\ (0 <= getUniqueUsers logs <= countZ (has_text ChatLog.userId) logs)%Z.
Proof.
  set (ids := filter JS.truthy_text (map ChatLog.userId logs)).
  exists (JS.Set_from (JS.strings ids)).
  destruct (Set_from_spec (JS.strings ids)) as [Hnd Hin].
  split; [exact Hnd|]. split; [|split; [reflexivity|]].
  - intros u. rewrite Hin, In_strings. unfold ids.
    rewrite filter_In, in_map_iff. simpl. split.
    + intros [(log & Hu & Hlog) Ht]. split; [exact Ht|].
      exists log. split; assumption.
    + intros [Ht (log & Hlog & Hu)]. split; [|exact Ht].
      exists log. split; assumption.
  - unfold getUniqueUsers. fold ids. split; [apply len_nonneg|].
    pose proof (Set_from_length (JS.strings ids)) as H1.
    pose proof (strings_length ids) as H2.
    assert (H3 : JS.len ids = countZ (has_text ChatLog.userId) logs).
    { unfold ids. rewrite len_filter_countZ, countZ_map. reflexivity. }
    unfold JS.len in *. lia.
Qed.

End Identifiers.

(** *** Averages *)



Section Averages.
Import AnalyticsService.





Lemma messageLengths_texts (logs : list ChatLog.t) :
  messageLengths logs = text_lengths logs.
Proof.
  unfold messageLengths, text_lengths.
  enough (H : forall acc,
    fold_left
      (fun acc log =>
         let acc :=
           match ChatLog.userMessage log with
           | Some s => if JS.truthy_string s then JS.push acc (JS.strlen s) else acc
           | None => acc
           end in
         match ChatLog.botResponse log with
         | Some s => if JS.truthy_string s then JS.push acc (JS.strlen s) else acc
         | None => acc
         end) logs acc
    = acc ++ flat_map
        (fun log =>
           (match ChatLog.userMessage log with
            | Some s => if JS.truthy_string s then [JS.strlen s] else []
            | None => []
            end)
           ++
           (match ChatLog.botResponse log with
            | Some s => if JS.truthy_string s then [JS.strlen s] else []
            | None => []
            end)) logs)
    by apply (H []).
  induction logs as [|log logs IH]; intros acc; simpl.
  - rewrite app_nil_r. reflexivity.
  - rewrite IH. unfold JS.push.
    destruct (ChatLog.userMessage log) as [u|];
      destruct (ChatLog.botResponse log) as [b|];
      try destruct (JS.truthy_string u); try destruct (JS.truthy_string b);
      simpl; rewrite <- ?app_assoc; simpl; try rewrite app_nil_r; reflexivity.
Qed.

Lemma truthy_string_length (s : string) :
  JS.truthy_string s = true -> (1 <= JS.strlen s)%Z.
Proof.
  destruct s; [discriminate|]. intros _. unfold JS.strlen. simpl. lia.
Qed.

Lemma text_lengths_positive (logs : list ChatLog.t) (n : Z) :
  In n (text_lengths logs) -> (1 <= n)%Z.
Proof.
  unfold text_lengths. rewrite in_flat_map. intros (log & _ & Hn).
  apply in_app_or in Hn. destruct Hn as [Hn|Hn].
  - destruct (ChatLog.userMessage log) as [s|]; [|contradiction].
    destruct (JS.truthy_string s) eqn:E; [|contradiction].
    destruct Hn as [<-|[]]. apply truthy_string_length. exact E.
  - destruct (ChatLog.botResponse log) as [s|]; [|contradiction].
    destruct (JS.truthy_string s) eqn:E; [|contradiction].
    destruct Hn as [<-|[]]. apply truthy_string_length. exact E.
Qed.

Lemma sumZ_lower {A} (f : A -> Z) (l : list A) (lo : Z) :
  (forall x, In x l -> lo <= f x)%Z -> (lo * JS.len l <= JS.sumZ f l)%Z.
Proof.
  unfold JS.len. induction l as [|x l IH]; intros H.
  - change (JS.sumZ f []) with 0%Z. cbn [List.length]. lia.
  - rewrite sumZ_cons. pose proof (H x (or_introl eq_refl)) as Hx.
    assert (IH' := IH (fun y Hy => H y (or_intror Hy))).
    cbn [List.length]. nia.
Qed.

Lemma sumZ_upper {A} (f : A -> Z) (l : list A) (hi : Z) :
  (forall x, In x l -> f x <= hi)%Z -> (JS.sumZ f l <= hi * JS.len l)%Z.
Proof.
  unfold JS.len. induction l as [|x l IH]; intros H.
  - change (JS.sumZ f []) with 0%Z. cbn [List.length]. lia.
  - rewrite sumZ_cons. pose proof (H x (or_introl eq_refl)) as Hx.
    assert (IH' := IH (fun y Hy => H y (or_intror Hy))).
    cbn [List.length]. nia.
Qed.

(** X3. The average message length is taken over the non-empty user
    messages and bot responses: it is 0 when there is none, and
    otherwise at least 1 and at most the length of the longest. *)
Theorem average_message_length_bounds (logs : list ChatLog.t) :
  match text_lengths logs with
  | [] => calculateAverageMessageLength logs = 0
  | _ :: _ =>
      calculateAverageMessageLength logs
        = inject_Z (JS.sumZ (fun n => n) (text_lengths logs))
          / inject_Z (JS.len (text_lengths logs))
      /\ 1 <= calculateAverageMessageLength logs
  end
  /\ (forall longest,
        text_lengths logs <> [] ->
        (forall n, In n (text_lengths logs) -> (n <= longest)%Z) ->
        calculateAverageMessageLength logs <= inject_Z longest).
Proof.
  unfold calculateAverageMessageLength. rewrite messageLengths_texts.
  pose proof (text_lengths_positive logs) as Hpos.
  destruct (text_lengths logs) as [|n l] eqn:E.
  - split; [reflexivity|]. intros longest Hne. congruence.
  - assert (Hlen : (0 < JS.len (n :: l))%Z)
      by (unfold JS.len; cbn [List.length]; lia).
    replace (JS.len (n :: l) =? 0)%Z with false
      by (symmetry; apply Z.eqb_neq; lia).
    pose proof (inject_Z_pos Hlen) as HlenQ.
    split; [split; [reflexivity|]|].
    + apply Qle_shift_div_l; [exact HlenQ|].
      rewrite Qmult_1_l, <- Zle_Qle.
      pose proof (@sumZ_lower _ (fun n => n) (n :: l) 1 Hpos). lia.
    + intros longest _ Hall. apply Qle_shift_div_r; [exact HlenQ|].
      rewrite <- inject_Z_mult, <- Zle_Qle.
      pose proof (@sumZ_upper _ (fun n => n) (n :: l) longest Hall). lia.
Qed.

Lemma average_message_length_bounds_witness :
  let logs := [sample_interaction None None (Some "hello"%string)
                 (Some "hi"%string) None None None None;
               sample_interaction None None (Some "thanks"%string) None
                 None None None None] in
  calculateAverageMessageLength logs <= 6
  /\ calculateAverageMessageLength logs == 13 # 3.
Proof.
  cbv zeta.
  destruct (average_message_length_bounds
              [sample_interaction None None (Some "hello"%string)
                 (Some "hi"%string) None None None None;
               sample_interaction None None (Some "thanks"%string) None
                 None None None None])
    as [_ Hbound].
  split; [|reflexivity].
  apply (Hbound 6%Z); [discriminate|].
  intros n [<-|[<-|[<-|[]]]]; vm_compute; discriminate.
Defined.
End Averages.

(** *** Keys and totals of the counting maps *)

Section CountingTotals.
Import AnalyticsService.

Lemma bump_keys_Set_add (m : JS.Map string Z) (k : string) :
  map fst (bump String.eqb m k) = JS.Set_add (map fst m) k.
Proof.
  unfold bump. rewrite Map_set_keys.
  destruct (Set_add_cases (map fst m) k) as [Hin Hout].
  destruct (JS.Map_get String.eqb m k) eqn:E.
  - symmetry. apply Hin.
    destruct (in_dec string_dec k (map fst m)) as [H|H]; [exact H|].
    apply (Map_get_None String.eqb String.eqb_eq) in H. congruence.
  - symmetry. apply Hout.
    apply (Map_get_None String.eqb String.eqb_eq). exact E.
Qed.

Lemma bump_sum {K} (eqb : K -> K -> bool) (m : JS.Map K Z) (k : K) :
  JS.sumZ snd (bump eqb m k) = (JS.sumZ snd m + 1)%Z.
Proof.
  unfold bump. induction m as [|[k' v'] m IH]; cbn [JS.Map_set JS.Map_get].
  - reflexivity.
  - destruct (eqb k' k) eqn:E.
    + rewrite !sumZ_cons. cbn [snd]. rewrite Z_or_zero. lia.
    + rewrite !sumZ_cons, IH. cbn [snd]. lia.
Qed.

Lemma bump_values {K} (eqb : K -> K -> bool) (m : JS.Map K Z) (k : K) :
  Forall (fun kv => (1 <= snd kv)%Z) m ->
  Forall (fun kv => (1 <= snd kv)%Z) (bump eqb m k).
Proof.
  unfold bump. induction m as [|[k' v'] m IH]; intros Hall;
    cbn [JS.Map_set JS.Map_get].
  - constructor; [|constructor]. cbn [snd]. rewrite Z_or_zero. lia.
  - inversion Hall as [|? ? Hv Hm]; subst. cbn [snd] in Hv.
    destruct (eqb k' k) eqn:E.
    + constructor; [|exact Hm]. cbn [snd]. rewrite Z_or_zero. lia.
    + constructor; [exact Hv|]. apply IH. exact Hm.
Qed.

Variable key : ChatLog.t -> option string.

Lemma countBy_keys (logs : list ChatLog.t) :
  map fst (countBy key logs) = JS.Set_from (present_texts key logs).
Proof.
  unfold countBy, JS.Set_from.
  enough (H : forall m,
            map fst (fold_left (countStep key) logs m)
            = fold_left JS.Set_add (present_texts key logs) (map fst m))
    by apply (H []).
  unfold present_texts.
  induction logs as [|log logs IH]; intros m; simpl.
  - reflexivity.
  - rewrite IH, fold_left_app. f_equal. unfold countStep.
    destruct (key log) as [k|]; [|reflexivity].
    destruct (JS.truthy_string k); [|reflexivity].
    simpl. apply bump_keys_Set_add.
Qed.

Lemma countBy_sum (logs : list ChatLog.t) :
  JS.sumZ snd (countBy key logs) = countZ (has_text key) logs.
Proof.
  unfold countBy.
  enough (H : forall m, JS.sumZ snd (fold_left (countStep key) logs m)
                        = (JS.sumZ snd m + countZ (has_text key) logs)%Z)
    by (rewrite H; reflexivity).
  induction logs as [|log logs IH]; intros m; simpl.
  - lia.
  - rewrite IH. unfold countStep, has_text, JS.truthy_text.
    destruct (key log) as [k|]; [|lia].
    destruct (JS.truthy_string k); [|lia].
    rewrite bump_sum. lia.
Qed.

Lemma countBy_values (logs : list ChatLog.t) :
  Forall (fun kv => (1 <= snd kv)%Z) (countBy key logs).
Proof.
  unfold countBy.
  enough (H : forall m, Forall (fun kv => (1 <= snd kv)%Z) m ->
              Forall (fun kv => (1 <= snd kv)%Z) (fold_left (countStep key) logs m))
    by (apply H; constructor).
  induction logs as [|log logs IH]; intros m Hm; simpl; [exact Hm|].
  apply IH. unfold countStep.
  destruct (key log) as [k|]; [|exact Hm].
  destruct (JS.truthy_string k); [|exact Hm].
  apply bump_values. exact Hm.
Qed.

Lemma countBy_len (logs : list ChatLog.t) :
  JS.len (countBy key logs) = JS.len (JS.Set_from (present_texts key logs)).
Proof.
  unfold JS.len. rewrite <- countBy_keys, length_map. reflexivity.
Qed.

Lemma present_texts_In (logs : list ChatLog.t) (k : string) :
  In k (present_texts key logs)
  <-> JS.truthy_string k = true /\ exists log, In log logs /\ key log = Some k.
Proof.
  unfold present_texts. rewrite in_flat_map. split.
  - intros (log & Hlog & Hk).
    destruct (key log) as [k'|] eqn:E; [|contradiction].
    destruct (JS.truthy_string k') eqn:Et; [|contradiction].
    destruct Hk as [<-|[]]. split; [exact Et|]. exists log. split; assumption.
  - intros (Ht & log & Hlog & Hk). exists log. split; [exact Hlog|].
    rewrite Hk, Ht. left. reflexivity.
Qed.
End CountingTotals.

Section Sessions.
Import AnalyticsService.

(** X4. The average number of messages per session is the number of
    logs that carry a conversation identifier over the number of
    distinct identifiers; it is 0 when no log carries one and at
    least 1 otherwise. *)
Theorem messages_per_session (logs : list ChatLog.t) :
  let sessions := JS.Set_from (present_texts ChatLog.conversationId logs) in
  let attributed := countZ (has_text ChatLog.conversationId) logs in
  match sessions with
  | [] => calculateAverageMessagesPerSession logs = 0
  | _ :: _ =>
      calculateAverageMessagesPerSession logs
        = inject_Z attributed / inject_Z (JS.len sessions)
      /\ 1 <= calculateAverageMessagesPerSession logs
  end.
Proof.
  cbv zeta. unfold calculateAverageMessagesPerSession.
  rewrite countBy_sum, countBy_len.
  pose proof (countBy_values ChatLog.conversationId logs) as Hvals.
  pose proof (countBy_sum ChatLog.conversationId logs) as Hsum.
  pose proof (countBy_len ChatLog.conversationId logs) as Hlen.
  assert (Hle : (JS.len (countBy ChatLog.conversationId logs)
                 <= JS.sumZ snd (countBy ChatLog.conversationId logs))%Z).
  { pose proof (@sumZ_lower _ snd (countBy ChatLog.conversationId logs) 1) as H.
    rewrite Forall_forall in Hvals. specialize (H Hvals). lia. }
  rewrite Hsum, Hlen in Hle.
  destruct (JS.Set_from (present_texts ChatLog.conversationId logs))
    as [|s rest] eqn:Es.
  - destruct (JS.len logs =? 0)%Z; reflexivity.
  - assert (Hpos : (0 < JS.len (s :: rest))%Z)
      by (unfold JS.len; cbn [List.length]; lia).
    assert (Hlogs : (JS.len logs =? 0)%Z = false).
    { apply Z.eqb_neq. pose proof (countZ_bounds (has_text ChatLog.conversationId) logs).
      lia. }
    rewrite Hlogs.
    replace (JS.len (s :: rest) >? 0)%Z with true
      by (symmetry; apply Z.gtb_lt; lia).
    split; [reflexivity|].
    apply Qle_shift_div_l; [apply inject_Z_pos; exact Hpos|].
    rewrite Qmult_1_l, <- Zle_Qle. exact Hle.
Qed.

Lemma actions_set_spec (logs : list ChatLog.t) (init : list string) :
  NoDup init ->
  let set :=
    fold_left
      (fun set log =>
         match ChatLog.conversationId log with
         | Some id =>
             if JS.truthy_flag (metadata_hasActions log) && JS.truthy_string id
             then JS.Set_add set id else set
         | None => set
         end)
      logs init in
  NoDup set
  /\ forall id, In id set
                <-> In id init
                    \/ (JS.truthy_string id = true
                        /\ exists log, In log logs
                             /\ ChatLog.conversationId log = Some id
                             /\ JS.truthy_flag (metadata_hasActions log) = true).
Proof.
  revert init. induction logs as [|log logs IH]; intros init Hnd; simpl.
  - split; [exact Hnd|]. intros id. split; [tauto|].
    intros [H|(_ & log & [] & _)]. exact H.
  - destruct (ChatLog.conversationId log) as [cid|] eqn:Ec.
    + destruct (JS.truthy_flag (metadata_hasActions log)) eqn:Ef;
        destruct (JS.truthy_string cid) eqn:Et; cbn [andb].
      * destruct (IH (JS.Set_add init cid) (Set_add_NoDup cid Hnd)) as [Hnd' Hin].
        split; [exact Hnd'|]. intros id. rewrite Hin, Set_add_In. split.
        -- intros [[H|H]|(Ht & l & Hl & Hc & Hf)].
           ++ left. exact H.
           ++ subst id. right. split; [exact Et|].
              exists log. repeat split; [left; reflexivity|exact Ec|exact Ef].
           ++ right. split; [exact Ht|]. exists l.
              repeat split; [right; exact Hl|exact Hc|exact Hf].
        -- intros [H|(Ht & l & [Hl|Hl] & Hc & Hf)].
           ++ left. left. exact H.
           ++ subst l. left. right. congruence.
           ++ right. split; [exact Ht|]. exists l. repeat split; assumption.
      * destruct (IH init Hnd) as [Hnd' Hin]. split; [exact Hnd'|].
        intros id. rewrite Hin. split.
        -- intros [H|(Ht & l & Hl & Hc & Hf)]; [left; exact H|].
           right. split; [exact Ht|]. exists l.
           repeat split; [right; exact Hl|exact Hc|exact Hf].
        -- intros [H|(Ht & l & [Hl|Hl] & Hc & Hf)]; [left; exact H| |].
           ++ subst l. rewrite Ec in Hc. injection Hc as ->. congruence.
           ++ right. split; [exact Ht|]. exists l. repeat split; assumption.
      * destruct (IH init Hnd) as [Hnd' Hin]. split; [exact Hnd'|].
        intros id. rewrite Hin. split.
        -- intros [H|(Ht & l & Hl & Hc & Hf)]; [left; exact H|].
           right. split; [exact Ht|]. exists l.
           repeat split; [right; exact Hl|exact Hc|exact Hf].
        -- intros [H|(Ht & l & [Hl|Hl] & Hc & Hf)]; [left; exact H| |].
           ++ subst l. congruence.
           ++ right. split; [exact Ht|]. exists l. repeat split; assumption.
      * destruct (IH init Hnd) as [Hnd' Hin]. split; [exact Hnd'|].
        intros id. rewrite Hin. split.
        -- intros [H|(Ht & l & Hl & Hc & Hf)]; [left; exact H|].
           right. split; [exact Ht|]. exists l.
           repeat split; [right; exact Hl|exact Hc|exact Hf].
        -- intros [H|(Ht & l & [Hl|Hl] & Hc & Hf)]; [left; exact H| |].
           ++ subst l. congruence.
           ++ right. split; [exact Ht|]. exists l. repeat split; assumption.
    + destruct (IH init Hnd) as [Hnd' Hin]. split; [exact Hnd'|].
      intros id. rewrite Hin. split.
      * intros [H|(Ht & l & Hl & Hc & Hf)]; [left; exact H|].
        right. split; [exact Ht|]. exists l.
        repeat split; [right; exact Hl|exact Hc|exact Hf].
      * intros [H|(Ht & l & [Hl|Hl] & Hc & Hf)]; [left; exact H| |].
        -- subst l. congruence.
        -- right. split; [exact Ht|]. exists l. repeat split; assumption.
Qed.

(** X5. The number of sessions with actions is the number of distinct
    non-empty conversation identifiers among the logs whose action
    flag is set; it never exceeds the number of distinct conversation
    identifiers. *)
Theorem sessions_with_actions_are_sessions (logs : list ChatLog.t) :
  exists ids : list string,
    NoDup ids
    /\ (forall id,
          In id ids
          <-> JS.truthy_string id = true
              /\ exists log, In log logs
                   /\ ChatLog.conversationId log = Some id
                   /\ JS.truthy_flag (metadata_hasActions log) = true)
    /\ getSessionsWithActions logs = JS.len ids
    /\ (0 <= getSessionsWithActions logs
        <= JS.len (JS.Set_from (present_texts ChatLog.conversationId logs)))%Z.
Proof.
  exists (sessionsWithActionsSet logs).
  destruct (actions_set_spec logs (NoDup_nil _)) as [Hnd Hin].
  fold (sessionsWithActionsSet logs) in Hnd, Hin.
  split; [exact Hnd|]. split; [|split; [reflexivity|]].
  - intros id. rewrite Hin. simpl. tauto.
  - unfold getSessionsWithActions. split; [apply len_nonneg|].
    unfold JS.len. apply inj_le. apply NoDup_incl_length; [exact Hnd|].
    intros id Hid. apply Hin in Hid. destruct Hid as [[]|(Ht & log & Hl & Hc & _)].
    apply Set_from_spec. apply present_texts_In. split; [exact Ht|].
    exists log. split; assumption.
Qed.

End Sessions.

(** *** Ties and totals of the breakdowns *)

Section Stability.
Context {A : Type} (cmp : A -> A -> Q) (p : A -> bool).
Hypothesis tied : forall x y, p x = true -> p y = true -> cmp x y <= 0.

Lemma insert_filter_tied (x : A) (l : list A) :
  filter p (JS.insert cmp x l) = filter p (x :: l).
Proof.
  induction l as [|y l IH]; [reflexivity|].
  cbn [JS.insert]. destruct (Qle_bool (cmp x y) 0) eqn:E; [reflexivity|].
  cbn [filter] in *. rewrite IH.
  destruct (p x) eqn:Ex; [|reflexivity].
  destruct (p y) eqn:Ey; [|reflexivity].
  pose proof (tied Ex Ey) as H. apply Qle_bool_iff in H. congruence.
Qed.

(** The sort keeps the relative order of elements that compare as
    equal. *)
Lemma sort_filter_tied (l : list A) :
  filter p (JS.sort cmp l) = filter p l.
Proof.
  induction l as [|x l IH]; [reflexivity|].
  cbn [JS.sort fold_right]. fold (JS.sort cmp l).
  rewrite insert_filter_tied. cbn [filter]. rewrite IH. reflexivity.
Qed.
End Stability.

Lemma sumZ_perm {A} (f : A -> Z) (l l' : list A) :
  Permutation l l' -> JS.sumZ f l = JS.sumZ f l'.
Proof.
  induction 1 as [|x l l' _ IH|x y l|l l' l'' _ IH1 _ IH2].
  - reflexivity.
  - rewrite !sumZ_cons, IH. reflexivity.
  - rewrite !sumZ_cons. lia.
  - rewrite IH1. exact IH2.
Qed.

Lemma sumZ_ext {A} (f g : A -> Z) (l : list A) :
  (forall x, f x = g x) -> JS.sumZ f l = JS.sumZ g l.
Proof.
  intros H. induction l as [|x l IH]; [reflexivity|].
  rewrite !sumZ_cons, H, IH. reflexivity.
Qed.


Lemma byCountDesc_order {E} (count : E -> Z) (a b : E) :
  ordered_by (AnalyticsService.byCountDesc count) a b <-> (count b <= count a)%Z.
Proof.
  unfold ordered_by, AnalyticsService.byCountDesc. rewrite Qle0_inject. lia.
Qed.

Lemma sort_by_count_desc {E} (count : E -> Z) (l : list E) :
  StronglySorted (fun a b => (count b <= count a)%Z)
    (JS.sort (AnalyticsService.byCountDesc count) l).
Proof.
  apply strongly_sorted_weaken
    with (R := ordered_by (AnalyticsService.byCountDesc count)).
  - intros x y. apply byCountDesc_order.
  - apply sort_sorted.
    + intros x y.
      change (ordered_by (AnalyticsService.byCountDesc count) x y
              \/ ordered_by (AnalyticsService.byCountDesc count) y x).
      rewrite !byCountDesc_order. lia.
    + intros x y z.
      change (ordered_by (AnalyticsService.byCountDesc count) x y ->
              ordered_by (AnalyticsService.byCountDesc count) y z ->
              ordered_by (AnalyticsService.byCountDesc count) x z).
      rewrite !byCountDesc_order. lia.
Qed.

Section Ranking.
Import AnalyticsService.

Lemma filter_entries {E} (build : string * Z -> E) (name : E -> string)
    (p : E -> bool) (q : string -> bool) (m : list (string * Z)) :
  (forall kv, In kv m -> name (build kv) = fst kv /\ p (build kv) = q (fst kv)) ->
  map name (filter p (map build m)) = filter q (map fst m).
Proof.
  induction m as [|kv m IH]; intros H; [reflexivity|].
  cbn [map filter].
  destruct (H kv (or_introl eq_refl)) as [Hn Hp].
  assert (IH' := IH (fun kv' Hkv' => H kv' (or_intror Hkv'))).
  rewrite <- Hp.
  destruct (p (build kv)); cbn [map]; rewrite ?Hn, IH'; reflexivity.
Qed.

(** X6. The top categories are the first ten of a ranking of all
    distinct categories by count, largest first, in which categories
    of equal count stand in the order of their first appearance in the
    logs. *)
Theorem top_categories_ranking (logs : list ChatLog.t) :
  let seen := JS.Set_from (present_texts ChatLog.category logs) in
  exists ranked : list CategoryCount.t,
    getTopCategories logs = firstn 10 ranked
    /\ Permutation (map CategoryCount.category ranked) seen
    /\ StronglySorted
         (fun a b => (CategoryCount.count b <= CategoryCount.count a)%Z) ranked
    /\ (forall c : Z,
          map CategoryCount.category
            (filter (fun e => (CategoryCount.count e =? c)%Z) ranked)
          = filter (fun k => (countZ (key_is ChatLog.category k) logs =? c)%Z)
              seen)
    /\ (List.length (getTopCategories logs) <= 10)%nat.
Proof.
  cbv zeta.
  set (build := fun '(category, count) =>
                  CategoryCount.mk category count
                    ((inject_Z count / inject_Z (JS.len logs)) * 100)).
  set (entries := map build (countBy ChatLog.category logs)).
  exists (JS.sort (byCountDesc CategoryCount.count) entries).
  assert (Htop : getTopCategories logs
                 = firstn 10 (JS.sort (byCountDesc CategoryCount.count) entries)).
  { unfold getTopCategories. rewrite slice_prefix by lia. reflexivity. }
  split; [exact Htop|]. split; [|split; [|split]].
  - rewrite <- countBy_keys.
    eapply perm_trans; [apply Permutation_map, sort_perm|].
    unfold entries. rewrite map_map.
    erewrite map_ext; [apply Permutation_refl|].
    intros [k v]. reflexivity.
  - apply sort_by_count_desc.
  - intros c. rewrite sort_filter_tied.
    + rewrite <- countBy_keys. unfold entries. apply filter_entries.
      intros [k v] Hin. split; [reflexivity|]. simpl.
      rewrite (countBy_entries ChatLog.category logs k v Hin). reflexivity.
    + intros x y Hx Hy. apply Z.eqb_eq in Hx, Hy.
      unfold byCountDesc. rewrite Qle0_inject. lia.
  - rewrite Htop. apply firstn_le_length.
Qed.


End Ranking.

(** *** Sentiment *)

Section Sentiment.
Import AnalyticsService.







End Sentiment.

(** *** Common issues *)

Lemma distinct_NoDup (l : list string) : distinct l = true -> NoDup l.
Proof.
  induction l as [|x l IH]; simpl; intros H; constructor.
  - apply andb_prop in H as [H _]. apply negb_true_iff in H.
    intros Hin.
    assert (Hx : existsb (String.eqb x) l = true).
    { apply existsb_exists. exists x. split; [exact Hin|apply String.eqb_refl]. }
    congruence.
  - apply IH. apply andb_prop in H as [_ H]. exact H.
Qed.

Lemma commonKeywords_NoDup : NoDup AnalyticsService.commonKeywords.
Proof. apply distinct_NoDup. vm_compute. reflexivity. Qed.

Section Issues.
Import AnalyticsService.

Lemma issueStep_other (userMessage message : string)
    (m : JS.Map string IssueData.t) (keyword k : string) :
  keyword <> k ->
  JS.Map_get String.eqb (issueStep userMessage message m keyword) k
    = JS.Map_get String.eqb m k.
Proof.
  intros Hne. unfold issueStep.
  destruct (JS.includes message keyword); [|reflexivity].
  rewrite (Map_get_set String.eqb String.eqb_eq).
  destruct (String.eqb_spec keyword k); [contradiction|reflexivity].
Qed.

Lemma issueStep_same (userMessage message : string)
    (m : JS.Map string IssueData.t) (k : string) :
  JS.Map_get String.eqb (issueStep userMessage message m k) k
    = if JS.includes message k
      then Some (recordIssue userMessage (existingIssue m k))
      else JS.Map_get String.eqb m k.
Proof.
  unfold issueStep.
  destruct (JS.includes message k); [|reflexivity].
  rewrite (Map_get_set String.eqb String.eqb_eq), String.eqb_refl.
  reflexivity.
Qed.

Lemma issue_inner (userMessage message : string) (keywords : list string)
    (m : JS.Map string IssueData.t) (k : string) :
  NoDup keywords ->
  JS.Map_get String.eqb
    (fold_left (issueStep userMessage message) keywords m) k
  = if existsb (String.eqb k) keywords && JS.includes message k
    then Some (recordIssue userMessage (existingIssue m k))
    else JS.Map_get String.eqb m k.
Proof.
  revert m. induction keywords as [|kw kws IH]; intros m Hnd; [reflexivity|].
  inversion Hnd as [|? ? Hnotin Hnd']; subst.
  cbn [fold_left existsb]. rewrite IH by exact Hnd'.
  destruct (String.eqb_spec k kw) as [->|Hne]; cbn [orb].
  - assert (Hx : existsb (String.eqb kw) kws = false).
    { destruct (existsb (String.eqb kw) kws) eqn:Ex; [|reflexivity].
      apply existsb_exists in Ex as (y & Hy & Heq).
      apply String.eqb_eq in Heq. subst y. contradiction. }
    rewrite Hx. cbn [andb]. apply issueStep_same.
  - assert (Hg : JS.Map_get String.eqb (issueStep userMessage message m kw) k
                 = JS.Map_get String.eqb m k).
    { apply issueStep_other. congruence. }
    unfold existingIssue. rewrite Hg. reflexivity.
Qed.

Lemma issueLogStep_get (m : JS.Map string IssueData.t) (log : ChatLog.t)
    (k : string) :
  JS.Map_get String.eqb (issueLogStep m log) k
    = issue_after k (JS.Map_get String.eqb m k) log.
Proof.
  unfold issueLogStep, issue_after, mentions.
  destruct (ChatLog.userMessage log) as [um|]; [|reflexivity].
  destruct (JS.truthy_string um); cbn [andb]; [|reflexivity].
  rewrite issue_inner by exact commonKeywords_NoDup.
  unfold existingIssue. rewrite andb_comm. reflexivity.
Qed.

Lemma issue_fold_get (logs : list ChatLog.t) (m : JS.Map string IssueData.t)
    (k : string) :
  JS.Map_get String.eqb (fold_left issueLogStep logs m) k
    = fold_left (issue_after k) logs (JS.Map_get String.eqb m k).
Proof.
  revert m. induction logs as [|log logs IH]; intros m; [reflexivity|].
  cbn [fold_left]. rewrite IH, issueLogStep_get. reflexivity.
Qed.

Lemma issue_fold_NoDup (logs : list ChatLog.t) (m : JS.Map string IssueData.t) :
  NoDup (map fst m) -> NoDup (map fst (fold_left issueLogStep logs m)).
Proof.
  revert m. induction logs as [|log logs IH]; intros m Hnd; [exact Hnd|].
  cbn [fold_left]. apply IH. unfold issueLogStep.
  destruct (ChatLog.userMessage log) as [um|]; [|exact Hnd].
  destruct (JS.truthy_string um); [|exact Hnd].
  generalize commonKeywords. intros kws. revert m Hnd.
  induction kws as [|kw kws IHk]; intros m Hnd; [exact Hnd|].
  cbn [fold_left]. apply IHk. unfold issueStep.
  destruct (JS.includes (JS.toLowerCase um) kw); [|exact Hnd].
  apply (Map_set_NoDup String.eqb String.eqb_eq). exact Hnd.
Qed.

Lemma issue_not_keyword (k : string) (logs : list ChatLog.t) :
  existsb (String.eqb k) commonKeywords = false ->
  fold_left (issue_after k) logs None = None.
Proof.
  intros Hk. induction logs as [|log logs IH] using rev_ind; [reflexivity|].
  rewrite fold_left_app. cbn [fold_left]. rewrite IH.
  unfold issue_after. rewrite Hk, andb_false_r.
  destruct (ChatLog.userMessage log); reflexivity.
Qed.

Lemma issue_recorded_more (k : string) (logs : list ChatLog.t) (log : ChatLog.t)
    (data : IssueData.t) :
  mentions k log = false ->
  issue_recorded k logs data -> issue_recorded k (logs ++ [log]) data.
Proof.
  intros Hm (Hc & H1 & Hnd & Hlen & Hex). unfold issue_recorded.
  rewrite countZ_app. cbn [countZ]. rewrite Hm.
  split; [lia|]. split; [exact H1|]. split; [exact Hnd|]. split; [exact Hlen|].
  eapply Forall_impl; [|exact Hex].
  intros ex Hx. apply Exists_app. left. exact Hx.
Qed.

Lemma issue_entry_spec (k : string) (logs : list ChatLog.t) :
  match fold_left (issue_after k) logs None with
  | None => countZ (mentions k) logs = 0%Z
            \/ existsb (String.eqb k) commonKeywords = false
  | Some data =>
      existsb (String.eqb k) commonKeywords = true /\ issue_recorded k logs data
  end.
Proof.
  destruct (existsb (String.eqb k) commonKeywords) eqn:Hk;
    [|rewrite issue_not_keyword by exact Hk; right; reflexivity].
  induction logs as [|log logs IH] using rev_ind; [left; reflexivity|].
  rewrite fold_left_app. cbn [fold_left].
  remember (fold_left (issue_after k) logs None) as prev eqn:Hprev.
  clear Hprev.
  destruct (mentions k log) eqn:Hm.
  - unfold issue_after. rewrite Hm, Hk. cbn [andb].
    unfold mentions in Hm.
    destruct (ChatLog.userMessage log) as [um|] eqn:Hum; [|discriminate].
    apply andb_prop in Hm as [Ht Hi].
    assert (Hmen : mentions k log = true).
    { unfold mentions. rewrite Hum, Ht, Hi. reflexivity. }
    assert (Hhere : Exists
              (fun log' =>
                 mentions k log' = true
                 /\ option_map (substring 0 100) (ChatLog.userMessage log')
                    = Some (substring 0 100 um))
              (logs ++ [log])).
    { apply Exists_app. right. constructor. split; [exact Hmen|].
      rewrite Hum. reflexivity. }
    split; [reflexivity|]. unfold issue_recorded.
    rewrite countZ_app. cbn [countZ]. rewrite Hmen.
    change ((if true then 1 else 0) + 0)%Z with 1%Z.
    destruct prev as [data|].
    + destruct IH as (_ & Hc & H1 & Hnd & Hlen & Hex).
      unfold recordIssue. cbn [IssueData.count IssueData.examples].
      rewrite Ht, andb_true_r.
      assert (Hold : Forall
                (fun example =>
                   Exists
                     (fun log' =>
                        mentions k log' = true
                        /\ option_map (substring 0 100)
                             (ChatLog.userMessage log') = Some example)
                     (logs ++ [log]))
                (IssueData.examples data)).
      { eapply Forall_impl; [|exact Hex].
        intros ex Hx. apply Exists_app. left. exact Hx. }
      destruct (JS.len (IssueData.examples data) <? 3)%Z eqn:El;
        cbn [IssueData.count IssueData.examples].
      * split; [lia|]. split; [lia|].
        split; [apply Set_add_NoDup; exact Hnd|].
        apply Z.ltb_lt in El. unfold JS.len in El.
        split.
        { destruct (in_dec string_dec (substring 0 100 um)
                      (IssueData.examples data)) as [Hin|Hin].
          - rewrite (proj1 (Set_add_cases _ _) Hin). lia.
          - rewrite (proj2 (Set_add_cases _ _) Hin), length_app.
            cbn [List.length]. lia. }
        apply Forall_forall. intros ex Hin.
        apply Set_add_In in Hin as [Hin| ->]; [|exact Hhere].
        rewrite Forall_forall in Hold. apply Hold. exact Hin.
      * split; [lia|]. split; [lia|]. split; [exact Hnd|].
        split; [exact Hlen|]. exact Hold.
    + destruct IH as [Hz|Hf]; [|congruence].
      unfold recordIssue. cbn [IssueData.count IssueData.examples JS.len List.length].
      rewrite Ht. change (JS.len (@nil string) <? 3)%Z with true.
      cbn [andb JS.Set_add IssueData.count IssueData.examples List.length].
      split; [lia|]. split; [lia|].
      split; [repeat constructor; intros []|].
      split; [lia|]. repeat constructor. exact Hhere.
  - assert (Hsame : issue_after k prev log = prev).
    { unfold issue_after. rewrite Hm. cbn [andb].
      destruct (ChatLog.userMessage log); reflexivity. }
    rewrite Hsame.
    destruct prev as [data|].
    + destruct IH as [_ IH]. split; [reflexivity|].
      apply issue_recorded_more; assumption.
    + destruct IH as [Hz|Hf]; [|congruence].
      left. rewrite countZ_app. cbn [countZ]. rewrite Hm. lia.
Qed.

(** X9. The common issues are at most ten distinct keywords of the
    fixed list, ranked by frequency, largest first.  The frequency of a
    keyword is the number of logs whose lowered user message contains
    it, which is at least 1; its examples are between one and three
    distinct texts, each the first 100 characters of the user message
    of a log that mentions the keyword. *)
Theorem common_issues_report (logs : list ChatLog.t) :
  let issues := findCommonIssues logs in
  (List.length issues <= 10)%nat
  /\ NoDup (map IssuePattern.pattern issues)
  /\ StronglySorted
       (fun a b => (IssuePattern.frequency b <= IssuePattern.frequency a)%Z)
       issues
  /\ Forall
       (fun issue =>
          In (IssuePattern.pattern issue) commonKeywords
          /\ IssuePattern.frequency issue
             = countZ (mentions (IssuePattern.pattern issue)) logs
          /\ (1 <= IssuePattern.frequency issue)%Z
          /\ NoDup (IssuePattern.examples issue)
          /\ (1 <= List.length (IssuePattern.examples issue) <= 3)%nat
          /\ Forall
               (fun example =>
                  Exists
                    (fun log =>
                       mentions (IssuePattern.pattern issue) log = true
                       /\ option_map (substring 0 100) (ChatLog.userMessage log)
                          = Some example)
                    logs)
               (IssuePattern.examples issue))
       issues.
Proof.
  cbn zeta. unfold findCommonIssues.
  set (m := fold_left issueLogStep logs []).
  set (build := fun '(pattern, data) =>
                  IssuePattern.mk pattern (IssueData.count data)
                    (IssueData.examples data)).
  assert (Hnd : NoDup (map fst m)) by (apply issue_fold_NoDup; constructor).
  assert (Hfst : map IssuePattern.pattern (map build m) = map fst m).
  { rewrite map_map. apply map_ext. intros [k d]. reflexivity. }
  rewrite slice_prefix by lia. change (Z.to_nat 10) with 10%nat.
  split; [apply firstn_le_length|].
  split.
  { rewrite <- firstn_map. apply firstn_NoDup.
    apply (Permutation_NoDup (l := map fst m)); [|exact Hnd].
    rewrite <- Hfst. apply Permutation_map. symmetry. apply sort_perm. }
  split.
  { apply firstn_strongly_sorted.
    exact (sort_by_count_desc IssuePattern.frequency (map build m)). }
  apply Forall_forall. intros issue Hin.
  apply In_firstn in Hin. apply sort_In in Hin.
  apply in_map_iff in Hin as ([k d] & <- & Hkd).
  cbn [build IssuePattern.pattern IssuePattern.frequency IssuePattern.examples].
  pose proof (Map_get_In String.eqb String.eqb_eq m k d Hnd Hkd) as Hget.
  unfold m in Hget. rewrite issue_fold_get in Hget. cbn [JS.Map_get] in Hget.
  pose proof (issue_entry_spec k logs) as Hspec. rewrite Hget in Hspec.
  destruct Hspec as (Hk & Hc & H1 & Hex & Hlen & Hfrom).
  split.
  { apply existsb_exists in Hk as (y & Hy & Heq).
    apply String.eqb_eq in Heq. subst y. exact Hy. }
  repeat split; try assumption; lia.
Qed.
End Issues.

(** *** Daily trend *)

Lemma skipn_NoDup {A} (k : nat) (l : list A) : NoDup l -> NoDup (skipn k l).
Proof.
  intros Hnd. rewrite <- (firstn_skipn k l) in Hnd.
  apply NoDup_app_remove_l in Hnd. exact Hnd.
Qed.

Lemma In_skipn {A} (l : list A) (k : nat) (x : A) :
  In x (skipn k l) -> In x l.
Proof.
  intros H. rewrite <- (firstn_skipn k l). apply in_or_app. right. exact H.
Qed.

Lemma countZ_andb_le {A} (p q : A -> bool) (l : list A) :
  (0 <= countZ (fun x => p x && q x) l <= countZ p l)%Z.
Proof.
  induction l as [|x l IH]; cbn [countZ]; [lia|].
  destruct (p x), (q x); cbn [andb]; lia.
Qed.

Lemma Map_set_In_keys {V} (m : JS.Map string V) (k d : string) (v : V) :
  In d (map fst (JS.Map_set String.eqb m k v)) <-> In d (map fst m) \/ d = k.
Proof.
  rewrite (Map_set_keys String.eqb).
  destruct (JS.Map_get String.eqb m k) eqn:E.
  - split; [tauto|]. intros [H| ->]; [exact H|].
    destruct (in_dec string_dec k (map fst m)) as [Hin|Hout]; [exact Hin|].
    apply (Map_get_None String.eqb String.eqb_eq) in Hout. congruence.
  - rewrite in_app_iff. simpl. intuition.
Qed.

Section Daily.
Import AnalyticsService.
Variable toISOString : Date -> string.
Variable localeCompare : string -> string -> Q.

Lemma dailyStep_existing (m : JS.Map string DailyStats.t) (log : ChatLog.t)
    (d : string) :
  existingDay (dailyStep toISOString m log) d
    = if on_date toISOString d log
      then recordDay log (existingDay m d)
      else existingDay m d.
Proof.
  unfold dailyStep, on_date.
  destruct (ChatLog.timestamp log) as [ts|]; [|reflexivity].
  cbv zeta. unfold existingDay at 1.
  rewrite (Map_get_set String.eqb String.eqb_eq).
  destruct (String.eqb_spec (dateOf toISOString ts) d) as [->|Hne];
    reflexivity.
Qed.

Lemma daily_fold_entry (logs : list ChatLog.t) (m : JS.Map string DailyStats.t)
    (d : string) :
  let before := existingDay m d in
  let after := existingDay (fold_left (dailyStep toISOString) logs m) d in
  DailyStats.count after
    = (DailyStats.count before + countZ (on_date toISOString d) logs)%Z
  /\ DailyStats.resolved after
     = (DailyStats.resolved before
        + countZ (fun log => on_date toISOString d log
                             && JS.truthy_flag (ChatLog.resolved log)) logs)%Z
  /\ DailyStats.errors after
     = (DailyStats.errors before
        + countZ (fun log => on_date toISOString d log
                             && JS.truthy_flag (ChatLog.error log)) logs)%Z.
Proof.
  cbv zeta. revert m.
  induction logs as [|log logs IH]; intros m; cbn [fold_left countZ].
  - repeat split; lia.
  - destruct (IH (dailyStep toISOString m log)) as (Hc & Hr & He).
    rewrite Hc, Hr, He, dailyStep_existing.
    destruct (on_date toISOString d log); cbn [andb].
    + unfold recordDay.
      cbn [DailyStats.count DailyStats.resolved DailyStats.errors].
      destruct (JS.truthy_flag (ChatLog.resolved log)),
               (JS.truthy_flag (ChatLog.error log));
        repeat split; lia.
    + repeat split; lia.
Qed.

Lemma daily_fold_keys (logs : list ChatLog.t) (m : JS.Map string DailyStats.t)
    (d : string) :
  In d (map fst (fold_left (dailyStep toISOString) logs m))
  <-> In d (map fst m) \/ (1 <= countZ (on_date toISOString d) logs)%Z.
Proof.
  revert m. induction logs as [|log logs IH]; intros m; cbn [fold_left countZ].
  - split; [tauto|]. intros [H|H]; [exact H|lia].
  - rewrite IH. pose proof (countZ_bounds (on_date toISOString d) logs) as Hb.
    unfold dailyStep, on_date at 2.
    destruct (ChatLog.timestamp log) as [ts|].
    + cbv zeta. rewrite Map_set_In_keys.
      destruct (String.eqb_spec (dateOf toISOString ts) d) as [Heq|Hne].
      * split; [intros _; right; lia|]. intros _. left. right. congruence.
      * split.
        -- intros [[H|H]|H]; [left; exact H|congruence|right; lia].
        -- intros [H|H]; [left; left; exact H|right; lia].
    + split; (intros [H|H]; [left; exact H|right; lia]).
Qed.

Lemma daily_fold_NoDup (logs : list ChatLog.t) (m : JS.Map string DailyStats.t) :
  NoDup (map fst m) ->
  NoDup (map fst (fold_left (dailyStep toISOString) logs m)).
Proof.
  revert m. induction logs as [|log logs IH]; intros m Hnd; [exact Hnd|].
  cbn [fold_left]. apply IH. unfold dailyStep.
  destruct (ChatLog.timestamp log); [|exact Hnd].
  apply (Map_set_NoDup String.eqb String.eqb_eq). exact Hnd.
Qed.

Lemma recordDay_sum (m : JS.Map string DailyStats.t) (log : ChatLog.t)
    (k : string) :
  JS.sumZ (fun kv => DailyStats.count (snd kv))
    (JS.Map_set String.eqb m k (recordDay log (existingDay m k)))
  = (JS.sumZ (fun kv => DailyStats.count (snd kv)) m + 1)%Z.
Proof.
  unfold existingDay.
  induction m as [|[k' v'] m IH]; cbn [JS.Map_set JS.Map_get].
  - reflexivity.
  - destruct (String.eqb k' k) eqn:E.
    + rewrite !sumZ_cons. cbn [snd recordDay DailyStats.count].
      unfold recordDay. cbn [DailyStats.count]. lia.
    + rewrite !sumZ_cons, IH. lia.
Qed.

Lemma daily_fold_sum (logs : list ChatLog.t) (m : JS.Map string DailyStats.t) :
  JS.sumZ (fun kv => DailyStats.count (snd kv))
    (fold_left (dailyStep toISOString) logs m)
  = (JS.sumZ (fun kv => DailyStats.count (snd kv)) m
     + countZ has_timestamp logs)%Z.
Proof.
  revert m. induction logs as [|log logs IH]; intros m; cbn [fold_left countZ].
  - lia.
  - rewrite IH. unfold dailyStep, has_timestamp.
    destruct (ChatLog.timestamp log); [|lia].
    cbv zeta. rewrite recordDay_sum. lia.
Qed.

(** The list of which [getDailyTrend] keeps the last 30 entries. *)
Lemma daily_days (logs : list ChatLog.t) :
  exists days : list DailyCount.t,
    getDailyTrend toISOString localeCompare logs = last_entries 30 days
    /\ NoDup (map DailyCount.date days)
    /\ (forall date,
          In date (map DailyCount.date days)
          <-> (1 <= countZ (on_date toISOString date) logs)%Z)
    /\ JS.sumZ DailyCount.count days = countZ has_timestamp logs
    /\ Forall
         (fun day =>
            let falls := on_date toISOString (DailyCount.date day) in
            DailyCount.count day = countZ falls logs
            /\ DailyCount.resolved day
               = countZ (fun log => falls log
                                    && JS.truthy_flag (ChatLog.resolved log))
                   logs
            /\ DailyCount.errors day
               = countZ (fun log => falls log
                                    && JS.truthy_flag (ChatLog.error log))
                   logs)
         days.
Proof.
  unfold getDailyTrend.
  set (m := fold_left (dailyStep toISOString) logs []).
  set (build := fun '(date, stats) =>
                  DailyCount.mk date (DailyStats.count stats)
                    (DailyStats.resolved stats) (DailyStats.errors stats)).
  set (days := JS.sort (byDate localeCompare) (map build m)).
  assert (Hnd : NoDup (map fst m)) by (apply daily_fold_NoDup; constructor).
  assert (Hfst : map DailyCount.date (map build m) = map fst m).
  { rewrite map_map. apply map_ext. intros [k d]. reflexivity. }
  assert (Hperm : Permutation (map DailyCount.date days) (map fst m)).
  { rewrite <- Hfst. apply Permutation_map. apply sort_perm. }
  exists days.
  split.
  { change (-30)%Z with (- Z.of_nat 30)%Z. apply slice_last. lia. }
  split.
  { apply (Permutation_NoDup (l := map fst m)); [|exact Hnd].
    symmetry. exact Hperm. }
  split.
  { intros date. split.
    + intros Hin. apply (Permutation_in _ Hperm) in Hin.
      apply daily_fold_keys in Hin as [[]|H]. exact H.
    + intros H1. apply (Permutation_in _ (Permutation_sym Hperm)).
      apply daily_fold_keys. right. exact H1. }
  split.
  { unfold days.
    rewrite (sumZ_perm DailyCount.count
               (sort_perm (byDate localeCompare) (map build m))).
    rewrite sumZ_map.
    rewrite (sumZ_ext (fun x => DailyCount.count (build x))
               (fun kv => DailyStats.count (snd kv)))
      by (intros [k d]; reflexivity).
    unfold m. rewrite daily_fold_sum. reflexivity. }
  apply Forall_forall. intros day Hin.
  apply sort_In in Hin. apply in_map_iff in Hin as ([d stats] & <- & Hkd).
  cbn [build DailyCount.date DailyCount.count DailyCount.resolved
         DailyCount.errors].
  pose proof (Map_get_In String.eqb String.eqb_eq m d stats Hnd Hkd) as Hget.
  pose proof (daily_fold_entry logs [] d) as Hent. cbv zeta in Hent.
  fold m in Hent. unfold existingDay in Hent. rewrite Hget in Hent.
  cbn [JS.Map_get DailyStats.count DailyStats.resolved DailyStats.errors]
    in Hent.
  destruct Hent as (Hc & Hr & He). repeat split; lia.
Qed.

(** Every entry of the daily trend counts at least one log, and the
    entries together count no more logs than carry a timestamp. *)
Lemma daily_trend_counts (logs : list ChatLog.t) :
  let trend := getDailyTrend toISOString localeCompare logs in
  Forall (fun day => (1 <= DailyCount.count day)%Z) trend
  /\ (JS.sumZ DailyCount.count trend <= countZ has_timestamp logs)%Z.
Proof.
  cbv zeta. destruct (daily_days logs) as (days & -> & _ & Hin & Hsum & Hall).
  assert (Hpos : Forall (fun day => (1 <= DailyCount.count day)%Z) days).
  { apply Forall_forall. intros day Hday.
    rewrite Forall_forall in Hall. destruct (Hall day Hday) as (-> & _).
    apply Hin. apply in_map. exact Hday. }
  split.
  - apply Forall_forall. intros day Hday.
    rewrite Forall_forall in Hpos. apply Hpos.
    unfold last_entries in Hday. apply In_skipn in Hday. exact Hday.
  - rewrite <- Hsum. unfold last_entries.
    generalize (List.length days - 30)%nat. intros k.
    assert (Hsplit : JS.sumZ DailyCount.count days
                     = (JS.sumZ DailyCount.count (firstn k days)
                        + JS.sumZ DailyCount.count (skipn k days))%Z).
    { rewrite <- sumZ_app, firstn_skipn. reflexivity. }
    enough (0 <= JS.sumZ DailyCount.count (firstn k days))%Z by lia.
    clear Hsplit.
    assert (Hk : Forall (fun day => (1 <= DailyCount.count day)%Z)
                   (firstn k days)).
    { apply Forall_forall. intros day Hday. rewrite Forall_forall in Hpos.
      apply Hpos. apply In_firstn in Hday. exact Hday. }
    induction Hk as [|day rest H1 _ IH]; [reflexivity|].
    rewrite sumZ_cons. lia.
Qed.

(** X10. The daily trend holds the last 30 entries of a list with one
    entry per distinct date on which some log with a timestamp falls,
    whose counts add up to the number of logs with a timestamp.  An
    entry counts the logs of its date, and among them the resolved
    ones and the failed ones, so its count is at least 1 and neither
    of the two other numbers exceeds it. *)
Theorem daily_trend_report (logs : list ChatLog.t) :
  let trend := getDailyTrend toISOString localeCompare logs in
  (List.length trend <= 30)%nat
  /\ NoDup (map DailyCount.date trend)
  /\ Forall
       (fun day =>
          let falls := on_date toISOString (DailyCount.date day) in
          DailyCount.count day = countZ falls logs
          /\ DailyCount.resolved day
             = countZ (fun log => falls log
                                  && JS.truthy_flag (ChatLog.resolved log)) logs
          /\ DailyCount.errors day
             = countZ (fun log => falls log
                                  && JS.truthy_flag (ChatLog.error log)) logs
          /\ (1 <= DailyCount.count day)%Z
          /\ (0 <= DailyCount.resolved day <= DailyCount.count day)%Z
          /\ (0 <= DailyCount.errors day <= DailyCount.count day)%Z)
       trend
  /\ exists days : list DailyCount.t,
       trend = last_entries 30 days
       /\ NoDup (map DailyCount.date days)
       /\ (forall date,
             In date (map DailyCount.date days)
             <-> (1 <= countZ (on_date toISOString date) logs)%Z)
       /\ JS.sumZ DailyCount.count days = countZ has_timestamp logs.
Proof.
  cbv zeta. pose proof (daily_trend_counts logs) as [Hpos _].
  cbv zeta in Hpos.
  destruct (daily_days logs) as (days & Htrend & Hnd & Hin & Hsum & Hall).
  rewrite Htrend in *.
  split; [rewrite last_entries_length; lia|].
  split.
  { unfold last_entries. rewrite <- skipn_map. apply skipn_NoDup. exact Hnd. }
  split.
  { apply Forall_forall. intros day Hday.
    rewrite Forall_forall in Hpos. pose proof (Hpos day Hday) as H1.
    unfold last_entries in Hday. apply In_skipn in Hday.
    rewrite Forall_forall in Hall. destruct (Hall day Hday) as (Hc & Hr & He).
    pose proof (countZ_andb_le (on_date toISOString (DailyCount.date day))
                  (fun log => JS.truthy_flag (ChatLog.resolved log)) logs).
    pose proof (countZ_andb_le (on_date toISOString (DailyCount.date day))
                  (fun log => JS.truthy_flag (ChatLog.error log)) logs).
    repeat split; lia. }
  exists days. repeat split; try assumption; apply Hin; assumption.
Qed.
End Daily.

(** *** The aggregate and what is derived from it *)


Section Aggregate.
Import AnalyticsService InsightsService.
Variable LocalTZA : Z -> Z.
Variable toISOString : Date -> string.
Variable localeCompare : string -> string -> Q.

Lemma analyzeResponseTimes_defined (logs : list ChatLog.t) :
  exists stats, analyzeResponseTimes logs = Some stats.
Proof.
  destruct (flat_map sample_of logs) as [|s0 rest] eqn:Es.
  - exists (ResponseTimeStats.mk 0 0 0 0).
    unfold analyzeResponseTimes. rewrite responseTimes_samples, Es.
    reflexivity.
  - assert (Hne : flat_map sample_of logs <> []) by (rewrite Es; discriminate).
    destruct (@analyze_some_sample logs Hne) as (m & p & q & Ha & _).
    eexists. exact Ha.
Qed.







End Aggregate.

(** *** Alerts, recommendations and highlights *)

Section Insights.
Import InsightsService.
Local Open Scope string_scope.

Ltac split_conditions :=
  repeat match goal with
         | |- context [if ?c then _ else _] => destruct c
         | |- context [match peakHour ?h with _ => _ end] =>
             destruct (peakHour h)
         | |- context [match Analytics.commonIssues ?a with _ => _ end] =>
             destruct (Analytics.commonIssues a)
         | |- context [match Analytics.topCategories ?a with _ => _ end] =>
             destruct (Analytics.topCategories a)
         end.

Lemma peak_fold (l before after : list HourlyCount.t) (max : HourlyCount.t) :
  let step := fun max hour : HourlyCount.t =>
                if (HourlyCount.count hour >? HourlyCount.count max)%Z
                then hour else max in
  Forall (fun e => (HourlyCount.count e < HourlyCount.count max)%Z) before ->
  Forall (fun e => (HourlyCount.count e <= HourlyCount.count max)%Z) after ->
  exists b a,
    List.app before (max :: List.app after l)
      = List.app b (fold_left step l max :: a)
    /\ Forall (fun e => (HourlyCount.count e
                         < HourlyCount.count (fold_left step l max))%Z) b
    /\ Forall (fun e => (HourlyCount.count e
                         <= HourlyCount.count (fold_left step l max))%Z) a.
Proof.
  cbv zeta. revert before after max.
  induction l as [|hour l IH]; intros before after max Hb Ha.
  - exists before, after. rewrite app_nil_r. repeat split; assumption.
  - cbn [fold_left].
    destruct (Z.gtb_spec (HourlyCount.count hour) (HourlyCount.count max))
      as [Hgt|Hle].
    + destruct (IH (List.app before (max :: after)) [] hour)
        as (b & a & Heq & Hb' & Ha').
      * apply Forall_app. split.
        -- eapply Forall_impl; [|exact Hb]. cbv beta. intros e He. lia.
        -- constructor; [lia|].
           eapply Forall_impl; [|exact Ha]. cbv beta. intros e He. lia.
      * constructor.
      * exists b, a. split; [|split; assumption].
        rewrite <- Heq. rewrite <- app_assoc. reflexivity.
    + destruct (IH before (List.app after [hour]) max)
        as (b & a & Heq & Hb' & Ha').
      * exact Hb.
      * apply Forall_app. split; [exact Ha|]. constructor; [lia|constructor].
      * exists b, a. split; [|split; assumption].
        rewrite <- Heq. rewrite <- app_assoc. reflexivity.
Qed.

Lemma peakHour_In (distribution : list HourlyCount.t) (peak : HourlyCount.t) :
  peakHour distribution = Some peak -> In peak distribution.
Proof.
  destruct distribution as [|first rest]; [discriminate|].
  unfold peakHour. cbn [fold_left].
  rewrite Z.gtb_ltb, Z.ltb_irrefl. intros H. injection H as <-.
  destruct (@peak_fold rest [] [] first (Forall_nil _) (Forall_nil _))
    as (b & a & Heq & _).
  cbn [List.app] in Heq. rewrite Heq.
  apply in_or_app. right. left. reflexivity.
Qed.

(** X13. The peak hour of a non-empty hourly distribution is its
    first entry of greatest count: every entry before it has a
    smaller count and no entry after it a greater one.  An empty
    distribution has no peak hour. *)
Theorem peak_hour_is_first_maximum (distribution : list HourlyCount.t) :
  match peakHour distribution with
  | None => distribution = []
  | Some peak =>
      exists before after,
        distribution = List.app before (peak :: after)
        /\ Forall (fun e => (HourlyCount.count e < HourlyCount.count peak)%Z)
             before
        /\ Forall (fun e => (HourlyCount.count e <= HourlyCount.count peak)%Z)
             after
  end.
Proof.
  destruct distribution as [|first rest]; [reflexivity|].
  unfold peakHour. cbn [fold_left].
  rewrite Z.gtb_ltb, Z.ltb_irrefl.
  exact (@peak_fold rest [] [] first (Forall_nil _) (Forall_nil _)).
Qed.

(** Which alerts are raised, by metric. *)
Lemma alerts_by_metric (a : Analytics.t) :
  let alerts := generateAlerts a in
  alerted "errorRate" alerts = JS.Qgt_bool (Analytics.errorRate a) 10
  /\ alerted "resolvedRate" alerts = JS.Qlt_bool (Analytics.resolvedRate a) 60
  /\ alerted "averageRating" alerts
     = JS.Qlt_bool (Analytics.averageRating a) 3
       && JS.Qgt_bool (Analytics.averageRating a) 0
  /\ alerted "sentiment" alerts
     = JS.Qgt_bool (SentimentAnalysis.negative (Analytics.userSentiment a)) 30
  /\ alerted "trafficPeak" alerts
     = match peakHour (Analytics.hourlyDistribution a) with
       | Some peak =>
           JS.Qgt_bool (inject_Z (HourlyCount.count peak))
             (inject_Z (Analytics.totalConversations a) * (15 # 100))
       | None => false
       end.
Proof.
  cbv zeta. unfold generateAlerts, JS.push, alerted.
  repeat split; split_conditions; reflexivity.
Qed.

(** The recommendations, in order, each under its own condition. *)
Lemma recommendations_parts (a : Analytics.t) :
  let peakHours :=
    map HourlyCount.hour
      (filter
         (fun h => JS.Qgt_bool (inject_Z (HourlyCount.count h))
                     (inject_Z (Analytics.totalConversations a) * (1 # 10)))
         (Analytics.hourlyDistribution a)) in
  generateRecommendations a
  = List.app
      (if JS.Qgt_bool (Analytics.errorRate a) 5
       then ["Investigate and fix the top error patterns to improve user experience"]
       else [])
      (List.app
         (if JS.Qlt_bool (Analytics.resolvedRate a) 70
          then ["Review unresolved conversations to identify gaps in bot knowledge"]
          else [])
         (List.app
            match Analytics.commonIssues a with
            | topIssue :: _ =>
                ["Create targeted responses for " ++ JS.dquote
                 ++ IssuePattern.pattern topIssue ++ JS.dquote ++ " issues ("
                 ++ JS.Z_toString (IssuePattern.frequency topIssue)
                 ++ " occurrences)"]
            | [] => []
            end
            (List.app
               (if JS.Qgt_bool
                     (SentimentAnalysis.negative (Analytics.userSentiment a)) 25
                then ["Implement sentiment-based escalation to human agents for negative interactions"]
                else [])
               (List.app
                  (if (JS.len peakHours >? 0)%Z
                   then ["Consider scaling resources during peak hours: "
                         ++ String.concat ", " (map JS.Z_toString peakHours)
                         ++ ":00"]
                   else [])
                  (List.app
                     match Analytics.topCategories a with
                     | top :: _ =>
                         if JS.Qgt_bool (CategoryCount.percentage top) 30
                         then ["Enhance bot capabilities for " ++ JS.dquote
                               ++ CategoryCount.category top ++ JS.dquote
                               ++ " category ("
                               ++ JS.toFixed 1 (CategoryCount.percentage top)
                               ++ "% of queries)"]
                         else []
                     | [] => []
                     end
                     (if JS.Qgt_bool (Analytics.averageSessionDuration a) 600
                      then ["Long session durations detected - optimize conversation flow for quicker resolutions"]
                      else [])))))).
Proof.
  cbv zeta. unfold generateRecommendations, JS.push.
  split_conditions; reflexivity.
Qed.

(** The highlights, in order, each under its own condition. *)
Lemma highlights_parts (a : Analytics.t) :
  let positive := SentimentAnalysis.positive (Analytics.userSentiment a) in
  let median := ResponseTimeStats.median (Analytics.responseTimeAnalysis a) in
  getPerformanceHighlights a
  = List.app
      (if JS.Qgt_bool (Analytics.resolvedRate a) 80
       then ["Excellent resolution rate: "
             ++ JS.toFixed 1 (Analytics.resolvedRate a) ++ "%"]
       else [])
      (List.app
         (if JS.Qge_bool (Analytics.averageRating a) 4
          then ["High user satisfaction: "
                ++ JS.toFixed 1 (Analytics.averageRating a) ++ "/5 rating"]
          else [])
         (List.app
            (if JS.Qlt_bool (Analytics.errorRate a) 2
             then ["Low error rate: "
                   ++ JS.toFixed 1 (Analytics.errorRate a) ++ "%"]
             else [])
            (List.app
               (if JS.Qgt_bool positive 60
                then ["Positive user sentiment: "
                      ++ JS.toFixed 0 positive ++ "%"]
                else [])
               (if JS.Qlt_bool median 1000 && JS.Qgt_bool median 0
                then ["Fast median response time: "
                      ++ JS.toFixed 1 (median / 1000) ++ "s"]
                else [])))).
Proof.
  cbv zeta. unfold getPerformanceHighlights, JS.push.
  split_conditions; reflexivity.
Qed.

Lemma mentioned_app (text : string) (l1 l2 : list string) :
  mentioned text (List.app l1 l2) = mentioned text l1 || mentioned text l2.
Proof. apply existsb_app. Qed.

Lemma Qgt_bool_weaken (x lo hi : Q) :
  lo <= hi -> JS.Qgt_bool x hi = true -> JS.Qgt_bool x lo = true.
Proof.
  intros Hle H. apply Qgt_bool_iff in H. apply Qgt_bool_iff.
  eapply Qle_lt_trans; eassumption.
Qed.

Lemma Qlt_bool_weaken (x lo hi : Q) :
  lo <= hi -> JS.Qlt_bool x lo = true -> JS.Qlt_bool x hi = true.
Proof.
  intros Hle H. apply (Qgt_bool_iff _ x) in H. apply (Qgt_bool_iff _ x).
  eapply Qlt_le_trans; eassumption.
Qed.

Lemma alert_on_response_time (a : Analytics.t) :
  alerted "responseTime" (generateAlerts a)
  = JS.Qgt_bool (ResponseTimeStats.p95 (Analytics.responseTimeAnalysis a)) 5000.
Proof.
  unfold generateAlerts, JS.push, alerted.
  split_conditions; reflexivity.
Qed.

(** Which of three highlights are given. *)
Lemma highlights_by_line (a : Analytics.t) :
  let highlights := getPerformanceHighlights a in
  let median := ResponseTimeStats.median (Analytics.responseTimeAnalysis a) in
  mentioned "High user satisfaction: " highlights
    = JS.Qge_bool (Analytics.averageRating a) 4
  /\ mentioned "Low error rate: " highlights
     = JS.Qlt_bool (Analytics.errorRate a) 2
  /\ mentioned "Fast median response time: " highlights
     = JS.Qlt_bool median 1000 && JS.Qgt_bool median 0.
Proof.
  cbv zeta. rewrite highlights_parts. cbv zeta.
  rewrite !mentioned_app. unfold mentioned.
  repeat split; split_conditions; cbn [existsb];
    rewrite ?prefix_append; reflexivity.
Qed.

(** X14. Under a non-negative number of conversations, an alert on
    the error rate, the resolution rate, the negative sentiment or the
    traffic peak never comes alone: the recommendations then hold the
    line on error patterns, on unresolved conversations, on
    escalation, or on scaling during peak hours, respectively. *)
Theorem alerts_come_with_recommendations (a : Analytics.t) :
  (0 <= Analytics.totalConversations a)%Z ->
  let alerts := generateAlerts a in
  let recommendations := generateRecommendations a in
  (alerted "errorRate" alerts = true ->
     mentioned "Investigate and fix the top error patterns" recommendations
     = true)
  /\ (alerted "resolvedRate" alerts = true ->
        mentioned "Review unresolved conversations" recommendations = true)
  /\ (alerted "sentiment" alerts = true ->
        mentioned "Implement sentiment-based escalation" recommendations
        = true)
  /\ (alerted "trafficPeak" alerts = true ->
        mentioned "Consider scaling resources during peak hours: "
          recommendations = true).
Proof.
  intros Htotal. cbv zeta.
  destruct (alerts_by_metric a) as (He & Hr & _ & Hs & Hp).
  cbv zeta in He, Hr, Hs, Hp. rewrite He, Hr, Hs, Hp.
  rewrite recommendations_parts. cbv zeta.
  rewrite !mentioned_app.
  split; [|split; [|split]].
  - intros H. apply (@Qgt_bool_weaken _ 5 10) in H; [|discriminate].
    rewrite H. reflexivity.
  - intros H. apply (@Qlt_bool_weaken _ 60 70) in H; [|discriminate].
    rewrite H. rewrite orb_true_r. reflexivity.
  - intros H. apply (@Qgt_bool_weaken _ 25 30) in H; [|discriminate].
    rewrite H. rewrite !orb_true_r. reflexivity.
  - intros H.
    pose proof (@peakHour_In (Analytics.hourlyDistribution a)) as Hpk.
    destruct (peakHour (Analytics.hourlyDistribution a)) as [peak|];
      [|discriminate].
    specialize (Hpk peak eq_refl).
    assert (Hin : In peak
              (filter
                 (fun h => JS.Qgt_bool (inject_Z (HourlyCount.count h))
                             (inject_Z (Analytics.totalConversations a)
                              * (1 # 10)))
                 (Analytics.hourlyDistribution a))).
    { apply filter_In. split.
      - exact Hpk.
      - revert H. apply Qgt_bool_weaken.
        apply inject_Z_nonneg in Htotal.
        set (t := inject_Z (Analytics.totalConversations a)) in *. lra. }
    set (peaks := filter _ _) in *.
    assert (Hlen : (JS.len (map HourlyCount.hour peaks) >? 0)%Z = true).
    { apply Z.gtb_lt. unfold JS.len. rewrite length_map.
      destruct peaks; [destruct Hin|]. cbn [List.length]. lia. }
    rewrite Hlen.
    replace (mentioned "Consider scaling resources during peak hours: "
               ["Consider scaling resources during peak hours: "
                ++ String.concat ", " (map JS.Z_toString (map HourlyCount.hour peaks))
                ++ ":00"])
      with true.
    + rewrite !orb_true_r. reflexivity.
    + unfold mentioned. cbn [existsb]. rewrite prefix_append. reflexivity.
Qed.

Lemma alerts_come_with_recommendations_witness :
  let a := sample_report 100 2 50 20 40 0 [HourlyCount.mk 9 30] in
  mentioned "Investigate and fix the top error patterns"
    (generateRecommendations a) = true
  /\ mentioned "Consider scaling resources during peak hours: "
       (generateRecommendations a) = true.
Proof.
  cbv zeta.
  destruct (@alerts_come_with_recommendations
              (sample_report 100 2 50 20 40 0 [HourlyCount.mk 9 30]))
    as (He & _ & _ & Hp).
  - vm_compute. discriminate.
  - split; [apply He|apply Hp]; vm_compute; reflexivity.
Defined.

(** X15. A metric that raises an alert is never praised in the same
    report: with an alert on the resolution rate, the average rating
    or the error rate, the highlights hold no line on an excellent
    resolution rate, a high user satisfaction or a low error rate,
    respectively. *)
Theorem alerted_metrics_are_not_highlighted (a : Analytics.t) :
  let alerts := generateAlerts a in
  let highlights := getPerformanceHighlights a in
  (alerted "resolvedRate" alerts = true ->
     mentioned "Excellent resolution rate" highlights = false)
  /\ (alerted "averageRating" alerts = true ->
        mentioned "High user satisfaction" highlights = false)
  /\ (alerted "errorRate" alerts = true ->
        mentioned "Low error rate" highlights = false).
Proof.
  cbv zeta.
  destruct (alerts_by_metric a) as (He & Hr & Ha & _).
  cbv zeta in He, Hr, Ha. rewrite He, Hr, Ha.
  rewrite highlights_parts. cbv zeta.
  split; [|split]; intros H.
  - apply (Qgt_bool_iff _ (Analytics.resolvedRate a)) in H.
    assert (Hno : JS.Qgt_bool (Analytics.resolvedRate a) 80 = false).
    { apply Qgt_bool_false_iff. lra. }
    rewrite Hno. split_conditions; reflexivity.
  - apply andb_prop in H as [H _].
    apply (Qgt_bool_iff _ (Analytics.averageRating a)) in H.
    assert (Hno : JS.Qge_bool (Analytics.averageRating a) 4 = false).
    { unfold JS.Qge_bool.
      destruct (Qle_bool 4 (Analytics.averageRating a)) eqn:E; [|reflexivity].
      apply Qle_bool_iff in E. lra. }
    rewrite Hno. split_conditions; reflexivity.
  - apply Qgt_bool_iff in H.
    assert (Hno : JS.Qlt_bool (Analytics.errorRate a) 2 = false).
    { apply (Qgt_bool_false_iff _ (Analytics.errorRate a)). lra. }
    rewrite Hno. split_conditions; reflexivity.
Qed.

Lemma alerted_metrics_are_not_highlighted_witness :
  let a := sample_report 100 2 50 20 40 0 [HourlyCount.mk 9 30] in
  mentioned "Excellent resolution rate" (getPerformanceHighlights a) = false
  /\ mentioned "High user satisfaction" (getPerformanceHighlights a) = false
  /\ mentioned "Low error rate" (getPerformanceHighlights a) = false.
Proof.
  cbv zeta.
  destruct (alerted_metrics_are_not_highlighted
              (sample_report 100 2 50 20 40 0 [HourlyCount.mk 9 30]))
    as (Hr & Ha & He).
  split; [apply Hr|split; [apply Ha|apply He]]; vm_compute; reflexivity.
Defined.
End Insights.

(** *** Percent change against trend *)

Section ChangeAndTrend.
Import InsightsService.
Local Open Scope string_scope.



End ChangeAndTrend.

(** *** Keyed tables *)

Lemma len_cons {A} (x : A) (l : list A) : JS.len (x :: l) = (1 + JS.len l)%Z.
Proof. unfold JS.len. cbn [List.length]. lia. Qed.


Section KeyedTables.
Context {A V : Type}.
Variable key : A -> string.
Variable initial : A -> V.
Variable record : V -> A -> V.

Lemma keyed_step_get (m : JS.Map string V) (x : A) (k : string) :
  JS.Map_get String.eqb (keyed_step key initial record m x) k
    = if with_key key k x
      then Some (record (keyed_existing key initial m x) x)
      else JS.Map_get String.eqb m k.
Proof.
  unfold keyed_step, with_key.
  apply (Map_get_set String.eqb String.eqb_eq).
Qed.

Lemma keyed_get (l : list A) (m : JS.Map string V) (k : string) :
  JS.Map_get String.eqb (fold_left (keyed_step key initial record) l m) k
    = match filter (with_key key k) l with
      | [] => JS.Map_get String.eqb m k
      | first :: _ =>
          Some (fold_left record (filter (with_key key k) l)
                  match JS.Map_get String.eqb m k with
                  | Some e => e
                  | None => initial first
                  end)
      end.
Proof.
  revert m. induction l as [|x l IH]; intros m; [reflexivity|].
  cbn [fold_left filter]. rewrite IH, keyed_step_get.
  destruct (with_key key k x) eqn:E.
  - unfold with_key in E. apply String.eqb_eq in E.
    unfold keyed_existing. rewrite E.
    destruct (filter (with_key key k) l); reflexivity.
  - reflexivity.
Qed.

Lemma keyed_NoDup (l : list A) (m : JS.Map string V) :
  NoDup (map fst m) -> NoDup (map fst (fold_left (keyed_step key initial record) l m)).
Proof.
  revert m. induction l as [|x l IH]; intros m Hnd; [exact Hnd|].
  cbn [fold_left]. apply IH.
  apply (Map_set_NoDup String.eqb String.eqb_eq). exact Hnd.
Qed.

(** An entry of the table is the initial record of the first element
    filed under its key after one change per element filed there. *)
Lemma keyed_entry (l : list A) (k : string) (v : V) :
  In (k, v) (fold_left (keyed_step key initial record) l []) ->
  exists first rest,
    filter (with_key key k) l = first :: rest
    /\ v = fold_left record (first :: rest) (initial first).
Proof.
  intros Hin.
  assert (Hget : JS.Map_get String.eqb (fold_left (keyed_step key initial record) l []) k = Some v).
  { apply (Map_get_In String.eqb String.eqb_eq); [|exact Hin].
    apply keyed_NoDup. constructor. }
  rewrite keyed_get in Hget. cbn [JS.Map_get] in Hget.
  destruct (filter (with_key key k) l) as [|first rest]; [discriminate|].
  exists first, rest. split; [reflexivity|]. congruence.
Qed.

Variable count : V -> Z.
Hypothesis count_initial : forall x, count (initial x) = 0%Z.
Hypothesis count_record : forall v x, count (record v x) = (count v + 1)%Z.

Lemma keyed_step_sum (m : JS.Map string V) (x : A) :
  JS.sumZ (fun kv => count (snd kv)) (keyed_step key initial record m x)
    = (JS.sumZ (fun kv => count (snd kv)) m + 1)%Z.
Proof.
  unfold keyed_step, keyed_existing.
  induction m as [|[k' v'] m IH]; cbn [JS.Map_set JS.Map_get].
  - rewrite sumZ_cons. cbn [snd]. rewrite count_record, count_initial.
    reflexivity.
  - destruct (String.eqb k' (key x)) eqn:E.
    + rewrite !sumZ_cons. cbn [snd]. rewrite count_record. lia.
    + rewrite !sumZ_cons, IH. lia.
Qed.

(** The counts of a table add up to the number of elements filed. *)
Lemma keyed_sum (l : list A) (m : JS.Map string V) :
  JS.sumZ (fun kv => count (snd kv)) (fold_left (keyed_step key initial record) l m)
    = (JS.sumZ (fun kv => count (snd kv)) m + JS.len l)%Z.
Proof.
  revert m. induction l as [|x l IH]; intros m; cbn [fold_left].
  - unfold JS.len. cbn [List.length]. lia.
  - rewrite IH, keyed_step_sum, len_cons. lia.
Qed.
End KeyedTables.

(** *** First requests, endings and problem types *)

Section AggregatedTables.
Import OpenAIAnalysisService.

Lemma recordRequest_fold (occ : list ConversationAnalysis.t)
    (e : RequestData.t) :
  fold_left recordRequest occ e
    = RequestData.mk (RequestData.count e + JS.len occ)
        (List.app (RequestData.clarity e) (map clarity_of occ)).
Proof.
  revert e. induction occ as [|a occ IH]; intros e.
  - destruct e. cbn [fold_left map RequestData.count RequestData.clarity].
    rewrite app_nil_r. f_equal. unfold JS.len. cbn [List.length]. lia.
  - cbn [fold_left]. rewrite IH. unfold recordRequest, JS.push.
    cbn [RequestData.count RequestData.clarity map].
    rewrite len_cons, <- app_assoc. f_equal. lia.
Qed.



Lemma requestMap_keyed (analyses : list ConversationAnalysis.t) :
  requestMap analyses
    = fold_left (keyed_step intent_of newRequest recordRequest) analyses [].
Proof. reflexivity. Qed.

Lemma endingMap_keyed (analyses : list ConversationAnalysis.t) :
  endingMap analyses
    = fold_left (keyed_step endingType newEnding recordEnding) analyses [].
Proof. reflexivity. Qed.



(** X17. The common first requests are at most ten distinct intents,
    ranked by count, largest first.  The count of an intent is the
    number of analyses whose first request has it, its percentage is
    that count over the number of all analyses, times 100, and its
    average clarity is the arithmetic mean of the clarity scores of
    those analyses. *)
Theorem first_requests_summary (analyses : list ConversationAnalysis.t) :
  let requests := commonFirstRequests analyses in
  (List.length requests <= 10)%nat
  /\ NoDup (map RequestPattern.pattern requests)
  /\ StronglySorted
       (fun a b => (RequestPattern.count b <= RequestPattern.count a)%Z)
       requests
  /\ Forall
       (fun r =>
          let asked :=
            filter (with_key intent_of (RequestPattern.pattern r)) analyses in
          RequestPattern.count r = JS.len asked
          /\ (1 <= RequestPattern.count r)%Z
          /\ RequestPattern.percentage r
             = (inject_Z (RequestPattern.count r)
                / inject_Z (JS.len analyses)) * 100
          /\ RequestPattern.averageClarity r = mean (map clarity_of asked))
       requests.
Proof.
  cbv zeta. unfold commonFirstRequests. rewrite requestMap_keyed.
  set (m := fold_left (keyed_step intent_of newRequest recordRequest)
              analyses []).
  set (build := fun '(pattern, data) =>
                  RequestPattern.mk pattern (RequestData.count data)
                    ((inject_Z (RequestData.count data)
                      / inject_Z (JS.len analyses)) * 100)
                    (JS.sumQ (fun c => c) (RequestData.clarity data)
                     / inject_Z (JS.len (RequestData.clarity data)))).
  assert (Hnd : NoDup (map fst m)) by (apply keyed_NoDup; constructor).
  assert (Hfst : map RequestPattern.pattern (map build m) = map fst m).
  { rewrite map_map. apply map_ext. intros [k d]. reflexivity. }
  rewrite slice_prefix by lia. change (Z.to_nat 10) with 10%nat.
  split; [apply firstn_le_length|].
  split.
  { rewrite <- firstn_map. apply firstn_NoDup.
    apply (Permutation_NoDup (l := map fst m)); [|exact Hnd].
    rewrite <- Hfst. apply Permutation_map. symmetry. apply sort_perm. }
  split.
  { apply firstn_strongly_sorted.
    exact (sort_by_count_desc RequestPattern.count (map build m)). }
  apply Forall_forall. intros r Hin.
  apply In_firstn in Hin. apply sort_In in Hin.
  apply in_map_iff in Hin as ([k d] & <- & Hkd).
  apply keyed_entry in Hkd as (first & rest & Hocc & ->).
  cbn [build RequestPattern.pattern RequestPattern.count
         RequestPattern.percentage RequestPattern.averageClarity].
  rewrite Hocc, recordRequest_fold.
  cbn [newRequest RequestData.count RequestData.clarity List.app].
  pose proof (len_nonneg rest) as Hr. rewrite len_cons.
  repeat split; try lia.
Qed.


End AggregatedTables.

(** *** Logs converted from sessions *)

Section LegacyLogs.
Import FirestoreService AnalyticsService InsightsService.
Variable LocalTZA : Z -> Z.
Variable toISOString : Date -> string.
Variable localeCompare : string -> string -> Q.

Lemma categorizeQuery_known (query : string) :
  In (categorizeQuery query) categories.
Proof.
  unfold categorizeQuery, categories. cbv zeta.
  repeat match goal with
         | |- context [if ?c then _ else _] => destruct c
         end;
    simpl; tauto.
Qed.


Lemma legacy_log_shape (sessions : list EnrichedChatSession.t)
    (log : ChatLog.t) :
  In log (fetchLogs sessions) ->
  ChatLog.userId log = None
  /\ ChatLog.rating log = None
  /\ ChatLog.error log = Some false
  /\ (exists c, ChatLog.category log = Some c /\ In c categories)
  /\ (sample_of log = [1000] \/ sample_of log = []).
Proof.
  unfold fetchLogs, conversationLogs. intros Hin.
  apply in_flat_map in Hin as (s & _ & Hin).
  apply in_map_iff in Hin as (i & <- & _).
  unfold conversationLog.
  cbn [ChatLog.userId ChatLog.rating ChatLog.error ChatLog.category].
  split; [reflexivity|]. split; [reflexivity|]. split; [reflexivity|].
  split.
  - eexists. split; [reflexivity|]. apply categorizeQuery_known.
  - unfold sample_of, metadata_responseTime.
    cbn [ChatLog.metadata Metadata.responseTime].
    destruct (JS.index _ _); [left|right]; reflexivity.
Qed.

Lemma no_text_no_strings (f : ChatLog.t -> option string)
    (logs : list ChatLog.t) :
  (forall log, In log logs -> f log = None) ->
  filter JS.truthy_text (map f logs) = [].
Proof.
  induction logs as [|log logs IH]; intros H; [reflexivity|].
  cbn [map filter]. rewrite (H log (or_introl eq_refl)).
  cbn [JS.truthy_text]. apply IH. intros l Hl. apply H. right. exact Hl.
Qed.

Lemma no_rating_no_average (logs : list ChatLog.t) :
  (forall log, In log logs -> ChatLog.rating log = None) ->
  calculateAverageRating logs = 0.
Proof.
  intros H. unfold calculateAverageRating.
  assert (Hnone : filter (fun r => JS.Qgt_bool r 0)
                    (map (fun log => JS.Q_or (ChatLog.rating log) 0) logs)
                  = []).
  { induction logs as [|log logs IH]; [reflexivity|].
    cbn [map filter]. rewrite (H log (or_introl eq_refl)).
    cbn [JS.Q_or]. change (JS.Qgt_bool 0 0) with false.
    apply IH. intros l Hl. apply H. right. exact Hl. }
  rewrite Hnone. reflexivity.
Qed.

Lemma no_error_no_rate (logs : list ChatLog.t) :
  (forall log, In log logs -> ChatLog.error log = Some false) ->
  calculateErrorRate logs == 0.
Proof.
  intros H. unfold calculateErrorRate.
  destruct (JS.len logs =? 0)%Z; [reflexivity|].
  assert (Hnone : filter (fun log => is_true (ChatLog.error log)) logs = []).
  { induction logs as [|log logs IH]; [reflexivity|].
    cbn [filter]. rewrite (H log (or_introl eq_refl)).
    cbn [is_true]. apply IH. intros l Hl. apply H. right. exact Hl. }
  cbv zeta. rewrite Hnone. change (inject_Z (JS.len [])) with 0.
  unfold Qdiv. rewrite !Qmult_0_l. reflexivity.
Qed.

Lemma uniform_samples (logs : list ChatLog.t) (stats : ResponseTimeStats.t) :
  (forall log, In log logs -> sample_of log = [1000] \/ sample_of log = []) ->
  analyzeResponseTimes logs = Some stats ->
  stats = ResponseTimeStats.mk 0 0 0 0
  \/ (ResponseTimeStats.median stats = 1000
      /\ ResponseTimeStats.p95 stats = 1000
      /\ ResponseTimeStats.p99 stats = 1000).
Proof.
  intros Hall Hs.
  assert (Hsamples : forall x, In x (flat_map sample_of logs) -> x = 1000).
  { intros x Hx. apply in_flat_map in Hx as (log & Hlog & Hx).
    destruct (Hall log Hlog) as [E|E]; rewrite E in Hx;
      [destruct Hx as [<-|[]]; reflexivity|destruct Hx]. }
  destruct (flat_map sample_of logs) as [|s0 rest] eqn:Es.
  - left. unfold analyzeResponseTimes in Hs.
    rewrite responseTimes_samples, Es in Hs. cbn in Hs. congruence.
  - right.
    assert (Hne : flat_map sample_of logs <> []) by (rewrite Es; discriminate).
    destruct (@analyze_some_sample logs Hne)
      as (m & p & q & Ha & Hm & Hp & Hq & _).
    rewrite Hs in Ha. injection Ha as ->.
    cbn [ResponseTimeStats.median ResponseTimeStats.p95 ResponseTimeStats.p99].
    rewrite Es in Hm, Hp, Hq.
    repeat split; apply Hsamples;
      match goal with
      | H : nth_error _ _ = Some ?v |- In ?v _ =>
          apply nth_error_In in H; apply sort_In in H; exact H
      end.
Qed.

(** X20. The analytics of logs converted from sessions read fixed
    values where the conversion supplies none: no unique users, an
    average rating of 0, an error rate of 0, and response-time
    percentiles that are all 1000 or all 0.  So the alerts on the
    error rate, the average rating and the response time are never
    raised, the highlights on user satisfaction and on the median
    response time are never given, and the highlight on a low error
    rate always is. *)
Theorem converted_logs_fixed_readings (sessions : list EnrichedChatSession.t) :
  exists analytics : Analytics.t,
    analyzeLogsAggregation LocalTZA toISOString localeCompare
      (fetchLogs sessions) = Some analytics
    /\ Analytics.uniqueUsers analytics = 0%Z
    /\ Analytics.averageRating analytics = 0
    /\ Analytics.errorRate analytics == 0
    /\ (Analytics.responseTimeAnalysis analytics = ResponseTimeStats.mk 0 0 0 0
        \/ (ResponseTimeStats.median (Analytics.responseTimeAnalysis analytics)
            = 1000
            /\ ResponseTimeStats.p95 (Analytics.responseTimeAnalysis analytics)
               = 1000
            /\ ResponseTimeStats.p99 (Analytics.responseTimeAnalysis analytics)
               = 1000))
    /\ alerted "errorRate" (generateAlerts analytics) = false
    /\ alerted "averageRating" (generateAlerts analytics) = false
    /\ alerted "responseTime" (generateAlerts analytics) = false
    /\ mentioned "High user satisfaction: "
         (getPerformanceHighlights analytics) = false
    /\ mentioned "Fast median response time: "
         (getPerformanceHighlights analytics) = false
    /\ mentioned "Low error rate: " (getPerformanceHighlights analytics) = true.
Proof.
  set (logs := fetchLogs sessions).
  pose proof (legacy_log_shape sessions) as Hshape. fold logs in Hshape.
  destruct (analyzeResponseTimes_defined logs) as [stats Hs].
  assert (Hstats := uniform_samples logs
                      (fun log Hlog => proj2 (proj2 (proj2 (proj2 (Hshape log Hlog)))))
                      Hs).
  assert (Hrating : calculateAverageRating logs = 0).
  { apply no_rating_no_average. intros log Hlog. apply (Hshape log Hlog). }
  assert (Herror : calculateErrorRate logs == 0).
  { apply no_error_no_rate. intros log Hlog. apply (Hshape log Hlog). }
  assert (Husers : getUniqueUsers logs = 0%Z).
  { unfold getUniqueUsers. rewrite no_text_no_strings; [reflexivity|].
    intros log Hlog. apply (Hshape log Hlog). }
  unfold analyzeLogsAggregation. rewrite Hs. cbv zeta.
  eexists. split; [reflexivity|].
  destruct (alerts_by_metric
              (Analytics.mk (JS.len logs) (getUniqueUsers logs)
                 (calculateAverageSessionDuration logs)
                 (calculateAverageRating logs) (calculateResolvedRate logs)
                 (calculateErrorRate logs) (getTopCategories logs)
                 (getHourlyDistribution LocalTZA logs)
                 (getDailyTrend toISOString localeCompare logs)
                 (findCommonIssues logs) (analyzeUserSentiment logs) stats
                 (getPlatformDistribution logs) (getAppVersions logs)
                 (calculateAverageMessagesPerSession logs)
                 (getSessionsWithActions logs) (getTotalMessages logs)
                 (calculateAverageMessageLength logs)))
    as (Ae & _ & Ar & _).
  cbv zeta in Ae, Ar.
  rewrite Ae, Ar, alert_on_response_time.
  destruct (highlights_by_line
              (Analytics.mk (JS.len logs) (getUniqueUsers logs)
                 (calculateAverageSessionDuration logs)
                 (calculateAverageRating logs) (calculateResolvedRate logs)
                 (calculateErrorRate logs) (getTopCategories logs)
                 (getHourlyDistribution LocalTZA logs)
                 (getDailyTrend toISOString localeCompare logs)
                 (findCommonIssues logs) (analyzeUserSentiment logs) stats
                 (getPlatformDistribution logs) (getAppVersions logs)
                 (calculateAverageMessagesPerSession logs)
                 (getSessionsWithActions logs) (getTotalMessages logs)
                 (calculateAverageMessageLength logs)))
    as (Hsat & Hlow & Hfast).
  cbv zeta in Hsat, Hlow, Hfast.
  rewrite Hsat, Hlow, Hfast.
  cbn [Analytics.uniqueUsers Analytics.averageRating Analytics.errorRate
         Analytics.responseTimeAnalysis].
  rewrite Hrating.
  split; [exact Husers|]. split; [reflexivity|]. split; [exact Herror|].
  split; [exact Hstats|].
  split; [apply Qgt_bool_false_iff; rewrite Herror; discriminate|].
  split; [reflexivity|].
  split.
  { destruct Hstats as [->|(_ & -> & _)]; reflexivity. }
  split; [reflexivity|].
  split.
  { destruct Hstats as [->|(-> & _ & _)]; reflexivity. }
  apply (Qgt_bool_iff 2). rewrite Herror. reflexivity.
Qed.

Lemma sumZ_flat_map {A B} (f : B -> Z) (g : A -> list B) (l : list A) :
  JS.sumZ f (flat_map g l) = JS.sumZ (fun x => JS.sumZ f (g x)) l.
Proof.
  induction l as [|x l IH]; [reflexivity|].
  cbn [flat_map]. rewrite sumZ_app, sumZ_cons, IH. reflexivity.
Qed.

Lemma sumZ_const {A} (f : A -> Z) (l : list A) (c : Z) :
  (forall x, In x l -> f x = c) -> JS.sumZ f l = (JS.len l * c)%Z.
Proof.
  induction l as [|x l IH]; intros H; [reflexivity|].
  rewrite sumZ_cons, len_cons, (H x (or_introl eq_refl)), IH; [lia|].
  intros y Hy. apply H. right. exact Hy.
Qed.

Lemma conversationLogs_len (s : EnrichedChatSession.t) :
  JS.len (conversationLogs s) = interactions s.
Proof.
  unfold conversationLogs, interactions, JS.len.
  rewrite length_map, length_seq. lia.
Qed.

(** X21. A session is converted into one log per interaction pair,
    as many as the larger of its numbers of user and bot messages,
    and each of these logs carries the message count of the whole
    session.  So the total number of messages computed from
    converted logs counts the messages of a session once per
    interaction pair, taking 1 for a count of 0. *)
Theorem converted_logs_repeat_session_counts
    (sessions : list EnrichedChatSession.t) :
  JS.len (fetchLogs sessions) = JS.sumZ interactions sessions
  /\ getTotalMessages (fetchLogs sessions)
     = JS.sumZ
         (fun s =>
            interactions s
            * JS.Z_or
                (Some (ChatSession.message_count (EnrichedChatSession.session s)))
                1)%Z
         sessions.
Proof.
  unfold fetchLogs, getTotalMessages. split.
  - induction sessions as [|s rest IH]; [reflexivity|].
    cbn [flat_map]. unfold JS.len in *. rewrite length_app, sumZ_cons.
    rewrite <- IH. pose proof (conversationLogs_len s) as Hs.
    unfold JS.len in Hs. lia.
  - rewrite sumZ_flat_map. apply sumZ_ext. intros s.
    rewrite <- conversationLogs_len. apply sumZ_const.
    intros log Hlog. unfold conversationLogs in Hlog.
    apply in_map_iff in Hlog as (i & <- & _). reflexivity.
Qed.



End LegacyLogs.

(** *** The aggregated analysis as a whole *)

Lemma sumZ_firstn_le {A} (f : A -> Z) (l : list A) (k : nat) :
  Forall (fun x => (0 <= f x)%Z) l ->
  (JS.sumZ f (firstn k l) <= JS.sumZ f l)%Z.
Proof.
  intros Hall.
  assert (Hsplit : JS.sumZ f l
                   = (JS.sumZ f (firstn k l) + JS.sumZ f (skipn k l))%Z).
  { rewrite <- sumZ_app, firstn_skipn. reflexivity. }
  enough (0 <= JS.sumZ f (skipn k l))%Z by lia.
  assert (Hk : Forall (fun x => (0 <= f x)%Z) (skipn k l)).
  { apply Forall_forall. intros x Hx. rewrite Forall_forall in Hall.
    apply Hall. apply In_skipn in Hx. exact Hx. }
  clear Hsplit. induction Hk as [|x rest Hx _ IH]; [reflexivity|].
  rewrite sumZ_cons. lia.
Qed.

Section CountedTables.
Context {A V : Type}.
Variable key : A -> string.
Variable initial : A -> V.
Variable record : V -> A -> V.
Variable count : V -> Z.
Hypothesis count_initial : forall x, count (initial x) = 0%Z.
Hypothesis count_record : forall v x, count (record v x) = (count v + 1)%Z.

Lemma record_fold_count (occ : list A) (e : V) :
  count (fold_left record occ e) = (count e + JS.len occ)%Z.
Proof.
  revert e. induction occ as [|x occ IH]; intros e; cbn [fold_left].
  - unfold JS.len. cbn [List.length]. lia.
  - rewrite IH, count_record, len_cons. lia.
Qed.

Lemma keyed_counts_nonneg (l : list A) :
  Forall (fun kv => (0 <= count (snd kv))%Z)
    (fold_left (keyed_step key initial record) l []).
Proof.
  apply Forall_forall. intros [k v] Hkv.
  apply keyed_entry in Hkv as (first & rest & _ & ->).
  cbn [snd]. rewrite record_fold_count, count_initial.
  pose proof (len_nonneg (first :: rest)). lia.
Qed.

(** The counts of the first entries of any arrangement of a table add
    up to at most the number of elements filed. *)
Lemma keyed_top_sum {E} (build : string * V -> E) (tally : E -> Z)
    (cmp : E -> E -> Q) (l : list A) (k : nat) :
  (forall kv, tally (build kv) = count (snd kv)) ->
  (JS.sumZ tally
     (firstn k (JS.sort cmp
                  (map build (fold_left (keyed_step key initial record) l []))))
   <= JS.len l)%Z.
Proof.
  intros Hbuild.
  set (m := fold_left (keyed_step key initial record) l []).
  assert (Hsum : JS.sumZ tally (JS.sort cmp (map build m)) = JS.len l).
  { rewrite (sumZ_perm _ (sort_perm cmp _)), sumZ_map.
    rewrite (sumZ_ext (fun x => tally (build x))
               (fun kv => count (snd kv))) by exact Hbuild.
    unfold m. rewrite (keyed_sum key initial record count) by assumption.
    reflexivity. }
  rewrite <- Hsum. apply sumZ_firstn_le.
  apply Forall_forall. intros e He. apply sort_In in He.
  apply in_map_iff in He as (kv & <- & Hkv). rewrite Hbuild.
  pose proof (keyed_counts_nonneg l) as Hall. rewrite Forall_forall in Hall.
  apply Hall. exact Hkv.
Qed.
End CountedTables.

Section Aggregated.
Import OpenAIAnalysisService.
Variable now : Date.

Lemma flowPatterns_keyed (analyses : list ConversationAnalysis.t) :
  flowPatterns analyses
    = fold_left
        (keyed_step flowPatternKey
           (fun a => ConversationPattern.mk (flowPatternKey a) 0 0 [])
           recordFlow)
        analyses [].
Proof. reflexivity. Qed.

(** X24. The parts of the aggregated analysis agree on the number of
    sessions: it is the number of analyses, there is one transcript
    per analysis, in order and carrying that analysis, the counts of
    the ending patterns add up to it, and the counts of the reported
    first requests and the frequencies of the reported flow patterns
    add up to at most it.  A transcript whose analysis matches no
    supplied session has no messages, the platform [unknown] and a
    message count and duration of 0. *)
Theorem aggregated_parts_agree (analyses : list ConversationAnalysis.t)
    (sessions : option (list EnrichedChatSession.t)) :
  let aggregated := aggregateAnalyses now analyses sessions in
  let total := AggregatedAnalysis.totalSessions aggregated in
  let transcripts := AggregatedAnalysis.conversationTranscripts aggregated in
  total = JS.len analyses
  /\ map ConversationTranscript.analysis transcripts = map Some analyses
  /\ map ConversationTranscript.sessionId transcripts
     = map ConversationAnalysis.sessionId analyses
  /\ JS.sumZ EndingPattern.count (AggregatedAnalysis.endingPatterns aggregated)
     = total
  /\ (JS.sumZ RequestPattern.count
        (AggregatedAnalysis.commonFirstRequests aggregated) <= total)%Z
  /\ (JS.sumZ ConversationPattern.frequency
        (AggregatedAnalysis.conversationPatterns aggregated) <= total)%Z
  /\ Forall
       (fun transcript =>
          match findSession sessions
                  (ConversationTranscript.sessionId transcript) with
          | Some s =>
              List.length (ConversationTranscript.messages transcript)
              = List.length (EnrichedChatSession.messages s)
          | None =>
              ConversationTranscript.messages transcript = []
              /\ ConversationTranscript.platform transcript = "unknown"%string
              /\ ConversationTranscript.messageCount transcript = 0%Z
              /\ ConversationTranscript.duration transcript = 0
          end)
       transcripts.
Proof.
  cbv zeta. unfold aggregateAnalyses.
  cbn [AggregatedAnalysis.totalSessions
         AggregatedAnalysis.conversationTranscripts
         AggregatedAnalysis.endingPatterns
         AggregatedAnalysis.commonFirstRequests
         AggregatedAnalysis.conversationPatterns].
  unfold conversationTranscripts.
  split; [reflexivity|].
  split; [rewrite map_map; reflexivity|].
  split; [rewrite map_map; reflexivity|].
  split.
  { unfold endingPatterns. rewrite endingMap_keyed.
    rewrite (sumZ_perm _ (sort_perm _ _)), !sumZ_map.
    rewrite (sumZ_ext _ (fun kv => EndingPattern.count (snd kv)))
      by reflexivity.
    rewrite (keyed_sum endingType newEnding recordEnding EndingPattern.count)
      by reflexivity.
    reflexivity. }
  split.
  { unfold commonFirstRequests. rewrite requestMap_keyed.
    rewrite slice_prefix by lia.
    apply (keyed_top_sum intent_of newRequest recordRequest RequestData.count);
      try reflexivity.
    intros [k d]. reflexivity. }
  split.
  { unfold conversationPatterns. rewrite flowPatterns_keyed.
    rewrite slice_prefix by lia.
    apply (@keyed_top_sum _ _ flowPatternKey
             (fun a => ConversationPattern.mk (flowPatternKey a) 0 0 [])
             recordFlow ConversationPattern.frequency
             (fun _ => eq_refl) (fun _ _ => eq_refl)
             _ snd ConversationPattern.frequency).
    reflexivity. }
  apply Forall_forall. intros transcript Hin.
  apply in_map_iff in Hin as (analysis & <- & _).
  unfold transcriptOf. cbn [ConversationTranscript.sessionId
                              ConversationTranscript.messages
                              ConversationTranscript.platform
                              ConversationTranscript.messageCount
                              ConversationTranscript.duration].
  destruct (findSession sessions (ConversationAnalysis.sessionId analysis)).
  - rewrite length_map. reflexivity.
  - repeat split.
Qed.
End Aggregated.
